(** * Question understanding and dialogue routing of the quality analyzers

    A shallow embedding of the routing code of
    [backend/enhanced_smart_analyzer.py] (class [EnhancedSmartAnalyzer]) and
    [backend/intelligent_data_analyzer.py] (class [IntelligentDataAnalyzer]).

    Conventions of the embedding.
    - A Python [str] is a [string]; questions are taken to be ASCII text, so
      [str.lower] folds the letters [A]-[Z] only and [\s], [\d] are the ASCII
      classes (bytes of other characters are left untouched and never match).
      Column names are UTF-8 text: the test [col.strip()] of the column
      discovery knows every white-space character of Unicode.
    - [int] is the one of CPython 3.11 with its default limit: a text of
      more than 4300 digits raises a [ValueError]. An exception that leaves
      a function is an outcome of its own in the embedding.
    - The analyzers are taken after a load that succeeded: [self.df] is a
      frame whose column names are texts, with the columns [Date],
      [Part Name] and [Total Rej Qty.] among them.
    - [x in s] on strings is [contains x s].
    - [re.search] / [re.findall] are run by a small backtracking matcher that
      enumerates the candidate matches in the priority order of Python's
      engine (greedy repetition, ordered alternation, leftmost start).
    - A [dict] whose iteration order matters is an association list in
      insertion order.
    - The data frame is reduced to what the routing code reads of it: the
      numeric defect columns and, for the date questions, the rows with
      their date, part name and rejected quantity. The numeric columns are
      [int64] columns: their sums, and the sums of such sums, wrap around
      as numpy's do. Chart rendering and the pandas aggregations are
      represented by the call that is made to them. *)

From Stdlib Require Import Bool List ZArith Lia Ascii String.
From Stdlib Require Import Sorted Permutation.
Import ListNotations.

Open Scope string_scope.
Open Scope Z_scope.

(** ** Python string primitives *)

Module PyStr.

Definition is_upper (a : ascii) : bool :=
  let n := nat_of_ascii a in (Nat.leb 65 n && Nat.leb n 90)%bool.

Definition is_digit (a : ascii) : bool :=
  let n := nat_of_ascii a in (Nat.leb 48 n && Nat.leb n 57)%bool.

(** [str.isspace] on one ASCII character: TAB, LF, VT, FF, CR, the four
    separators 0x1c-0x1f and the blank. *)
Definition is_space (a : ascii) : bool :=
  let n := nat_of_ascii a in
  ((Nat.leb 9 n && Nat.leb n 13) || (Nat.leb 28 n && Nat.leb n 32))%bool.

Definition lower_ascii (a : ascii) : ascii :=
  if is_upper a then ascii_of_nat (nat_of_ascii a + 32) else a.

(** [s.lower()] *)
Fixpoint lower (s : string) : string :=
  match s with
  | EmptyString => EmptyString
  | String a t => String (lower_ascii a) (lower t)
  end.

(** [s.lstrip()] *)
Fixpoint lstrip (s : string) : string :=
  match s with
  | String a t => if is_space a then lstrip t else s
  | EmptyString => EmptyString
  end.

(** [s.rstrip()]: a character is dropped when it is blank and everything
    after it has been dropped. *)
Fixpoint rstrip (s : string) : string :=
  match s with
  | EmptyString => EmptyString
  | String a t =>
      match rstrip t with
      | EmptyString => if is_space a then EmptyString else String a EmptyString
      | t' => String a t'
      end
  end.

(** [s.strip()] *)
Definition strip (s : string) : string := rstrip (lstrip s).

(** [x in s] *)
Fixpoint contains (x s : string) : bool :=
  if String.prefix x s then true
  else match s with
       | EmptyString => false
       | String _ t => contains x t
       end.

(** [any(w in s for w in ws)] *)
Definition any_in (ws : list string) (s : string) : bool :=
  existsb (fun w => contains w s) ws.

(** truth value of a string: [bool(s)] *)
Definition truthy (s : string) : bool :=
  match s with EmptyString => false | _ => true end.

(** the number a string of ASCII digits denotes *)
Definition int_of_digits (s : string) : Z :=
  fold_left (fun acc a => 10 * acc + Z.of_nat (nat_of_ascii a - 48))
            (list_ascii_of_string s) 0.

(** [sys.get_int_max_str_digits()] *)
Definition max_str_digits : Z := 4300.

(** [int(s)] for a string of ASCII digits; [None] is the [ValueError]
    raised for more than [max_str_digits] digits (leading zeros count) *)
Definition int (s : string) : option Z :=
  if Z.of_nat (String.length s) <=? max_str_digits
  then Some (int_of_digits s)
  else None.

(** The exceptions met in the code, and the outcome of a call that may
    end in one. *)
Inductive exception := ValueError | TypeError | KeyError | IndexError.

Inductive result (A : Type) :=
| Returns (a : A)
| Raises (e : exception).

Arguments Returns {A} a.
Arguments Raises {A} e.

(** The white-space characters of Unicode beyond ASCII, in UTF-8: U+0085
    and U+00A0 on two bytes; U+1680, U+2000 to U+200A, U+2028, U+2029,
    U+202F, U+205F and U+3000 on three. *)
Definition space_2_bytes (a b : ascii) : bool :=
  (Ascii.eqb a "194"%char && (Ascii.eqb b "133"%char || Ascii.eqb b "160"%char))%bool.

Definition space_3_bytes (a b c : ascii) : bool :=
  let n := nat_of_ascii c in
  ((Ascii.eqb a "225"%char && Ascii.eqb b "154"%char && Ascii.eqb c "128"%char)
   || (Ascii.eqb a "226"%char && Ascii.eqb b "128"%char
       && ((Nat.leb 128 n && Nat.leb n 138) || Nat.eqb n 168
           || Nat.eqb n 169 || Nat.eqb n 175))
   || (Ascii.eqb a "226"%char && Ascii.eqb b "129"%char && Ascii.eqb c "159"%char)
   || (Ascii.eqb a "227"%char && Ascii.eqb b "128"%char && Ascii.eqb c "128"%char))%bool.

(** [not s.strip()] for a UTF-8 text: every character is white space *)
Fixpoint blank (s : string) : bool :=
  match s with
  | EmptyString => true
  | String a t =>
      if is_space a then blank t
      else match t with
           | String b t' =>
               if space_2_bytes a b then blank t'
               else match t' with
                    | String c t'' => (space_3_bytes a b c && blank t'')%bool
                    | EmptyString => false
                    end
           | EmptyString => false
           end
  end.

(** [l[:count]] for [count] an [int] or [None] *)
Definition slice_to {A} (count : option Z) (l : list A) : list A :=
  match count with
  | None => l
  | Some n => if n <? 0 then firstn (Nat.sub (List.length l) (Z.to_nat (- n))) l
              else firstn (Z.to_nat n) l
  end.

(** the text Python prints for a natural number *)
Fixpoint digits_of (fuel n : nat) (acc : string) : string :=
  match fuel with
  | O => acc
  | S fuel' =>
      let acc' := String (ascii_of_nat (48 + Nat.modulo n 10)) acc in
      if Nat.ltb n 10 then acc' else digits_of fuel' (Nat.div n 10) acc'
  end.

Definition str_of_nat (n : nat) : string := digits_of (S n) n EmptyString.

End PyStr.

(** ** The fragment of Python's [re] used by the analyzers *)

Module Regex.

Inductive regex : Type :=
| RLit (s : string)                 (* literal text *)
| RSet (p : ascii -> bool)          (* one character of a class *)
| RStar (p : ascii -> bool)         (* greedy [c*] over a class *)
| RSeq (r1 r2 : regex)
| RAlt (r1 r2 : regex)              (* [r1|r2], left first *)
| ROpt (r : regex)                  (* greedy [r?] *)
| RGroup (n : nat) (r : regex).     (* capturing group number [n] *)

(** greedy [c+] *)
Definition RPlus (p : ascii -> bool) : regex := RSeq (RSet p) (RStar p).

Definition captures := list (nat * string).

(** [strip_prefix x s]: what is left of [s] after the literal [x] *)
Fixpoint strip_prefix (x s : string) : option string :=
  match x, s with
  | EmptyString, _ => Some s
  | String a x', String b s' =>
      if Ascii.eqb a b then strip_prefix x' s' else None
  | String _ _, EmptyString => None
  end.

(** The positions a greedy class star can stop at, longest run first. *)
Fixpoint star_rests (p : ascii -> bool) (s : string) : list string :=
  match s with
  | String a t => if p a then star_rests p t ++ [s] else [s]
  | EmptyString => [s]
  end.

(** the text consumed between [s] and its suffix [rest] *)
Definition consumed (s rest : string) : string :=
  String.substring 0 (String.length s - String.length rest) s.

(** [run r s c]: every way [r] matches a prefix of [s], as the remaining
    text with the groups captured so far, in the order the backtracking
    engine tries them. *)
Fixpoint run (r : regex) (s : string) (c : captures)
  : list (string * captures) :=
  match r with
  | RLit x => match strip_prefix x s with
              | Some rest => [(rest, c)]
              | None => []
              end
  | RSet p => match s with
              | String a t => if p a then [(t, c)] else []
              | EmptyString => []
              end
  | RStar p => map (fun rest => (rest, c)) (star_rests p s)
  | RSeq r1 r2 => flat_map (fun sc => run r2 (fst sc) (snd sc)) (run r1 s c)
  | RAlt r1 r2 => run r1 s c ++ run r2 s c
  | ROpt r1 => run r1 s c ++ [(s, c)]
  | RGroup n r1 =>
      map (fun sc => (fst sc, (n, consumed s (fst sc)) :: snd sc)) (run r1 s c)
  end.

(** A match object: the matched text and the captured groups. *)
Record match_obj := { whole : string; groups : captures }.

(** [m.group(n)]; [None] when the group took no part in the match *)
Fixpoint lookup_group (n : nat) (c : captures) : option string :=
  match c with
  | [] => None
  | (k, v) :: c' => if Nat.eqb k n then Some v else lookup_group n c'
  end.

Definition group (n : nat) (m : match_obj) : option string :=
  lookup_group n (groups m).

(** [re.match]: the preferred match at the start of [s] *)
Definition match_here (r : regex) (s : string) : option match_obj :=
  match run r s [] with
  | (rest, c) :: _ => Some {| whole := consumed s rest; groups := c |}
  | [] => None
  end.

(** [re.search]: the preferred match at the leftmost start that has one *)
Fixpoint search (r : regex) (s : string) : option match_obj :=
  match match_here r s with
  | Some m => Some m
  | None => match s with
            | String _ t => search r t
            | EmptyString => None
            end
  end.

(** [re.findall], as the list of successive non-overlapping matches.
    [skip] counts the characters of the last match still to be passed.
    None of the patterns used can match the empty text. *)
Fixpoint findall_from (r : regex) (s : string) (skip : nat) : list match_obj :=
  match skip with
  | S k => match s with
           | String _ t => findall_from r t k
           | EmptyString => []
           end
  | O => match match_here r s with
         | Some m =>
             match s with
             | String _ t => m :: findall_from r t (String.length (whole m) - 1)
             | EmptyString => [m]
             end
         | None => match s with
                   | String _ t => findall_from r t 0
                   | EmptyString => []
                   end
         end
  end.

Definition findall (r : regex) (s : string) : list match_obj :=
  findall_from r s 0.

(** character classes *)
Definition d : ascii -> bool := PyStr.is_digit.
Definition sp : ascii -> bool := PyStr.is_space.
Definition dot (a : ascii) : bool := negb (Ascii.eqb a "010"%char).
Definition upper : ascii -> bool := PyStr.is_upper.
(** [[A-Z\s\d-]] *)
Definition upper_sp_d_dash (a : ascii) : bool :=
  (PyStr.is_upper a || PyStr.is_space a || PyStr.is_digit a
   || Ascii.eqb a "-"%char)%bool.

(** [r1 r2 ... rn] and [r1|r2|...|rn] *)
Fixpoint seqs (rs : list regex) : regex :=
  match rs with
  | [] => RLit EmptyString
  | [r] => r
  | r :: rs' => RSeq r (seqs rs')
  end.

Fixpoint alts (rs : list regex) : regex :=
  match rs with
  | [] => RSet (fun _ => false)
  | [r] => r
  | r :: rs' => RAlt r (alts rs')
  end.

Definition lits (ws : list string) : regex := alts (map RLit ws).

End Regex.

(** ** [EnhancedSmartAnalyzer] *)

Module Enhanced.
Import PyStr Regex.

(** *** Data *)

Inductive chart_type := Pie | Bar | Line | Scatter | ChartAuto.
Inductive data_focus := Defects | Parts | Trends | Performance | FocusAuto.
Inductive question_type :=
| Comparison | Ranking | Quantity | Analysis | Visualization | Specific
| Temporal | General.

Definition chart_type_eqb (a b : chart_type) : bool :=
  match a, b with
  | Pie, Pie | Bar, Bar | Line, Line | Scatter, Scatter
  | ChartAuto, ChartAuto => true
  | _, _ => false
  end.

(** The entries of a pattern table that the scoring reads
    (['best_for'] and ['entities'] are never read). *)
Record patterns := { keywords : list string; phrases : list string }.

(** [setup_semantic_patterns]: the two tables, in the order of the dict
    literals. *)
Definition chart_type_patterns : list (chart_type * patterns) :=
  [ (Pie, {| keywords := ["pie"; "distribution"; "proportion"; "percentage";
                          "share"; "breakdown"];
             phrases := ["pie chart"; "show distribution"; "break down";
                         "proportion of"] |});
    (Bar, {| keywords := ["bar"; "compare"; "comparison"; "ranking"; "top";
                          "highest"; "lowest"];
             phrases := ["bar chart"; "compare"; "rank"; "top 10"; "highest";
                         "lowest"] |});
    (Line, {| keywords := ["line"; "trend"; "over time"; "timeline";
                           "progression"; "change"];
              phrases := ["line chart"; "over time"; "trend analysis";
                          "time series"] |});
    (Scatter, {| keywords := ["scatter"; "correlation"; "relationship";
                              "versus"; "vs"];
                 phrases := ["scatter plot"; "correlation";
                             "relationship between"] |}) ].

Definition data_focus_patterns : list (data_focus * patterns) :=
  [ (Defects, {| keywords := ["defect"; "rejection"; "reason"; "cause";
                              "problem"; "issue"; "fault"];
                 phrases := ["rejection reasons"; "defect types";
                             "why rejected"; "causes of"] |});
    (Parts, {| keywords := ["part"; "component"; "item"; "product"; "piece"];
               phrases := ["part number"; "which part"; "part analysis";
                           "component"] |});
    (Trends, {| keywords := ["trend"; "time"; "monthly"; "daily"; "weekly";
                             "over time"; "progression"];
                phrases := ["over time"; "trend analysis"; "time series";
                            "monthly trends"] |});
    (Performance, {| keywords := ["performance"; "quality"; "efficiency";
                                  "rate"; "ratio"; "percentage"];
                     phrases := ["rejection rate"; "quality performance";
                                 "efficiency analysis"] |}) ].

(** The dict built by [analyze_question_semantically]. *)
Record analysis := {
  original_question : string;
  chart : chart_type;
  focus : data_focus;
  specific_count : option Z;
  qtype : question_type
}.

(** *** Scoring *)

(** the inner loops of [determine_chart_type] / [determine_data_focus] *)
Definition score (p : patterns) (question_lower : string) : Z :=
  let s1 := fold_left (fun sc kw => if contains kw question_lower
                                    then sc + 2 else sc) (keywords p) 0 in
  fold_left (fun sc ph => if contains ph question_lower
                          then sc + 3 else sc) (phrases p) s1.

Definition scores {K} (table : list (K * patterns)) (question_lower : string)
  : list (K * Z) :=
  map (fun e => (fst e, score (snd e) question_lower)) table.

(** [d[k] += n] *)
Definition bump (k : chart_type) (n : Z) (d : list (chart_type * Z))
  : list (chart_type * Z) :=
  map (fun e => if chart_type_eqb (fst e) k then (fst e, snd e + n) else e) d.

(** [max(d, key=d.get)] with the value it has: the loop of [max] keeps the
    entry seen first among those of greatest value. *)
Definition max_entry {K} (d : list (K * Z)) : option (K * Z) :=
  match d with
  | [] => None
  | e :: t => Some (fold_left (fun best x => if snd best <? snd x
                                              then x else best) t e)
  end.

Definition best_label {K} (auto : K) (d : list (K * Z)) : K :=
  match max_entry d with
  | Some (k, v) => if 0 <? v then k else auto
  | None => auto
  end.

Definition chart_scores (question_lower : string) : list (chart_type * Z) :=
  let s0 := scores chart_type_patterns question_lower in
  let s1 := if any_in ["distribution"; "proportion"; "breakdown"; "share"]
                      question_lower then bump Pie 5 s0 else s0 in
  let s2 := if any_in ["compare"; "top"; "highest"; "lowest"; "rank"]
                      question_lower then bump Bar 5 s1 else s1 in
  if any_in ["trend"; "over time"; "monthly"; "progression"] question_lower
  then bump Line 5 s2 else s2.

Definition determine_chart_type (question_lower : string) : chart_type :=
  best_label ChartAuto (chart_scores question_lower).

Definition determine_data_focus (question_lower : string) : data_focus :=
  best_label FocusAuto (scores data_focus_patterns question_lower).

(** the local dict [question_types] of [determine_question_type] *)
Definition question_types : list (question_type * list string) :=
  [ (Comparison, ["compare"; "versus"; "vs"; "difference"; "better"; "worse"]);
    (Ranking, ["top"; "highest"; "lowest"; "best"; "worst"; "rank"]);
    (Quantity, ["how many"; "count"; "number"; "total"; "sum"]);
    (Analysis, ["analyze"; "analysis"; "insight"; "pattern"; "trend"]);
    (Visualization, ["chart"; "graph"; "plot"; "draw"; "show"; "visualize"]);
    (Specific, ["which"; "what"; "when"; "where"; "who"]);
    (Temporal, ["when"; "date"; "time"; "month"; "day"; "year"]) ].

Fixpoint first_type (table : list (question_type * list string))
         (question_lower : string) : question_type :=
  match table with
  | [] => General
  | (q_type, kws) :: rest =>
      if any_in kws question_lower then q_type
      else first_type rest question_lower
  end.

Definition determine_question_type (question_lower : string) : question_type :=
  first_type question_types question_lower.

(** *** Count extraction *)

(** [top\s*(\d+)|first\s*(\d+)|(\d+)\s*most|(\d+)\s*highest] *)
Definition number_pattern : regex :=
  alts [ seqs [RLit "top"; RStar sp; RGroup 1 (RPlus d)];
         seqs [RLit "first"; RStar sp; RGroup 2 (RPlus d)];
         seqs [RGroup 3 (RPlus d); RStar sp; RLit "most"];
         seqs [RGroup 4 (RPlus d); RStar sp; RLit "highest"] ].

(** the tuple [re.findall] gives for one match: a group that took no part
    is the empty string *)
Definition group_tuple (n : nat) (m : match_obj) : list string :=
  map (fun k => match group k m with Some v => v | None => EmptyString end)
      (seq 1 n).

Definition count_truthy (c : option Z) : bool :=
  match c with Some n => negb (n =? 0) | None => false end.

(** The two nested loops over [number_matches]. The [int(num)] in them is
    in no [try]: its [ValueError] ends the pass. *)
Fixpoint scan_number_matches (ms : list (list string)) (cur : option Z)
  : result (option Z) :=
  match ms with
  | [] => Returns cur
  | m :: ms' =>
      match match find truthy m with
            | Some num => option_map Some (int num)
            | None => Some cur
            end with
      | Some cur' =>
          if count_truthy cur' then Returns cur'
          else scan_number_matches ms' cur'
      | None => Raises ValueError
      end
  end.

Definition extract_specific_count (question_lower : string)
  : result (option Z) :=
  scan_number_matches
    (map (group_tuple 4) (findall number_pattern question_lower)) None.

Definition analyze_question_semantically (question : string)
  : result analysis :=
  let question_lower := strip (lower question) in
  match extract_specific_count question_lower with
  | Returns count =>
      Returns {| original_question := question;
                 chart := determine_chart_type question_lower;
                 focus := determine_data_focus question_lower;
                 specific_count := count;
                 qtype := determine_question_type question_lower |}
  | Raises e => Raises e
  end.

(** *** Handlers

    What a turn ends in: the aggregation or chart routine that is invoked,
    with the arguments the router hands to it, or the exception that leaves
    [answer_question] before any routine is invoked. *)

Inductive call :=
| PieChart (count : Z)                 (* [create_intelligent_pie_chart] *)
| LineChart                            (* [create_intelligent_line_chart] *)
| BarChart (count : Z)                 (* [create_intelligent_bar_chart] *)
| TopRejectionReasons (count : option Z) (* [get_top_rejection_reasons] *)
| HighestRejectionsPart                (* the group-by of [handle_parts_analysis] *)
| PartsAnalysisAvailable               (* its fixed text *)
| MonthlyTrend                         (* the group-by of [handle_trend_analysis] *)
| ValueErrorRaised.                    (* the [int(num)] of the pass *)

(** [x or default] on a count *)
Definition count_or (c : option Z) (default : Z) : Z :=
  match c with
  | Some n => if n =? 0 then default else n
  | None => default
  end.

(** The [except] clause of [create_smart_visualization] has no counterpart
    here: the body only reads the analysis, and each chart routine catches
    its own errors. *)
Definition create_smart_visualization (question : string) (a : analysis)
  : call :=
  let count := count_or (specific_count a) 15 in
  let chart_type :=
    match chart a with
    | ChartAuto =>
        match focus a with
        | Defects => if contains "distribution" (lower question)
                     then Pie else Bar
        | Trends => Line
        | Parts => Bar
        | _ => Bar
        end
    | c => c
    end in
  match chart_type with
  | Pie => PieChart count
  | Line => LineChart
  | Bar => BarChart count
  | _ => BarChart count
  end.

Definition wants_chart (question : string) : bool :=
  (contains "chart" (lower question) || contains "graph" (lower question))%bool.

Definition handle_defect_analysis (question : string) (a : analysis) : call :=
  if wants_chart question then create_smart_visualization question a
  else TopRejectionReasons (Some (count_or (specific_count a) 5)).

Definition handle_parts_analysis (question : string) (a : analysis) : call :=
  if wants_chart question then create_smart_visualization question a
  else if contains "highest" (lower question) then HighestRejectionsPart
  else PartsAnalysisAvailable.

Definition handle_trend_analysis (question : string) (a : analysis) : call :=
  if wants_chart question then create_smart_visualization question a
  else MonthlyTrend.

(** [analysis.get('specific_count', 5)]: the dict always holds the key
    (it is initialised to [None]), so [get] returns the stored value and the
    default is not used. *)
Definition get_specific_count (a : analysis) (default : Z) : option Z :=
  specific_count a.

Definition visualization_words : list string :=
  ["chart"; "graph"; "plot"; "draw"; "show"; "visualize"].

(** the routing of [generate_intelligent_response], once the analysis is
    there *)
Definition respond (question : string) (a : analysis) : call :=
  if (match qtype a with Visualization => true | _ => false end
      || any_in visualization_words (lower question))%bool
  then create_smart_visualization question a
  else match focus a with
       | Defects => handle_defect_analysis question a
       | Parts => handle_parts_analysis question a
       | Trends => handle_trend_analysis question a
       | _ => TopRejectionReasons (get_specific_count a 5)
       end.

Definition generate_intelligent_response (question : string) : call :=
  match analyze_question_semantically question with
  | Returns a => respond question a
  | Raises _ => ValueErrorRaised
  end.

(** the list [rejection_patterns] of [answer_question] *)
Definition rejection_words : regex := lits ["rejection"; "defect"; "cause"].

Definition rejection_patterns : list regex :=
  [ seqs [RLit "top"; RStar sp; ROpt (RGroup 1 (RPlus d)); RStar sp;
          RGroup 2 rejection_words];
    seqs [RGroup 1 (lits ["tell"; "show"; "list"; "give"]); RStar sp;
          ROpt (RGroup 2 (RSeq (RLit "me") (RStar sp)));
          RGroup 3 (lits ["top"; "highest"; "most"]); RStar sp;
          ROpt (RGroup 4 (RPlus d)); RStar sp;
          RGroup 5 (lits ["rejection"; "defect"; "reason"])];
    seqs [RLit "most"; RStar sp; RGroup 1 (lits ["frequent"; "common"]);
          RStar sp; RGroup 2 (lits ["rejection"; "defect"])];
    seqs [RLit "highest"; RStar sp; RGroup 1 (lits ["rejection"; "defect"])];
    seqs [RGroup 1 (lits ["rejection"; "defect"]); RStar sp; RLit "reason"];
    seqs [RGroup 1 (lits ["why"; "what"]); RStar sp; RStar dot;
          RGroup 2 (lits ["reject"; "fail"])] ].

(** [min(max(n, 1), 20)] *)
Definition clamp_count (n : Z) : Z := Z.min (Z.max n 1) 20.

(** The loop over [rejection_patterns]: [(is_rejection_query,
    requested_count)] when it ends. The [except] clause around
    [int(numbers[0])] sets the count to 5. *)
Fixpoint scan_rejection_patterns (ps : list regex) (question_lower : string)
  : bool * Z :=
  match ps with
  | [] => (false, 5)
  | pattern :: ps' =>
      match search pattern question_lower with
      | Some _ =>
          match findall (RPlus d) question_lower with
          | number :: _ =>
              match int (whole number) with
              | Some requested_count => (true, clamp_count requested_count)
              | None => (true, 5)
              end
          | [] => (true, 5)
          end
      | None => scan_rejection_patterns ps' question_lower
      end
  end.

Definition chart_request_words : list string :=
  ["chart"; "graph"; "plot"; "draw"; "show"; "visualize"; "pie"; "bar";
   "line"].

Definition answer_question (question : string) : call :=
  let question_lower := lower question in
  if any_in chart_request_words question_lower
  then generate_intelligent_response question
  else
    let '(is_rejection_query, requested_count) :=
      scan_rejection_patterns rejection_patterns question_lower in
    if is_rejection_query then TopRejectionReasons (Some requested_count)
    else generate_intelligent_response question.

(** *** The rejection-reason aggregation *)

(** The analyzer object, as far as the routing and this aggregation read
    it: the names of the defect columns, the numeric columns of the data
    frame, the conversation context and the two pattern tables
    ([self.chart_type_patterns], [self.data_focus_patterns]). *)
Record conversation_context := {
  last_question : string;
  last_answer : string;
  current_focus : option string;
  mentioned_entities : list string;
  chart_preferences : list (string * string)
}.

Record analyzer := {
  defect_columns : list string;
  df : list (string * list Z);
  context : conversation_context;
  chart_table : list (chart_type * patterns);
  focus_table : list (data_focus * patterns)
}.

(** the context [__init__] creates *)
Definition initial_context : conversation_context :=
  {| last_question := EmptyString; last_answer := EmptyString;
     current_focus := None; mentioned_entities := [];
     chart_preferences := [] |}.

Fixpoint column (table : list (string * list Z)) (col : string)
  : option (list Z) :=
  match table with
  | [] => None
  | (name, values) :: rest =>
      if String.eqb name col then Some values else column rest col
  end.

(** [d[k] = v] on a dict kept in insertion order *)
Fixpoint dict_set (d : list (string * Z)) (k : string) (v : Z)
  : list (string * Z) :=
  match d with
  | [] => [(k, v)]
  | (k', v') :: rest =>
      if String.eqb k' k then (k', v) :: rest else (k', v') :: dict_set rest k v
  end.

(** a value of numpy's [int64]: the integer modulo 2^64, in
    [-2^63, 2^63) *)
Definition int64 (z : Z) : Z := (z + 2 ^ 63) mod 2 ^ 64 - 2 ^ 63.

(** [Series.sum()] of an [int64] column, and [sum(...)] over such sums *)
Definition sum (values : list Z) : Z := int64 (fold_left Z.add values 0).

(** the dict [defect_totals]: the columns that occurred at least once *)
Definition defect_totals (self : analyzer) : list (string * Z) :=
  fold_left (fun totals col =>
               match column (df self) col with
               | Some values =>
                   let total := sum values in
                   if 0 <? total then dict_set totals col total else totals
               | None => totals
               end)
            (defect_columns self) [].

(** [sorted(items, key=lambda x: x[1], reverse=True)]: stable, greatest
    first. *)
Fixpoint insert_desc (x : string * Z) (l : list (string * Z))
  : list (string * Z) :=
  match l with
  | [] => [x]
  | y :: ys => if snd x <? snd y then y :: insert_desc x ys else x :: l
  end.

Definition sorted_desc (l : list (string * Z)) : list (string * Z) :=
  fold_right insert_desc [] l.

(** The three shapes of the text [get_top_rejection_reasons] returns. Its
    [except] clause has no counterpart: the one statement of the body that
    can raise is [d[0]] on an empty column name, and [identify_columns],
    the only code that fills [defect_columns], keeps no such name. *)
Inductive reasons_answer :=
| NoDefectData
| NoRejectionData
| RankedReasons (sorted_defects : list (string * Z)) (total_rejections : Z).

Definition get_top_rejection_reasons (self : analyzer) (count : option Z)
  : reasons_answer :=
  let totals := defect_totals self in
  match totals with
  | [] => NoDefectData
  | _ =>
      match slice_to count (sorted_desc totals) with
      | [] => NoRejectionData
      | sorted_defects => RankedReasons sorted_defects (sum (map snd totals))
      end
  end.

(** The text the answer opens with; for a ranking the numbered lines and
    the percentages follow it. *)
Definition answer_opening (a : reasons_answer) : string :=
  match a with
  | NoDefectData => "❌ **Answer:** No defect data found in the dataset."
  | NoRejectionData => "❌ **Answer:** No rejection data available."
  | RankedReasons sorted_defects _ =>
      "🎯 **Top " ++ str_of_nat (List.length sorted_defects)
      ++ " Rejection Reasons (Enhanced Analysis):**"
  end.

(** how many reasons the answer lists *)
Definition listed (a : reasons_answer) : nat :=
  match a with
  | RankedReasons sorted_defects _ => List.length sorted_defects
  | _ => O
  end.

(** *** The pass and the turn as methods of the object

    [determine_chart_type] and [determine_data_focus] read the two tables
    from the attributes of the object; above they are taken at the tables
    [setup_semantic_patterns] assigns. *)

Definition chart_scores_of (table : list (chart_type * patterns))
           (question_lower : string) : list (chart_type * Z) :=
  let s0 := scores table question_lower in
  let s1 := if any_in ["distribution"; "proportion"; "breakdown"; "share"]
                      question_lower then bump Pie 5 s0 else s0 in
  let s2 := if any_in ["compare"; "top"; "highest"; "lowest"; "rank"]
                      question_lower then bump Bar 5 s1 else s1 in
  if any_in ["trend"; "over time"; "monthly"; "progression"] question_lower
  then bump Line 5 s2 else s2.

(** [analyze_question_semantically] as the method it is: the analysis and
    the object afterwards. The method assigns to no attribute. The tables
    are taken to hold the labels pie, bar and line, as those of
    [setup_semantic_patterns] do ([chart_scores['pie'] += 5] needs the
    key). *)
Definition analyze_turn (self : analyzer) (question : string)
  : result analysis * analyzer :=
  let question_lower := strip (lower question) in
  (match extract_specific_count question_lower with
   | Returns count =>
       Returns {| original_question := question;
                  chart := best_label ChartAuto
                             (chart_scores_of (chart_table self)
                                              question_lower);
                  focus := best_label FocusAuto
                             (scores (focus_table self) question_lower);
                  specific_count := count;
                  qtype := determine_question_type question_lower |}
   | Raises e => Raises e
   end, self).

Definition generate_intelligent_response_turn (self : analyzer)
           (question : string) : call * analyzer :=
  let '(a, self') := analyze_turn self question in
  (match a with
   | Returns a => respond question a
   | Raises _ => ValueErrorRaised
   end, self').

(** A turn: the call made and the object afterwards. [answer_question]
    and the routines it reaches assign to no attribute. *)
Definition answer_turn (self : analyzer) (question : string)
  : call * analyzer :=
  let question_lower := lower question in
  if any_in chart_request_words question_lower
  then generate_intelligent_response_turn self question
  else
    let '(is_rejection_query, requested_count) :=
      scan_rejection_patterns rejection_patterns question_lower in
    if is_rejection_query
    then (TopRejectionReasons (Some requested_count), self)
    else generate_intelligent_response_turn self question.

(** the turns of a conversation, one after the other *)
Fixpoint converse (self : analyzer) (questions : list string) : analyzer :=
  match questions with
  | [] => self
  | q :: qs => converse (snd (answer_turn self q)) qs
  end.

(** *** Column discovery and the process insights *)

Definition basic_cols : list string :=
  ["Unnamed: 0"; "Date"; "Inspected Qty."; "Part Name"; "Total Rej Qty."].

(** [identify_columns], on the column names of the data frame: the two
    list comprehensions in turn. *)
Definition identify_columns (columns : list string) : list string :=
  let defect_columns :=
    filter (fun col => (negb (existsb (String.eqb col) basic_cols)
                        && negb (String.prefix "Unnamed" col))%bool)
           columns in
  filter (fun col => negb (blank col)) defect_columns.

(** the analyzer [__init__] builds from a table that loads *)
Definition analyzer_of_table (table : list (string * list Z)) : analyzer :=
  {| defect_columns := identify_columns (map fst table);
     df := table;
     context := initial_context;
     chart_table := chart_type_patterns;
     focus_table := data_focus_patterns |}.

(** [d[0].lower()]; [None] stands for the [IndexError] of an empty name *)
Definition first_char_lower (d : string) : option string :=
  match d with
  | EmptyString => None
  | String a _ => Some (String (lower_ascii a) EmptyString)
  end.

(** [[d for d, _ in sorted_defects if any(word in d[0].lower() for word in
    words)]] *)
Fixpoint insight_category (words : list string)
         (sorted_defects : list (string * Z)) : option (list string) :=
  match sorted_defects with
  | [] => Some []
  | (d, _) :: rest =>
      match first_char_lower d, insight_category words rest with
      | Some c, Some members =>
          Some (if any_in words c then d :: members else members)
      | _, _ => None
      end
  end.

Definition sizing_words : list string :=
  ["size"; "oversize"; "undersize"; "u/s"; "o/s"].
Definition surface_words : list string :=
  ["damage"; "mark"; "toolmark"; "burr"; "scratch"].
Definition machining_words : list string :=
  ["drilling"; "milling"; "boring"; "face"; "cut"].
Definition position_words : list string :=
  ["position"; "off"; "pcd"; "symmetry"].

End Enhanced.

(** ** [IntelligentDataAnalyzer] *)

Module Intelligent.
Import PyStr Regex.

(** The dict [conversation_memory]; [current_part] is the entry
    ['current_part'] of its ['context'] dict, [None] while it is absent. *)
Record conversation_memory := {
  last_question : string;
  last_answer : string;
  mentioned_parts : list string;
  mentioned_dates : list string;
  mentioned_defects : list string;
  current_part : option string
}.

(** the memory [__init__] creates *)
Definition fresh_memory : conversation_memory :=
  {| last_question := EmptyString; last_answer := EmptyString;
     mentioned_parts := []; mentioned_dates := []; mentioned_defects := [];
     current_part := None |}.

Definition set_last_question (q : string) (m : conversation_memory) :=
  {| last_question := q; last_answer := last_answer m;
     mentioned_parts := mentioned_parts m;
     mentioned_dates := mentioned_dates m;
     mentioned_defects := mentioned_defects m;
     current_part := current_part m |}.

Definition set_last_answer (a : string) (m : conversation_memory) :=
  {| last_question := last_question m; last_answer := a;
     mentioned_parts := mentioned_parts m;
     mentioned_dates := mentioned_dates m;
     mentioned_defects := mentioned_defects m;
     current_part := current_part m |}.

(** [if p not in mentioned_parts: mentioned_parts.append(p)] *)
Definition append_once (p : string) (l : list string) : list string :=
  if existsb (String.eqb p) l then l else l ++ [p].

(** the two writes made when a part is resolved *)
Definition remember_part (p : string) (m : conversation_memory) :=
  {| last_question := last_question m; last_answer := last_answer m;
     mentioned_parts := append_once p (mentioned_parts m);
     mentioned_dates := mentioned_dates m;
     mentioned_defects := mentioned_defects m;
     current_part := Some p |}.

(** The aggregation routines over the data frame, which the router only
    calls: each takes the question (or the part name) and returns the answer
    text. A routine that raises ends the turn with its exception, after
    [last_question] was written; the turns below are those whose routine
    returns. The exceptions of the defect and date routines are in their
    own embeddings further down. *)
Record handlers := {
  analyze_part_rejection_reasons : string -> string;
  get_part_detailed_analysis : string -> string;
  handle_machine_questions : string -> string;
  handle_part_questions : string -> string;
  handle_date_questions : string -> string;
  handle_defect_questions : string -> string;
  handle_quantity_questions : string -> string;
  handle_ratio_questions : string -> string;
  handle_analysis_questions : string -> string;
  handle_general_questions : string -> string
}.

(** [[A-Z][A-Z\s\d-]+\d+(?:-\d+)?] *)
Definition part_token : regex :=
  seqs [RSet upper; RPlus upper_sp_d_dash; RPlus d;
        ROpt (RSeq (RLit "-") (RPlus d))].

(** [([A-Z][A-Z\s\d-]+\d+(?:-\d+)?)] *)
Definition part_in_answer : regex := RGroup 1 part_token.

(** [part\s+(number|name)\s+([A-Z][A-Z\s\d-]+\d+(?:-\d+)?)] *)
Definition part_in_question : regex :=
  seqs [RLit "part"; RPlus sp; RGroup 1 (lits ["number"; "name"]); RPlus sp;
        RGroup 2 part_token].

(** [([A-Z]{5,}\s*[A-Z]*\s*\d+(?:-\d+)?)] *)
Definition long_part_in_answer : regex :=
  RGroup 1 (seqs [RSet upper; RSet upper; RSet upper; RSet upper; RSet upper;
                  RStar upper; RStar sp; RStar upper; RStar sp; RPlus d;
                  ROpt (RSeq (RLit "-") (RPlus d))]).

(** [a or b] on the results of [re.search] *)
Definition or_else {A} (a b : option A) : option A :=
  match a with Some _ => a | None => b end.

Definition context_words : list string :=
  ["why"; "how"; "what caused"; "reason"; "because"; "this part";
   "that part"; "why this"; "why that"].

(** the condition that opens the resolution of a reference *)
Definition triggered (question_lower last_answer : string) : bool :=
  (any_in context_words question_lower && truthy last_answer)%bool.

(** the three searches, in the order of the [or] chain *)
Definition part_match (last_question_lower last_answer : string)
  : option match_obj :=
  or_else (search part_in_answer last_answer)
          (or_else (search part_in_question last_question_lower)
                   (search long_part_in_answer last_answer)).

(** [m.group(1) if m.group(1) else m.group(2)], stripped when it is not
    empty *)
Definition part_name_of (m : match_obj) : option string :=
  let g := match group 1 m with
           | Some g1 => if truthy g1 then Some g1 else group 2 m
           | None => group 2 m
           end in
  match g with
  | Some name => if truthy name then Some (strip name) else None
  | None => None
  end.

(** The part a follow-up question is resolved to, from the memory as
    [handle_contextual_questions] finds it. *)
Definition resolve_part (m : conversation_memory) (question : string)
  : option string :=
  if triggered (lower question) (last_answer m) then
    match part_match (lower (last_question m)) (last_answer m) with
    | Some mo => part_name_of mo
    | None => None
    end
  else None.

Definition pronoun (question_lower : string) : bool :=
  (contains "this part" question_lower
   || contains "that part" question_lower)%bool.

(** the text of the one clarification request in the source *)
Definition unable_to_determine : string :=
  "❌ **Error:** Unable to determine the part in question. Please specify clearly.".

(** The part of [handle_contextual_questions] after the resolution. The
    block is entered only with a non-empty [current_part], so its test
    [if not part_name] is never true. *)
Definition handle_pronoun (H : handlers) (m : conversation_memory)
           (question_lower : string) : option string :=
  match current_part m with
  | Some part_name =>
      if (pronoun question_lower && truthy part_name)%bool then
        if negb (truthy part_name) then Some unable_to_determine
        else if (contains "rejection" question_lower
                 || contains "defect" question_lower)%bool
        then Some (analyze_part_rejection_reasons H part_name)
        else None
      else None
  | None => None
  end.

Definition handle_contextual_questions (H : handlers)
           (m : conversation_memory) (question : string)
  : option string * conversation_memory :=
  let question_lower := lower question in
  match resolve_part m question with
  | Some part_name =>
      let m' := remember_part part_name m in
      if (contains "why" question_lower
          && (contains "rejection" question_lower
              || contains "most" question_lower
              || contains "this part" question_lower))%bool
      then (Some (analyze_part_rejection_reasons H part_name), m')
      else if (contains "how" question_lower
               && contains "many" question_lower)%bool
      then (Some (get_part_detailed_analysis H part_name), m')
      else if (contains "what caused" question_lower
               || contains "reason" question_lower)%bool
      then (Some (analyze_part_rejection_reasons H part_name), m')
      else (handle_pronoun H m' question_lower, m')
  | None => (handle_pronoun H m question_lower, m)
  end.

(** [answer_question] below the contextual check: the chain of keyword
    tests. Only the machine, part and general branches store the answer. *)
Definition route (H : handlers) (m : conversation_memory) (question : string)
  : string * conversation_memory :=
  let question_lower := lower question in
  let has w := contains w question_lower in
  let any ws := any_in ws question_lower in
  if has "machine" then
    let response := handle_machine_questions H question in
    (response, set_last_answer response m)
  else if ((has "part" && (has "highest" || has "lowest" || has "rejection"))
           || has "which part"
           || (has "part number" && negb (has "total")))%bool then
    let response := handle_part_questions H question in
    (response, set_last_answer response m)
  else if (any ["date"; "day"; "month"; "year"; "when"]
           && negb (has "part"))%bool then
    (handle_date_questions H question, m)
  else if (any ["reason"; "defect"; "burr"; "damage"; "toolmark"]
           && negb (has "part"))%bool then
    (handle_defect_questions H question, m)
  else if (any ["total"; "count"; "number"; "quantity"; "how many"]
           && negb (has "part"))%bool then
    (handle_quantity_questions H question, m)
  else if (any ["date"; "day"] && any ["highest"; "lowest"])%bool then
    (handle_date_questions H question, m)
  else if (any ["reason"; "defect"; "frequent"]
           && any ["highest"; "lowest"; "most"])%bool then
    (handle_defect_questions H question, m)
  else if any ["ratio"; "percentage"; "rate"] then
    (handle_ratio_questions H question, m)
  else if any ["trend"; "analysis"; "chart"; "graph"] then
    (handle_analysis_questions H question, m)
  else
    let response := handle_general_questions H question in
    (response, set_last_answer response m).

Definition answer_question (H : handlers) (m : conversation_memory)
           (question : string) : string * conversation_memory :=
  let m1 := set_last_question question m in
  let '(context_response, m2) := handle_contextual_questions H m1 question in
  match context_response with
  | Some response =>
      if truthy response then (response, set_last_answer response m2)
      else route H m2 question
  | None => route H m2 question
  end.

(** a conversation: the questions in turn, with the answers given *)
Fixpoint converse (H : handlers) (m : conversation_memory)
         (questions : list string) : list string * conversation_memory :=
  match questions with
  | [] => ([], m)
  | q :: qs =>
      let '(a, m') := answer_question H m q in
      let '(answers, m'') := converse H m' qs in
      (a :: answers, m'')
  end.

(** *** The keyword chain of [answer_question], branch by branch *)

Inductive branch :=
| MachineBranch | PartBranch | DateBranch | DefectBranch | QuantityBranch
| DateSuperlativeBranch | DefectSuperlativeBranch | RatioBranch
| AnalysisBranch | GeneralBranch.

(** the tests of [answer_question] below the contextual check, in order *)
Definition route_branch (question : string) : branch :=
  let question_lower := lower question in
  let has w := contains w question_lower in
  let any ws := any_in ws question_lower in
  if has "machine" then MachineBranch
  else if ((has "part" && (has "highest" || has "lowest" || has "rejection"))
           || has "which part"
           || (has "part number" && negb (has "total")))%bool then PartBranch
  else if (any ["date"; "day"; "month"; "year"; "when"]
           && negb (has "part"))%bool then DateBranch
  else if (any ["reason"; "defect"; "burr"; "damage"; "toolmark"]
           && negb (has "part"))%bool then DefectBranch
  else if (any ["total"; "count"; "number"; "quantity"; "how many"]
           && negb (has "part"))%bool then QuantityBranch
  else if (any ["date"; "day"] && any ["highest"; "lowest"])%bool
  then DateSuperlativeBranch
  else if (any ["reason"; "defect"; "frequent"]
           && any ["highest"; "lowest"; "most"])%bool
  then DefectSuperlativeBranch
  else if any ["ratio"; "percentage"; "rate"] then RatioBranch
  else if any ["trend"; "analysis"; "chart"; "graph"] then AnalysisBranch
  else GeneralBranch.

(** the handler a branch calls *)
Definition branch_handler (H : handlers) (b : branch) : string -> string :=
  match b with
  | MachineBranch => handle_machine_questions H
  | PartBranch => handle_part_questions H
  | DateBranch | DateSuperlativeBranch => handle_date_questions H
  | DefectBranch | DefectSuperlativeBranch => handle_defect_questions H
  | QuantityBranch => handle_quantity_questions H
  | RatioBranch => handle_ratio_questions H
  | AnalysisBranch => handle_analysis_questions H
  | GeneralBranch => handle_general_questions H
  end.

(** the branches that assign [last_answer] before they return *)
Definition stores_answer (b : branch) : bool :=
  match b with
  | MachineBranch | PartBranch | GeneralBranch => true
  | _ => false
  end.

(** *** Chart requests *)

(** The dict [analyze_chart_request] returns. *)
Record chart_analysis := {
  chart_type : string;
  data_type : string;
  count : Z;
  time_period : option string;
  specific_part : option string;
  specific_defect : option string
}.

(** [top\s*(\d+)] *)
Definition top_number : regex :=
  seqs [RLit "top"; RStar sp; RGroup 1 (RPlus d)].

(** [part\s+([A-Z][A-Z\s\d-]+)] *)
Definition part_after_word : regex :=
  seqs [RLit "part"; RPlus sp;
        RGroup 1 (RSeq (RSet upper) (RPlus upper_sp_d_dash))].

Definition month_names : list string :=
  ["january"; "february"; "march"; "april"; "may"; "june"; "july"; "august";
   "september"; "october"; "november"; "december"].

Definition chart_defect_keywords : list string :=
  ["burr"; "damage"; "toolmark"; "oversize"; "undersize"; "drilling";
   "milling"].

(** [int(m.group(1)) if m else default] for a pattern with one group of
    digits: [int] raises a [TypeError] on [None], the value of a group that
    took no part in the match, and a [ValueError] on too long a text *)
Definition number_or (m : option match_obj) (default : Z) : result Z :=
  match m with
  | Some mo => match group 1 mo with
               | Some digits => match int digits with
                                | Some n => Returns n
                                | None => Raises ValueError
                                end
               | None => Raises TypeError
               end
  | None => Returns default
  end.

Definition analyze_chart_request (question : string)
  : result chart_analysis :=
  let question_lower := lower question in
  let has w := contains w question_lower in
  match number_or (search top_number question_lower) 15 with
  | Returns count =>
      Returns
        {| chart_type :=
             if has "pie" then "pie"
             else if (has "line" || has "trend")%bool then "line"
             else if has "bar" then "bar"
             else "bar";
           data_type :=
             if any_in ["part"; "component"] question_lower then "parts"
             else if any_in ["trend"; "time"; "monthly"; "daily";
                             "over time"] question_lower then "trends"
             else if any_in ["defect"; "rejection"; "reason"; "cause"]
                            question_lower then "rejections"
             else if has "monthly" then "monthly"
             else "rejections";
           count := count;
           time_period :=
             if any_in month_names question_lower then Some "monthly"
             else None;
           specific_part :=
             match search part_after_word question_lower with
             | Some mo => group 1 mo
             | None => None
             end;
           specific_defect := find (fun keyword => has keyword)
                                   chart_defect_keywords |}
  | Raises e => Raises e
  end.

(** the chart routine [generate_intelligent_chart] hands the request to;
    [BasicChart] is its [except] clause: the text of the error, then
    [create_basic_chart] *)
Inductive chart_call :=
| RejectionReasonsChart (a : chart_analysis)
| TrendChart (a : chart_analysis)
| PartsAnalysisChart (a : chart_analysis)
| DefectAnalysisChart (a : chart_analysis)
| MonthlyAnalysisChart (a : chart_analysis)
| SmartFallbackChart
| BasicChart (e : exception).

Definition generate_intelligent_chart (question : string) : chart_call :=
  match analyze_chart_request question with
  | Returns a =>
      if String.eqb (data_type a) "rejections" then RejectionReasonsChart a
      else if String.eqb (data_type a) "trends" then TrendChart a
      else if String.eqb (data_type a) "parts" then PartsAnalysisChart a
      else if String.eqb (data_type a) "defects" then DefectAnalysisChart a
      else if String.eqb (data_type a) "monthly" then MonthlyAnalysisChart a
      else SmartFallbackChart
  | Raises e => BasicChart e
  end.

(** *** Defect questions

    [handle_defect_questions] over the attributes [df] and
    [defect_columns]; both classes fill them with the same code, and the
    loop over the totals is the one of the enhanced analyzer, statement for
    statement. *)

Inductive defect_answer :=
| ChartAnswer (c : chart_call)
| NoDefectDataFound
| NoRejectionDataAvailable
| TopReasons (sorted_defects : list (string * Z)) (total_rejections : Z)
| DefectTotal (found_defect : string) (total_defects : Z)
| ActiveDefects (active_defects : list string)
| KeyErrorRaised (col : string)    (* [self.df[col]] for a missing column *)
| CountRaised (e : exception).     (* the [int(...)] of the count *)

Definition defect_keywords : list string :=
  ["burr"; "damage"; "toolmark"; "oversize"; "undersize"; "drilling";
   "milling"; "boring"].

(** the loop that looks for [found_defect] *)
Fixpoint find_defect (defect_columns : list string) (keywords : list string)
         (question_lower : string) : option string :=
  match keywords with
  | [] => None
  | keyword :: rest =>
      if contains keyword question_lower then
        match filter (fun col => contains (lower keyword) (lower col))
                     defect_columns with
        | found :: _ => Some found
        | [] => find_defect defect_columns rest question_lower
        end
      else find_defect defect_columns rest question_lower
  end.

(** [[col for col in defect_columns if self.df[col].sum() > 0]]; the left
    value is the column whose lookup raises *)
Fixpoint active_columns (table : list (string * list Z))
         (defect_columns : list string) : string + list string :=
  match defect_columns with
  | [] => inr []
  | col :: rest =>
      match Enhanced.column table col with
      | None => inl col
      | Some values =>
          match active_columns table rest with
          | inl missing => inl missing
          | inr active =>
              inr (if 0 <? Enhanced.sum values then col :: active else active)
          end
      end
  end.

(** the branch for the top [count] reasons *)
Definition top_reasons (self : Enhanced.analyzer) (count : Z)
  : defect_answer :=
  match Enhanced.defect_totals self with
  | [] => NoDefectDataFound
  | totals =>
      match slice_to (Some count) (Enhanced.sorted_desc totals) with
      | [] => NoRejectionDataAvailable
      | sorted_defects =>
          TopReasons sorted_defects (Enhanced.sum (map snd totals))
      end
  end.

(** The body of [handle_defect_questions]; [again] stands for the call
    the function makes to itself on its last line. *)
Definition defect_branches (self : Enhanced.analyzer) (question : string)
           (again : option defect_answer) : option defect_answer :=
  let question_lower := lower question in
  if any_in ["chart"; "graph"; "plot"; "draw"; "create"; "show";
             "visualize"] question_lower
  then Some (ChartAnswer (generate_intelligent_chart question))
  else if any_in ["top"; "highest"; "most"; "frequent"] question_lower
  then
    match number_or (search top_number question_lower) 5 with
    | Returns count => Some (top_reasons self count)
    | Raises e => Some (CountRaised e)
    end
  else
    let found_defect :=
      match find_defect (Enhanced.defect_columns self) defect_keywords
                        question_lower with
      | Some found => if truthy found then Some found else None
      | None => None
      end in
    match found_defect with
    | Some found =>
        Some match Enhanced.column (Enhanced.df self) found with
             | Some values => DefectTotal found (Enhanced.sum values)
             | None => KeyErrorRaised found
             end
    | None =>
        if (contains "list" question_lower
            || contains "all" question_lower)%bool
        then Some match active_columns (Enhanced.df self)
                                       (Enhanced.defect_columns self) with
                  | inl missing => KeyErrorRaised missing
                  | inr active => ActiveDefects active
                  end
        else again
    end.

(** The function calls itself once more, on a fixed question; [fuel]
    bounds the depth of the calls. *)
Fixpoint handle_defect_questions_on (fuel : nat) (self : Enhanced.analyzer)
         (question : string) : option defect_answer :=
  match fuel with
  | O => None
  | S fuel' =>
      defect_branches self question
        (handle_defect_questions_on fuel' self "top 5 rejection reasons")
  end.

(** *** Date questions

    [handle_date_questions], here [handle_date_questions_on] the rows of
    [df], each with the three
    cells the function reads: the day of [Date] (no value for [NaT]), the
    text of [Part Name] (no value for a cell that holds no text) and
    [Total Rej Qty.]. *)

Record record := {
  Date : option (Z * Z * Z);          (* year, month, day *)
  Part_Name : option string;
  Total_Rej_Qty : Z
}.

(** [datetime(year, month, day)] of the standard library: a day of the
    Gregorian calendar in the years 1 to 9999, [None] for the [ValueError]
    it raises otherwise. *)
Definition is_leap (year : Z) : bool :=
  ((year mod 4 =? 0)
   && (negb (year mod 100 =? 0) || (year mod 400 =? 0)))%bool.

Definition days_in_month (year month : Z) : Z :=
  if month =? 2 then (if is_leap year then 29 else 28)
  else if existsb (Z.eqb month) [4; 6; 9; 11] then 30
  else 31.

Definition datetime (year month day : Z) : option (Z * Z * Z) :=
  if ((1 <=? year) && (year <=? 9999) && (1 <=? month) && (month <=? 12)
      && (1 <=? day) && (day <=? days_in_month year month))%bool
  then Some (year, month, day)
  else None.

Definition month_map : list (string * Z) :=
  [("january", 1); ("february", 2); ("march", 3); ("april", 4);
   ("may", 5); ("june", 6); ("july", 7); ("august", 8);
   ("september", 9); ("october", 10); ("november", 11); ("december", 12)].

(** [month_map[month_name]]; [None] for the [KeyError] *)
Definition month_number (month_name : string) : option Z :=
  option_map snd (find (fun e => String.eqb (fst e) month_name) month_map).

(** the class [[st|nd|rd|th]] *)
Definition ordinal_letter (a : ascii) : bool :=
  existsb (Ascii.eqb a) ["s"; "t"; "|"; "n"; "d"; "r"; "h"]%char.

Definition four_digits : regex := seqs [RSet d; RSet d; RSet d; RSet d].

(** [(\d{1,2})[st|nd|rd|th]*\s+(january|...|december)\s+(\d{4})] *)
Definition date_pattern : regex :=
  seqs [RGroup 1 (RSeq (RSet d) (ROpt (RSet d))); RStar ordinal_letter;
        RPlus sp; RGroup 2 (lits month_names); RPlus sp;
        RGroup 3 four_digits].

(** [(january|...|december)\s+(\d{4})] *)
Definition month_pattern : regex :=
  seqs [RGroup 1 (lits month_names); RPlus sp; RGroup 2 four_digits].

Inductive date_answer :=
| DayTotal (total_rej : Z) (target_date : Z * Z * Z) (parts : list string)
           (more : bool)
| NoDataForDay (target_date : Z * Z * Z)
| InvalidDateFormat
| MonthTotal (total_rej : Z) (month_name : string) (year : Z)
| NoDataForMonth (month_name : string) (year : Z)
| HighestDate                   (* the first day of the group-by *)
| SpecifyDate.

Definition outcome := result date_answer.

Definition cell_eqb (x y : option string) : bool :=
  match x, y with
  | Some a, Some b => String.eqb a b
  | None, None => true
  | _, _ => false
  end.

(** [Series.unique()]: the values in the order they first appear *)
Fixpoint unique (cells : list (option string)) : list (option string) :=
  match cells with
  | [] => []
  | x :: rest => x :: filter (fun y => negb (cell_eqb x y)) (unique rest)
  end.

(** the names [', '.join(parts)] joins; it raises a [TypeError] on a part
    that is no text *)
Fixpoint join_names (parts : list (option string)) : option (list string) :=
  match parts with
  | [] => Some []
  | Some name :: rest => option_map (cons name) (join_names rest)
  | None :: _ => None
  end.

Definition date_eqb (a b : Z * Z * Z) : bool :=
  let '(y1, m1, d1) := a in
  let '(y2, m2, d2) := b in
  ((y1 =? y2) && (m1 =? m2) && (d1 =? d2))%bool.

(** [self.df['Date'].dt.date == target_date.date()] *)
Definition on_day (target_date : Z * Z * Z) (r : record) : bool :=
  match Date r with
  | Some day => date_eqb day target_date
  | None => false
  end.

(** [(self.df['Date'].dt.month == month_num)
     & (self.df['Date'].dt.year == year)] *)
Definition in_month (month_num year : Z) (r : record) : bool :=
  match Date r with
  | Some (y, m, _) => ((m =? month_num) && (y =? year))%bool
  | None => false
  end.

(** The body of the [try]; every exception in it becomes the answer
    "Invalid date format". *)
Definition day_answer (df : list record) (year : Z)
           (month_name : option string) (day : Z) : date_answer :=
  match match month_name with
        | Some name => month_number name
        | None => None
        end with
  | None => InvalidDateFormat
  | Some month =>
      match datetime year month day with
      | None => InvalidDateFormat
      | Some target_date =>
          let date_data := filter (on_day target_date) df in
          if Nat.ltb 0 (List.length date_data) then
            let total_rej := Enhanced.sum (map Total_Rej_Qty date_data) in
            let parts := unique (map Part_Name date_data) in
            match join_names (firstn 3 parts) with
            | Some names =>
                DayTotal total_rej target_date names
                         (Nat.ltb 3 (List.length parts))
            | None => InvalidDateFormat
            end
          else NoDataForDay target_date
      end
  end.

Definition month_answer (df : list record) (month_name : string)
           (year : Z) : outcome :=
  match month_number month_name with
  | None => Raises KeyError
  | Some month_num =>
      let month_data := filter (in_month month_num year) df in
      if Nat.ltb 0 (List.length month_data) then
        Returns (MonthTotal (Enhanced.sum (map Total_Rej_Qty month_data))
                            month_name year)
      else Returns (NoDataForMonth month_name year)
  end.

(** [int(m.group(n))] *)
Definition int_group (n : nat) (m : match_obj) : result Z :=
  match group n m with
  | Some digits => match int digits with
                   | Some z => Returns z
                   | None => Raises ValueError
                   end
  | None => Raises TypeError
  end.

(** the row has a date: it is in a group of [groupby('Date')] *)
Definition dated (r : record) : bool :=
  match Date r with Some _ => true | None => false end.

(** The branch for "highest": [daily_rejections.index[0]], in no [try],
    raises an [IndexError] when the group-by is empty. *)
Definition highest_date (df : list record) : outcome :=
  if existsb dated df then Returns HighestDate else Raises IndexError.

Definition handle_date_questions_on (df : list record) (question : string)
  : outcome :=
  match search date_pattern (lower question) with
  | Some date_match =>
      match int_group 1 date_match with
      | Raises e => Raises e
      | Returns day =>
          let month_name := group 2 date_match in
          match int_group 3 date_match with
          | Raises e => Raises e
          | Returns year => Returns (day_answer df year month_name day)
          end
      end
  | None =>
      match search month_pattern (lower question) with
      | Some month_match =>
          let month_name := group 1 month_match in
          match int_group 2 month_match with
          | Raises e => Raises e
          | Returns year =>
              match month_name with
              | Some name => month_answer df name year
              | None => Raises KeyError
              end
          end
      | None =>
          if contains "highest" (lower question) then highest_date df
          else Returns SpecifyDate
      end
  end.

End Intelligent.

(** * Properties *)

(** ** Notions the statements are written in *)

Section EnhancedNotions.
Import PyStr Regex Enhanced.

Definition question_type_eqb (a b : question_type) : bool :=
  match a, b with
  | Comparison, Comparison | Ranking, Ranking | Quantity, Quantity
  | Analysis, Analysis | Visualization, Visualization | Specific, Specific
  | Temporal, Temporal | General, General => true
  | _, _ => false
  end.

(** The precedence as the specification words it. *)
Definition spec_precedence : list question_type :=
  [Comparison; Ranking; Quantity; Analysis; Visualization; Specific;
   Temporal; General].

(** The trigger keywords of a category, read off the source's table;
    [General] has none. *)
Definition triggers (t : question_type) : list string :=
  match find (fun e => question_type_eqb (fst e) t) question_types with
  | Some e => snd e
  | None => []
  end.

(** the keyword-and-phrase score of a label, before the bonuses *)
Definition raw_score (c : chart_type) (question_lower : string) : Z :=
  match find (fun e => chart_type_eqb (fst e) c) chart_type_patterns with
  | Some e => score (snd e) question_lower
  | None => 0
  end.

(** the value [chart_scores] holds for a label when the maximum is taken *)
Definition final_score (c : chart_type) (question_lower : string) : Z :=
  match find (fun e => chart_type_eqb (fst e) c) (chart_scores question_lower)
  with
  | Some e => snd e
  | None => 0
  end.

(** the order of the table, which is the order [max] meets the labels in *)
Definition table_order : list chart_type := map fst chart_type_patterns.

Definition bonus (ws : list string) (question_lower : string) : Z :=
  if any_in ws question_lower then 5 else 0.

(** a number of [n] digits *)
Definition nines (n : nat) : string :=
  string_of_list_ascii (repeat "9"%char n).

(** the classification pass of the question ends in an exception *)
Definition pass_raises (question : string) : bool :=
  match analyze_question_semantically question with
  | Returns _ => false
  | Raises _ => true
  end.

(** the call reaches one of the chart routines *)
Definition is_chart (c : call) : bool :=
  match c with
  | PieChart _ | LineChart | BarChart _ => true
  | _ => false
  end.

Definition is_rejection_query (question_lower : string) : bool :=
  fst (scan_rejection_patterns rejection_patterns question_lower).

Definition requested_count (question_lower : string) : Z :=
  snd (scan_rejection_patterns rejection_patterns question_lower).

(** The question reaches the pattern loop and one of the patterns matches. *)
Definition recognized (question : string) : bool :=
  (negb (any_in chart_request_words (lower question))
   && is_rejection_query (lower question))%bool.

(** the first number of the question, clamped, or the default 5 when the
    question has no number or [int] refuses the number *)
Definition first_number_clamped (question_lower : string) : Z :=
  match findall (RPlus d) question_lower with
  | number :: _ => match int (whole number) with
                   | Some n => clamp_count n
                   | None => 5
                   end
  | [] => 5
  end.

(** no rule of [generate_intelligent_response] applies *)
Definition no_routing_rule (question : string) : bool :=
  match analyze_question_semantically question with
  | Returns a =>
      (negb (match qtype a with Visualization => true | _ => false end)
       && negb (any_in visualization_words (lower question))
       && match focus a with
          | Defects | Parts | Trends => false
          | _ => true
          end)%bool
  | Raises _ => false
  end.

(** the two objects hold the same pattern tables *)
Definition same_tables (a b : analyzer) : Prop :=
  chart_table a = chart_table b /\ focus_table a = focus_table b.

(** the tables are those [setup_semantic_patterns] assigns *)
Definition initialised (self : analyzer) : Prop :=
  chart_table self = chart_type_patterns
  /\ focus_table self = data_focus_patterns.

(** a data frame in which six defects occurred *)
Definition six_defects : analyzer :=
  {| defect_columns := ["Burr"; "Damage"; "Toolmark"; "Oversize";
                        "Undersize"; "Drilling"; "Boring"];
     df := [ ("Burr", [3; 4]); ("Damage", [1; 0]); ("Toolmark", [7; 0]);
             ("Oversize", [0; 2]); ("Undersize", [5; 2]);
             ("Drilling", [5; 0]); ("Boring", [0; 0]) ];
     context := initial_context;
     chart_table := chart_type_patterns;
     focus_table := data_focus_patterns |}.

(** the text begins, or ends, with a character that is not blank *)
Definition starts_nonspace (w : string) : bool :=
  match w with
  | String a _ => negb (is_space a)
  | EmptyString => false
  end.

Fixpoint ends_nonspace (w : string) : bool :=
  match w with
  | EmptyString => false
  | String a EmptyString => negb (is_space a)
  | String _ w' => ends_nonspace w'
  end.

(** every keyword and phrase of a pattern table *)
Definition table_words {K} (table : list (K * patterns)) : list string :=
  flat_map (fun e => keywords (snd e) ++ phrases (snd e))%list table.

(** how many of the words occur in the question *)
Definition matched (ws : list string) (question_lower : string) : Z :=
  Z.of_nat (List.length (filter (fun w => contains w question_lower) ws)).

(** the order of a ranking: no later row has a greater total *)
Definition ranked (a b : string * Z) : Prop := snd b <= snd a.

(** the column is present and its values sum to [v] *)
Definition column_total (self : analyzer) (col : string) (v : Z) : Prop :=
  exists values, column (df self) col = Some values /\ sum values = v.

(** U+00A0 in UTF-8 *)
Definition no_break_space : string :=
  String "194"%char (String "160"%char EmptyString).

(** a table with headers that name no defect *)
Definition blank_headers : list (string * list Z) :=
  [("Date", [1]); ("Burr", [2]); (no_break_space, [5]);
   ("Unnamed: 3", [9]); ("   ", [4])].

(** two defects that occurred 2^62 times each *)
Definition two_large_columns : list (string * list Z) :=
  [("Burr", [2 ^ 62]); ("Damage", [2 ^ 62])].

(** the sum of the values as integers, without the wrap-around *)
Definition exact_sum (values : list Z) : Z := fold_left Z.add values 0.

(** the totals of the defects that occurred add up within [int64] *)
Definition no_overflow (self : analyzer) : Prop :=
  exact_sum (map snd (defect_totals self)) < 2 ^ 63.

(** one round of the loop that fills [defect_totals] *)
Definition add_total (self : analyzer) (totals : list (string * Z))
           (col : string) : list (string * Z) :=
  match column (df self) col with
  | Some values =>
      let total := sum values in
      if 0 <? total then dict_set totals col total else totals
  | None => totals
  end.

End EnhancedNotions.

Section IntelligentNotions.
Import PyStr Regex Intelligent.

(** Handlers over a small data frame whose most rejected part is PART-1001,
    each reduced to the opening line of the text the source builds. *)
Definition sample_handlers : handlers :=
  {| analyze_part_rejection_reasons :=
       fun part => "🔍 **Why " ++ part ++ " has the most rejections:**";
     get_part_detailed_analysis :=
       fun part => "📈 **Detailed Analysis for " ++ part ++ ":**";
     handle_machine_questions :=
       fun _ => "❌ **Answer:** The dataset does not contain machine identifiers. Data is organized by part names/components only.";
     handle_part_questions :=
       fun q => if contains "highest" (lower q)
                then "✅ **Answer:** PART-1001 with 57 total rejections."
                else "❓ **Answer:** Please specify the part number or provide more details about the part.";
     handle_date_questions :=
       fun _ => "❓ **Answer:** Please specify the date or time period you're asking about.";
     handle_defect_questions := fun _ => "🎯 **Top 5 Rejection Reasons:**";
     handle_quantity_questions :=
       fun _ => "✅ **Answer:** Total rejections in dataset: 57";
     handle_ratio_questions :=
       fun _ => "📊 **Answer:** Ratio calculation available. Please specify what ratio you need.";
     handle_analysis_questions :=
       fun _ => "📈 **Answer:** Analysis capability available. Please specify what type of analysis you need.";
     handle_general_questions := fun _ => "📋 **Data Summary:**" |}.

Definition turn1 : string := "which part has the highest rejections?".
Definition turn2 : string := "why does this part fail so much?".
Definition part_answer : string :=
  "✅ **Answer:** PART-1001 with 57 total rejections.".

Definition turn_naming_part : string := "what about part number ABC-123?".
Definition follow_up : string := "why the rejection?".
Definition please_specify : string :=
  "❓ **Answer:** Please specify the part number or provide more details about the part.".

Fixpoint no_upper (s : string) : bool :=
  match s with
  | EmptyString => true
  | String a t => (negb (is_upper a) && no_upper t)%bool
  end.

(** [fails_lower r]: [r] matches at the start of no lower-cased text *)
Definition fails_lower (r : regex) : Prop :=
  forall s c, no_upper s = true -> run r s c = [].

(** each of the turns resolves its question to the part [p] *)
Fixpoint every_turn_resolves (H : handlers) (m : conversation_memory)
         (questions : list string) (p : string) : Prop :=
  match questions with
  | [] => True
  | q :: qs =>
      resolve_part (set_last_question q m) q = Some p
      /\ every_turn_resolves H (snd (answer_question H m q)) qs p
  end.

(** the memory after the first turn of the sample conversation *)
Definition after_turn1 : conversation_memory :=
  snd (answer_question sample_handlers fresh_memory turn1).

(** the contextual handler gives the answer of the turn *)
Definition answered_in_context (H : handlers) (m : conversation_memory)
           (question : string) : bool :=
  match fst (handle_contextual_questions H (set_last_question question m)
                                         question) with
  | Some response => truthy response
  | None => false
  end.

(** the current part, when there is one, is among the mentioned parts *)
Definition current_part_mentioned (m : conversation_memory) : Prop :=
  match current_part m with
  | Some p => In p (mentioned_parts m)
  | None => True
  end.

(** the answer of the intelligent analyzer that stands for an answer of
    the enhanced one *)
Definition of_enhanced (a : Enhanced.reasons_answer) : defect_answer :=
  match a with
  | Enhanced.NoDefectData => NoDefectDataFound
  | Enhanced.NoRejectionData => NoRejectionDataAvailable
  | Enhanced.RankedReasons rows total => TopReasons rows total
  end.

(** the greatest number of characters a match of the pattern takes, when
    the pattern has no star *)
Fixpoint max_consumed (r : regex) : option nat :=
  match r with
  | RLit x => Some (String.length x)
  | RSet _ => Some 1%nat
  | RStar _ => None
  | RSeq r1 r2 =>
      match max_consumed r1, max_consumed r2 with
      | Some a, Some b => Some (a + b)%nat
      | _, _ => None
      end
  | RAlt r1 r2 =>
      match max_consumed r1, max_consumed r2 with
      | Some a, Some b => Some (Nat.max a b)
      | _, _ => None
      end
  | ROpt r1 => max_consumed r1
  | RGroup _ r1 => max_consumed r1
  end.

(** the pattern has no capturing group *)
Fixpoint no_group (r : regex) : bool :=
  match r with
  | RLit _ | RSet _ | RStar _ => true
  | RSeq r1 r2 | RAlt r1 r2 => (no_group r1 && no_group r2)%bool
  | ROpt r1 => no_group r1
  | RGroup _ _ => false
  end.

(** the year, month and day the first pattern of the date handler reads
    in a question *)
Definition named_date (question : string) : option (Z * Z * Z) :=
  match search date_pattern (lower question) with
  | Some date_match =>
      match group 1 date_match, group 2 date_match, group 3 date_match with
      | Some day_text, Some month_name, Some year_text =>
          match month_number month_name with
          | Some month =>
              Some (int_of_digits year_text, month, int_of_digits day_text)
          | None => None
          end
      | _, _, _ => None
      end
  | None => None
  end.

(** the distinct part cells of the rows of a day *)
Definition parts_on (df : list record) (day : Z * Z * Z)
  : list (option string) :=
  unique (map Part_Name (filter (on_day day) df)).

(** three rows of one day, a row whose part cell holds no text, and a row
    without a date *)
Definition april_rows : list record :=
  [ {| Date := Some (2024, 4, 30); Part_Name := Some "HOUSING";
       Total_Rej_Qty := 5 |};
    {| Date := Some (2024, 4, 30); Part_Name := Some "COVER";
       Total_Rej_Qty := 7 |};
    {| Date := Some (2024, 4, 30); Part_Name := Some "HOUSING";
       Total_Rej_Qty := 1 |};
    {| Date := Some (2024, 2, 29); Part_Name := None; Total_Rej_Qty := 2 |};
    {| Date := None; Part_Name := Some "SHAFT"; Total_Rej_Qty := 100 |} ].

(** a day of the calendar [datetime] accepts *)
Definition calendar_day (day : Z * Z * Z) : Prop :=
  let '(year, month, d) := day in
  1 <= year <= 9999 /\ 1 <= month <= 12
  /\ 1 <= d <= days_in_month year month.

End IntelligentNotions.

(** ** String and list facts shared by the proofs *)

Section Facts.
Import PyStr.

Lemma any_in_true (ws : list string) (s : string) :
  any_in ws s = true <-> exists w, In w ws /\ contains w s = true.
Proof. unfold any_in. apply existsb_exists. Qed.

Lemma any_in_incl (ws ws' : list string) (s : string) :
  incl ws ws' -> any_in ws s = true -> any_in ws' s = true.
Proof.
  intros Hincl Hany. apply any_in_true in Hany as (w & Hw & Hc).
  apply any_in_true. exists w. split; [apply Hincl|]; assumption.
Qed.

Lemma any_in_member (w : string) (ws : list string) (s : string) :
  In w ws -> contains w s = true -> any_in ws s = true.
Proof. intros Hw Hc. apply any_in_true. exists w. split; assumption. Qed.

Lemma slice_to_none {A} (l : list A) : slice_to None l = l.
Proof. reflexivity. Qed.

Lemma slice_to_length {A} (n : Z) (l : list A) :
  0 <= n -> List.length (slice_to (Some n) l) = Nat.min (Z.to_nat n) (List.length l).
Proof.
  intros Hn. unfold slice_to.
  destruct (n <? 0) eqn:E; [apply Z.ltb_lt in E; lia|].
  apply length_firstn.
Qed.

Lemma any_in_false (ws : list string) (s w : string) :
  any_in ws s = false -> In w ws -> contains w s = false.
Proof.
  intros Hany Hw. destruct (contains w s) eqn:E; [|reflexivity].
  rewrite (any_in_member w ws s Hw E) in Hany. discriminate.
Qed.

Lemma truthy_not_empty (s : string) : truthy s = true <-> s <> EmptyString.
Proof. destruct s; cbn; split; congruence. Qed.

End Facts.

(** ** Substrings *)

Section Substrings.
Import PyStr.

Lemma append_assoc (a b c : string) : (a ++ b) ++ c = a ++ (b ++ c).
Proof. induction a as [|x a IH]; cbn; [|rewrite IH]; reflexivity. Qed.

Lemma append_empty_r (a : string) : a ++ EmptyString = a.
Proof. induction a as [|x a IH]; cbn; [|rewrite IH]; reflexivity. Qed.

Lemma length_append (a b : string) :
  String.length (a ++ b) = (String.length a + String.length b)%nat.
Proof. induction a as [|x a IH]; cbn; [|rewrite IH]; reflexivity. Qed.

Lemma prefix_iff (x s : string) :
  String.prefix x s = true <-> exists b, s = x ++ b.
Proof.
  revert s. induction x as [|a x IH]; intros s; cbn.
  - destruct s; split; eauto.
  - destruct s as [|c s]; cbn.
    + split; [discriminate | intros (b & Hb); discriminate].
    + destruct (ascii_dec a c) as [->|Hne].
      * rewrite IH. split; intros (b & Hb); exists b; congruence.
      * split; [discriminate|]. intros (b & Hb). congruence.
Qed.

Lemma contains_iff (x s : string) :
  contains x s = true <-> exists a b, s = a ++ x ++ b.
Proof.
  induction s as [|c s IH]; cbn [contains].
  - destruct (String.prefix x EmptyString) eqn:E.
    + apply prefix_iff in E as (b & Hb). split; [|reflexivity].
      intros _. exists EmptyString, b. exact Hb.
    + split; [discriminate|]. intros (a & b & Hab).
      destruct a; [|discriminate]. cbn in Hab.
      assert (String.prefix x EmptyString = true)
        by (apply prefix_iff; eauto). congruence.
  - destruct (String.prefix x (String c s)) eqn:E.
    + apply prefix_iff in E as (b & Hb). split; [|reflexivity].
      intros _. exists EmptyString, b. exact Hb.
    + rewrite IH. split.
      * intros (a & b & ->). exists (String c a), b. reflexivity.
      * intros (a & b & Hab). destruct a as [|c' a]; cbn in Hab.
        -- assert (String.prefix x (String c s) = true)
             by (apply prefix_iff; eauto). congruence.
        -- injection Hab as _ Hs. eauto.
Qed.

Lemma contains_length (x s : string) :
  contains x s = true -> (String.length x <= String.length s)%nat.
Proof.
  intros Hc. apply contains_iff in Hc as (a & b & ->).
  rewrite !length_append. lia.
Qed.

(** a text that lies inside another *)
Lemma contains_inside (x a s b : string) :
  contains x s = true -> contains x (a ++ s ++ b) = true.
Proof.
  intros Hc. apply contains_iff in Hc as (a' & b' & ->).
  apply contains_iff. exists (a ++ a'), (b' ++ b).
  rewrite !append_assoc. reflexivity.
Qed.

Lemma lstrip_suffix (s : string) : exists a, s = a ++ lstrip s.
Proof.
  induction s as [|c s (a & IH)]; cbn [lstrip].
  - exists EmptyString. reflexivity.
  - destruct (is_space c).
    + exists (String c a). cbn. rewrite <- IH. reflexivity.
    + exists EmptyString. reflexivity.
Qed.

Lemma rstrip_prefix (s : string) : exists b, s = rstrip s ++ b.
Proof.
  induction s as [|c s (b & IH)]; cbn [rstrip].
  - exists EmptyString. reflexivity.
  - destruct (rstrip s) as [|c' t] eqn:E.
    + destruct (is_space c).
      * exists (String c s). reflexivity.
      * exists b. cbn. rewrite IH at 1. reflexivity.
    + exists b. cbn. rewrite IH at 1. reflexivity.
Qed.

(** What occurs in the stripped text occurs in the text. *)
Lemma contains_strip (x s : string) :
  contains x (strip s) = true -> contains x s = true.
Proof.
  intros Hc. unfold strip in Hc.
  destruct (lstrip_suffix s) as (a & Ha).
  destruct (rstrip_prefix (lstrip s)) as (b & Hb).
  rewrite Ha, Hb. apply contains_inside. exact Hc.
Qed.

Lemma any_in_strip (ws : list string) (s : string) :
  any_in ws (strip s) = true -> any_in ws s = true.
Proof.
  intros Hany. apply any_in_true in Hany as (w & Hw & Hc).
  apply (any_in_member w); [assumption|]. apply contains_strip. assumption.
Qed.

End Substrings.

(** ** Words that survive the strip *)

Section StripKeepsWords.
Import PyStr.

Lemma prefix_empty (w : string) :
  String.prefix w EmptyString = match w with EmptyString => true | _ => false end.
Proof. destruct w; reflexivity. Qed.

Lemma ends_nonspace_tail (a : ascii) (w : string) :
  ends_nonspace (String a w) = true -> w <> EmptyString ->
  ends_nonspace w = true.
Proof. destruct w; [congruence | intros H _; exact H]. Qed.

Lemma rstrip_cons (c : ascii) (t : string) :
  rstrip (String c t) = String c (rstrip t)
  \/ (rstrip (String c t) = EmptyString /\ is_space c = true
      /\ rstrip t = EmptyString).
Proof.
  cbn [rstrip]. destruct (rstrip t) eqn:E; [|left; reflexivity].
  destruct (is_space c); [right | left]; auto.
Qed.

Lemma prefix_rstrip (s : string) :
  forall w, ends_nonspace w = true ->
            String.prefix w (rstrip s) = String.prefix w s.
Proof.
  induction s as [|c t IH]; intros w Hw; [reflexivity|].
  destruct w as [|a w']; [discriminate|].
  assert (Htail : w' <> EmptyString ->
                  String.prefix w' (rstrip t) = String.prefix w' t).
  { intros Hne. apply IH. apply (ends_nonspace_tail a); assumption. }
  destruct (rstrip_cons c t) as [-> | (-> & Hc & Ht)].
  - cbn [String.prefix]. destruct (ascii_dec a c); [|reflexivity].
    destruct w' as [|b w'']; [destruct (rstrip t), t; reflexivity|].
    apply Htail. discriminate.
  - cbn [String.prefix]. destruct (ascii_dec a c) as [->|]; [|reflexivity].
    destruct w' as [|b w''].
    + cbn in Hw. rewrite Hc in Hw. discriminate.
    + rewrite <- Htail by discriminate. rewrite Ht. reflexivity.
Qed.

Lemma contains_rstrip (w s : string) :
  ends_nonspace w = true -> contains w (rstrip s) = contains w s.
Proof.
  intros Hw. induction s as [|c t IH]; [reflexivity|].
  change (contains w (String c t))
    with (if String.prefix w (String c t) then true else contains w t).
  rewrite <- (prefix_rstrip (String c t) w Hw), <- IH.
  destruct (rstrip_cons c t) as [-> | (-> & _ & ->)].
  - reflexivity.
  - cbn [contains]. destruct (String.prefix w EmptyString); reflexivity.
Qed.

Lemma contains_lstrip (w s : string) :
  starts_nonspace w = true -> contains w (lstrip s) = contains w s.
Proof.
  intros Hw. induction s as [|c t IH]; [reflexivity|].
  cbn [lstrip]. destruct (is_space c) eqn:Hc; [|reflexivity].
  rewrite IH. cbn [contains]. destruct w as [|a w']; [discriminate|].
  cbn [String.prefix]. destruct (ascii_dec a c) as [->|]; [|reflexivity].
  cbn in Hw. rewrite Hc in Hw. discriminate.
Qed.

(** A word that neither begins nor ends with a blank occurs in the
    stripped text exactly when it occurs in the text. *)
Lemma contains_strip_word (w s : string) :
  starts_nonspace w = true -> ends_nonspace w = true ->
  contains w (strip s) = contains w s.
Proof.
  intros Hs He. unfold strip.
  rewrite contains_rstrip by assumption. apply contains_lstrip. assumption.
Qed.

End StripKeepsWords.

(** ** What a pattern consumes and captures *)

Section RegexFacts.
Import PyStr Regex.

Lemma strip_prefix_app (x : string) :
  forall s rest, strip_prefix x s = Some rest -> s = x ++ rest.
Proof.
  induction x as [|a x IH]; intros s rest; cbn [strip_prefix].
  - intros [= ->]. reflexivity.
  - destruct s as [|b s]; [discriminate|].
    destruct (Ascii.eqb a b) eqn:E; [|discriminate].
    apply Ascii.eqb_eq in E. subst b. intros Hs.
    cbn. rewrite (IH _ _ Hs). reflexivity.
Qed.

Lemma star_rests_suffix (p : ascii -> bool) :
  forall s rest, In rest (star_rests p s) -> exists pre, s = pre ++ rest.
Proof.
  induction s as [|a t IH]; intros rest; cbn [star_rests].
  - intros [<- | []]. exists EmptyString. reflexivity.
  - destruct (p a).
    + intros Hin. apply in_app_or in Hin as [Hin | [<- | []]].
      * destruct (IH _ Hin) as (pre & ->). exists (String a pre). reflexivity.
      * exists EmptyString. reflexivity.
    + intros [<- | []]. exists EmptyString. reflexivity.
Qed.

(** What a pattern leaves is the end of the text it was run on. *)
Lemma run_suffix (r : regex) :
  forall s c rest c', In (rest, c') (run r s c) -> exists pre, s = pre ++ rest.
Proof.
  induction r as [x | p | p | r1 IH1 r2 IH2 | r1 IH1 r2 IH2 | r1 IH1
                  | n r1 IH1];
    intros s c rest c'; cbn [run].
  - destruct (strip_prefix x s) as [rest'|] eqn:E; [|intros []].
    intros [[= <- <-] | []]. exists x. apply strip_prefix_app. assumption.
  - destruct s as [|a t]; [intros []|].
    destruct (p a); [|intros []].
    intros [[= <- <-] | []]. exists (String a EmptyString). reflexivity.
  - intros Hin. apply in_map_iff in Hin as (rest' & [= <- <-] & Hin).
    apply (star_rests_suffix p). assumption.
  - intros Hin. apply in_flat_map in Hin as ([s1 c1] & Hin1 & Hin2).
    cbn [fst snd] in Hin2.
    destruct (IH1 _ _ _ _ Hin1) as (pre1 & ->).
    destruct (IH2 _ _ _ _ Hin2) as (pre2 & ->).
    exists (pre1 ++ pre2). apply eq_sym, append_assoc.
  - intros Hin. apply in_app_or in Hin as [Hin | Hin]; eauto.
  - intros Hin. apply in_app_or in Hin as [Hin | [[= <- <-] | []]];
      [eauto|]. exists EmptyString. reflexivity.
  - intros Hin. apply in_map_iff in Hin as ([s1 c1] & [= <- <-] & Hin).
    eauto.
Qed.

Lemma run_no_group (r : regex) :
  no_group r = true ->
  forall s c rest c', In (rest, c') (run r s c) -> c' = c.
Proof.
  induction r as [x | p | p | r1 IH1 r2 IH2 | r1 IH1 r2 IH2 | r1 IH1
                  | n r1 IH1];
    cbn [no_group]; intros Hng s c rest c'; cbn [run];
    try (apply andb_true_iff in Hng as [Hng1 Hng2]).
  - destruct (strip_prefix x s); [|intros []].
    intros [[= <- <-] | []]. reflexivity.
  - destruct s as [|a t]; [intros []|].
    destruct (p a); [|intros []]. intros [[= <- <-] | []]. reflexivity.
  - intros Hin. apply in_map_iff in Hin as (rest' & [= <- <-] & Hin).
    reflexivity.
  - intros Hin. apply in_flat_map in Hin as ([s1 c1] & Hin1 & Hin2).
    cbn [fst snd] in Hin2.
    rewrite (IH2 Hng2 _ _ _ _ Hin2). apply (IH1 Hng1 _ _ _ _ Hin1).
  - intros Hin. apply in_app_or in Hin as [Hin | Hin]; eauto.
  - intros Hin. apply in_app_or in Hin as [Hin | [[= <- <-] | []]];
      [eauto | reflexivity].
  - discriminate.
Qed.

Lemma substring_prefix (pre rest : string) :
  String.substring 0 (String.length pre) (pre ++ rest) = pre.
Proof.
  induction pre as [|a pre IH]; cbn.
  - destruct rest; reflexivity.
  - rewrite IH. reflexivity.
Qed.

Lemma consumed_app (pre rest : string) : consumed (pre ++ rest) rest = pre.
Proof.
  unfold consumed. rewrite length_append, Nat.add_sub.
  apply substring_prefix.
Qed.

Lemma search_inside (r : regex) :
  forall s m, search r s = Some m ->
              exists pre t, s = pre ++ t /\ match_here r t = Some m.
Proof.
  induction s as [|a s IH]; intros m; cbn [search].
  - destruct (match_here r EmptyString) eqn:E; [|discriminate].
    intros [= <-]. exists EmptyString, EmptyString. auto.
  - destruct (match_here r (String a s)) eqn:E.
    + intros [= <-]. exists EmptyString, (String a s). auto.
    + intros Hs. destruct (IH _ Hs) as (pre & t & -> & Ht).
      exists (String a pre), t. auto.
Qed.

Lemma run_seq_In (r1 r2 : regex) (s : string) (c : captures)
      (x : string * captures) :
  In x (run (RSeq r1 r2) s c) ->
  exists s1 c1, In (s1, c1) (run r1 s c) /\ In x (run r2 s1 c1).
Proof.
  cbn [run]. intros Hin.
  apply in_flat_map in Hin as ([s1 c1] & H1 & H2).
  exists s1, c1. auto.
Qed.

Lemma run_group_In (n : nat) (r : regex) (s : string) (c : captures)
      (rest : string) (c' : captures) :
  In (rest, c') (run (RGroup n r) s c) ->
  exists c1, In (rest, c1) (run r s c) /\ c' = (n, consumed s rest) :: c1.
Proof.
  cbn [run]. intros Hin.
  apply in_map_iff in Hin as ([s1 c1] & [= <- <-] & Hin).
  exists c1. auto.
Qed.

Lemma run_lit_In (w s : string) (c : captures) (rest : string)
      (c' : captures) :
  In (rest, c') (run (RLit w) s c) -> c' = c /\ s = w ++ rest.
Proof.
  cbn [run]. destruct (strip_prefix w s) as [rest'|] eqn:E; [|intros []].
  intros [[= <- <-] | []]. split; [reflexivity|].
  apply strip_prefix_app. assumption.
Qed.

Lemma run_lits_In (ws : list string) :
  forall s c rest c',
    In (rest, c') (run (lits ws) s c) ->
    c' = c /\ exists w, In w ws /\ s = w ++ rest.
Proof.
  unfold lits. induction ws as [|w ws IH]; intros s c rest c'.
  - cbn. destruct s; intros [].
  - destruct ws as [|w' ws].
    + intros Hin. apply run_lit_In in Hin as [-> ->].
      split; [reflexivity|]. exists w. split; [left|]; reflexivity.
    + change (alts (map RLit (w :: w' :: ws)))
        with (RAlt (RLit w) (alts (map RLit (w' :: ws)))).
      cbn [run]. intros Hin. apply in_app_or in Hin as [Hin | Hin].
      * apply run_lit_In in Hin as [-> ->].
        split; [reflexivity|]. exists w. split; [left|]; reflexivity.
      * destruct (IH _ _ _ _ Hin) as (-> & w0 & Hw0 & ->).
        split; [reflexivity|]. exists w0. split; [right; assumption|].
        reflexivity.
Qed.

(** a pattern without groups keeps the captures and leaves an end of the
    text *)
Lemma run_keeps (r : regex) (s : string) (c : captures) (rest : string)
      (c' : captures) :
  In (rest, c') (run r s c) -> no_group r = true ->
  c' = c /\ exists pre, s = pre ++ rest.
Proof.
  intros Hin Hng. split.
  - apply (run_no_group r Hng s c rest c'). assumption.
  - apply (run_suffix r s c rest c'). assumption.
Qed.

Lemma search_run (r : regex) (s : string) (m : match_obj) :
  search r s = Some m ->
  exists pre t rest, s = pre ++ t /\ In (rest, groups m) (run r t []).
Proof.
  intros Hs. destruct (search_inside _ _ _ Hs) as (pre & t & -> & Hhere).
  unfold match_here in Hhere.
  destruct (run r t []) as [|[rest c] others] eqn:E; [discriminate|].
  injection Hhere as <-. exists pre, t, rest. split; [reflexivity|].
  cbn [groups]. rewrite E. apply in_eq.
Qed.

(** *** Lengths *)

Lemma run_bounded (r : regex) :
  forall n s c rest c',
    max_consumed r = Some n ->
    In (rest, c') (run r s c) ->
    (String.length s <= String.length rest + n)%nat.
Proof.
  induction r as [x | p | p | r1 IH1 r2 IH2 | r1 IH1 r2 IH2 | r1 IH1
                  | k r1 IH1];
    intros n s c rest c'; cbn [max_consumed].
  - intros [= <-] Hin. apply run_lit_In in Hin as [_ ->].
    rewrite length_append. lia.
  - intros [= <-]. cbn [run]. destruct s as [|a t]; [intros []|].
    destruct (p a); [|intros []]. intros [[= <- <-] | []]. cbn. lia.
  - discriminate.
  - destruct (max_consumed r1) as [a|]; [|discriminate].
    destruct (max_consumed r2) as [b|]; [|discriminate].
    intros [= <-] Hin. apply run_seq_In in Hin as (s1 & c1 & H1 & H2).
    specialize (IH1 _ _ _ _ _ eq_refl H1).
    specialize (IH2 _ _ _ _ _ eq_refl H2). lia.
  - destruct (max_consumed r1) as [a|]; [|discriminate].
    destruct (max_consumed r2) as [b|]; [|discriminate].
    intros [= <-]. cbn [run]. intros Hin.
    apply in_app_or in Hin as [Hin | Hin].
    + specialize (IH1 _ _ _ _ _ eq_refl Hin). lia.
    + specialize (IH2 _ _ _ _ _ eq_refl Hin). lia.
  - intros Hn. cbn [run]. intros Hin.
    apply in_app_or in Hin as [Hin | [[= <- <-] | []]]; [|lia].
    apply (IH1 _ _ _ _ _ Hn Hin).
  - intros Hn Hin. apply run_group_In in Hin as (c1 & Hin & _).
    apply (IH1 _ _ _ _ _ Hn Hin).
Qed.

Lemma run_takes_at_most (r : regex) (n : nat) (s : string) (c : captures)
      (rest : string) (c' : captures) :
  In (rest, c') (run r s c) ->
  max_consumed r = Some n ->
  (String.length s <= String.length rest + n)%nat.
Proof. intros Hin Hn. apply (run_bounded r n s c rest c' Hn Hin). Qed.

Lemma substring_length (n : nat) :
  forall s, (String.length (String.substring 0 n s) <= String.length s)%nat.
Proof.
  induction n as [|n IH]; intros [|a s]; cbn; try lia.
  specialize (IH s). lia.
Qed.

Lemma consumed_length (s rest : string) :
  (String.length (consumed s rest) <= String.length s)%nat.
Proof. apply substring_length. Qed.

Lemma run_rest_length (r : regex) (s : string) (c : captures)
      (rest : string) (c' : captures) :
  In (rest, c') (run r s c) -> (String.length rest <= String.length s)%nat.
Proof.
  intros Hin. apply run_suffix in Hin as (pre & ->).
  rewrite length_append. lia.
Qed.

(** What a run captures is no longer than the text it ran on. *)
Lemma run_captures_length (r : regex) :
  forall s c rest c',
    In (rest, c') (run r s c) ->
    forall kv, In kv c' ->
               In kv c \/ (String.length (snd kv) <= String.length s)%nat.
Proof.
  induction r as [x | p | p | r1 IH1 r2 IH2 | r1 IH1 r2 IH2 | r1 IH1
                  | n r1 IH1];
    intros s c rest c' Hin kv Hkv.
  - apply run_lit_In in Hin as [-> _]. auto.
  - cbn [run] in Hin. destruct s as [|a t]; [destruct Hin|].
    destruct (p a); [|destruct Hin].
    destruct Hin as [[= <- <-] | []]. auto.
  - cbn [run] in Hin. apply in_map_iff in Hin as (rest' & [= <- <-] & _).
    auto.
  - apply run_seq_In in Hin as (s1 & c1 & H1 & H2).
    pose proof (run_rest_length _ _ _ _ _ H1) as Hlen.
    destruct (IH2 _ _ _ _ H2 kv Hkv) as [Hc1 | Hl]; [|right; lia].
    apply (IH1 _ _ _ _ H1 kv Hc1).
  - cbn [run] in Hin. apply in_app_or in Hin as [Hin | Hin]; eauto.
  - cbn [run] in Hin. apply in_app_or in Hin as [Hin | [[= <- <-] | []]];
      eauto.
  - apply run_group_In in Hin as (c1 & Hin & ->).
    destruct Hkv as [<- | Hkv].
    + right. apply consumed_length.
    + eauto.
Qed.

Lemma lookup_group_In (n : nat) (c : captures) (v : string) :
  lookup_group n c = Some v -> In (n, v) c.
Proof.
  induction c as [|[k w] c IH]; cbn [lookup_group]; [discriminate|].
  destruct (Nat.eqb k n) eqn:E.
  - apply Nat.eqb_eq in E. subst k. intros [= ->]. left. reflexivity.
  - intros Hv. right. apply IH. assumption.
Qed.

Lemma match_here_length (r : regex) (s : string) (m : match_obj) :
  match_here r s = Some m ->
  (String.length (whole m) <= String.length s)%nat
  /\ forall k v, group k m = Some v ->
                 (String.length v <= String.length s)%nat.
Proof.
  unfold match_here. destruct (run r s []) as [|[rest c] others] eqn:E;
    [discriminate|].
  intros [= <-]. cbn [whole groups]. split; [apply consumed_length|].
  intros k v Hv. apply lookup_group_In in Hv.
  assert (Hin : In (rest, c) (run r s [])) by (rewrite E; apply in_eq).
  destruct (run_captures_length r _ _ _ _ Hin _ Hv) as [[] | Hl].
  exact Hl.
Qed.

Lemma search_length (r : regex) (s : string) (m : match_obj) :
  search r s = Some m ->
  forall k v, group k m = Some v ->
              (String.length v <= String.length s)%nat.
Proof.
  intros Hs k v Hv. destruct (search_inside _ _ _ Hs) as (pre & t & -> & Hm).
  apply match_here_length in Hm as [_ Hm]. specialize (Hm k v Hv).
  rewrite length_append. lia.
Qed.

Lemma findall_from_length (r : regex) :
  forall s skip m,
    In m (findall_from r s skip) ->
    (String.length (whole m) <= String.length s)%nat
    /\ forall k v, group k m = Some v ->
                   (String.length v <= String.length s)%nat.
Proof.
  assert (Hweak : forall (t : string) (a : ascii) (m : match_obj),
             ((String.length (whole m) <= String.length t)%nat
              /\ forall k v, group k m = Some v ->
                             (String.length v <= String.length t)%nat) ->
             (String.length (whole m) <= String.length (String a t))%nat
             /\ forall k v, group k m = Some v ->
                            (String.length v
                             <= String.length (String a t))%nat).
  { intros t a m [Hw Hg]. cbn [String.length]. split; [lia|].
    intros k v Hv. specialize (Hg k v Hv). lia. }
  induction s as [|a t IH]; intros skip m.
  - destruct skip; cbn [findall_from]; [|intros []].
    destruct (match_here r EmptyString) as [m0|] eqn:E; [|intros []].
    intros [<- | []]. apply (match_here_length r). assumption.
  - destruct skip as [|k]; cbn [findall_from].
    + destruct (match_here r (String a t)) as [m0|] eqn:E.
      * intros [<- | Hin]; [apply (match_here_length r); assumption|].
        apply Hweak. apply (IH _ _ Hin).
      * intros Hin. apply Hweak. apply (IH _ _ Hin).
    + intros Hin. apply Hweak. apply (IH _ _ Hin).
Qed.

Lemma findall_length (r : regex) (s : string) (m : match_obj) :
  In m (findall r s) ->
  (String.length (whole m) <= String.length s)%nat
  /\ forall k v, group k m = Some v ->
                 (String.length v <= String.length s)%nat.
Proof. apply findall_from_length. Qed.

Lemma lower_length (s : string) :
  String.length (lower s) = String.length s.
Proof. induction s as [|a s IH]; cbn; [|rewrite IH]; reflexivity. Qed.

Lemma strip_length (s : string) :
  (String.length (strip s) <= String.length s)%nat.
Proof.
  unfold strip. destruct (lstrip_suffix s) as (a & Ha).
  destruct (rstrip_prefix (lstrip s)) as (b & Hb).
  rewrite Ha at 2. rewrite Hb at 2. rewrite !length_append. lia.
Qed.

(** [int] accepts every text of at most 4300 characters. *)
Lemma int_accepts (s : string) :
  Z.of_nat (String.length s) <= max_str_digits ->
  int s = Some (int_of_digits s).
Proof.
  intros Hlen. unfold int.
  destruct (Z.of_nat (String.length s) <=? max_str_digits) eqn:E;
    [reflexivity | apply Z.leb_gt in E; lia].
Qed.

Lemma int_refuses (s : string) :
  int s = None -> max_str_digits < Z.of_nat (String.length s).
Proof.
  unfold int.
  destruct (Z.of_nat (String.length s) <=? max_str_digits) eqn:E;
    [discriminate | apply Z.leb_gt in E; auto].
Qed.

End RegexFacts.

(** ** Question type: the ordered rule list *)

Section QuestionType.
Import PyStr Enhanced.

Local Ltac split_precedence k :=
  exists (firstn k spec_precedence), (skipn (S k) spec_precedence);
  split; [reflexivity|];
  split;
  [ let t := fresh "t" in let Ht := fresh "Ht" in
    intros t Ht; cbn in Ht;
    repeat (destruct Ht as [<- | Ht]; [assumption|]); contradiction
  | first [ right; assumption | left; reflexivity ] ].

(** A question with no trigger keyword at all is [General]. *)
Lemma question_type_general (question_lower : string) :
  (forall t, any_in (triggers t) question_lower = false) ->
  determine_question_type question_lower = General.
Proof.
  intros Hnone.
  unfold determine_question_type, question_types. cbn [first_type].
  pose proof (Hnone Comparison) as H1. pose proof (Hnone Ranking) as H2.
  pose proof (Hnone Quantity) as H3. pose proof (Hnone Analysis) as H4.
  pose proof (Hnone Visualization) as H5. pose proof (Hnone Specific) as H6.
  pose proof (Hnone Temporal) as H7.
  cbv [triggers find question_types question_type_eqb fst snd] in H1, H2, H3,
    H4, H5, H6, H7.
  rewrite H1, H2, H3, H4, H5, H6, H7. reflexivity.
Qed.

(** C4. [determine_question_type] returns the first category, in the order
    comparison, ranking, quantity, analysis, visualization, specific,
    temporal, general, one of whose trigger keywords occurs in the
    lower-cased question: no category before the result has a keyword in the
    question, and the result is [General] exactly when no category has. *)
Theorem question_type_first_match (question_lower : string) :
  (exists before after,
    spec_precedence
    = (before ++ determine_question_type question_lower :: after)%list
    /\ (forall t, In t before -> any_in (triggers t) question_lower = false)
    /\ (determine_question_type question_lower = General
        \/ any_in (triggers (determine_question_type question_lower))
                  question_lower = true))
  /\ ((forall t, any_in (triggers t) question_lower = false) ->
      determine_question_type question_lower = General).
Proof.
  split; [|apply question_type_general].
  unfold determine_question_type, question_types. cbn [first_type].
  repeat match goal with
         | |- context [if any_in ?ws question_lower then _ else _] =>
             destruct (any_in ws question_lower) eqn:?
         end.
  - split_precedence 0%nat.
  - split_precedence 1%nat.
  - split_precedence 2%nat.
  - split_precedence 3%nat.
  - split_precedence 4%nat.
  - split_precedence 5%nat.
  - split_precedence 6%nat.
  - split_precedence 7%nat.
Qed.

Lemma question_type_first_match_witness :
  (forall t, any_in (triggers t) "hello there" = false)
  /\ determine_question_type "hello there" = General.
Proof.
  assert (Hnone : forall t, any_in (triggers t) "hello there" = false)
    by (intros t; destruct t; reflexivity).
  split; [exact Hnone|].
  exact (proj2 (question_type_first_match "hello there") Hnone).
Defined.

(** The classifier applies the rule list to the stripped lower-cased
    question. *)
Lemma analysis_returns (question : string) (a : analysis) :
  analyze_question_semantically question = Returns a ->
  exists count,
    extract_specific_count (strip (lower question)) = Returns count
    /\ a = {| original_question := question;
              chart := determine_chart_type (strip (lower question));
              focus := determine_data_focus (strip (lower question));
              specific_count := count;
              qtype := determine_question_type (strip (lower question)) |}.
Proof.
  unfold analyze_question_semantically.
  destruct (extract_specific_count (strip (lower question))) as [count|e];
    [|discriminate].
  intros [= <-]. exists count. split; reflexivity.
Qed.

Lemma analysis_question_type (question : string) (a : analysis) :
  analyze_question_semantically question = Returns a ->
  qtype a = determine_question_type (strip (lower question)).
Proof.
  intros Ha. apply analysis_returns in Ha as (count & _ & ->). reflexivity.
Qed.

Example question_type_examples :
  determine_question_type "compare the top parts" = Comparison
  /\ determine_question_type "show the top defects" = Ranking
  /\ determine_question_type "how many charts" = Quantity
  /\ determine_question_type "which graph when" = Visualization
  /\ determine_question_type "when was it" = Specific
  /\ determine_question_type "per month" = Temporal
  /\ determine_question_type "hello there" = General.
Proof. repeat split; reflexivity. Qed.

End QuestionType.

(** ** Chart type: scores, bonuses and ties *)

Section ChartType.
Import PyStr Enhanced.

Lemma table_order_labels : table_order = [Pie; Bar; Line; Scatter].
Proof. reflexivity. Qed.

Lemma chart_scores_entries (q : string) :
  chart_scores q
  = [ (Pie, raw_score Pie q
            + bonus ["distribution"; "proportion"; "breakdown"; "share"] q);
      (Bar, raw_score Bar q
            + bonus ["compare"; "top"; "highest"; "lowest"; "rank"] q);
      (Line, raw_score Line q
             + bonus ["trend"; "over time"; "monthly"; "progression"] q);
      (Scatter, raw_score Scatter q) ].
Proof.
  unfold chart_scores, bonus.
  destruct (any_in ["distribution"; "proportion"; "breakdown"; "share"] q);
    destruct (any_in ["compare"; "top"; "highest"; "lowest"; "rank"] q);
    destruct (any_in ["trend"; "over time"; "monthly"; "progression"] q);
    cbn [scores chart_type_patterns map bump chart_type_eqb fst snd];
    unfold raw_score; cbn [find chart_type_patterns chart_type_eqb fst snd];
    rewrite ?Z.add_0_r; reflexivity.
Qed.

Lemma chart_scores_final (q : string) :
  chart_scores q
  = [ (Pie, final_score Pie q); (Bar, final_score Bar q);
      (Line, final_score Line q); (Scatter, final_score Scatter q) ].
Proof.
  unfold final_score. rewrite (chart_scores_entries q). reflexivity.
Qed.

(** With both words in the question, the two bonuses apply. *)
Lemma final_pie_with_distribution (q : string) :
  contains "distribution" q = true -> final_score Pie q = raw_score Pie q + 5.
Proof.
  intros Hd. unfold final_score. rewrite (chart_scores_entries q).
  cbn [find chart_type_eqb fst snd]. unfold bonus.
  rewrite (any_in_member "distribution") by (simpl; auto). reflexivity.
Qed.

Lemma final_bar_with_top (q : string) :
  contains "top" q = true -> final_score Bar q = raw_score Bar q + 5.
Proof.
  intros Ht. unfold final_score. rewrite (chart_scores_entries q).
  cbn [find chart_type_eqb fst snd]. unfold bonus.
  rewrite (any_in_member "top") by (simpl; auto). reflexivity.
Qed.

(** [max] over a dict: the entry returned is the first of greatest value. *)
Lemma fold_max_first {K} (t : list (K * Z)) :
  forall (pre : list (K * Z)) (best e : K * Z),
    (exists before after,
        pre = (before ++ best :: after)%list
        /\ (forall x, In x before -> snd x < snd best)
        /\ (forall x, In x after -> snd x <= snd best)) ->
    fold_left (fun best x => if snd best <? snd x then x else best) t best = e ->
    exists before after,
      (pre ++ t)%list = (before ++ e :: after)%list
      /\ (forall x, In x before -> snd x < snd e)
      /\ (forall x, In x after -> snd x <= snd e).
Proof.
  induction t as [|x t IH]; intros pre best e Hpre; cbn [fold_left].
  - intros <-. rewrite app_nil_r. exact Hpre.
  - intros Hfold.
    replace (pre ++ x :: t)%list with ((pre ++ [x]) ++ t)%list
      by (rewrite <- app_assoc; reflexivity).
    apply (IH (pre ++ [x])%list (if snd best <? snd x then x else best) e);
      [|exact Hfold].
    destruct Hpre as (before & after & -> & Hbefore & Hafter).
    destruct (snd best <? snd x) eqn:E.
    + apply Z.ltb_lt in E.
      exists (before ++ best :: after)%list, []. split; [reflexivity|].
      split; [|intros y []].
      intros y Hy. apply in_app_or in Hy as [Hy | [<- | Hy]].
      * specialize (Hbefore y Hy). lia.
      * assumption.
      * specialize (Hafter y Hy). lia.
    + apply Z.ltb_ge in E.
      exists before, (after ++ [x])%list.
      split; [rewrite <- app_assoc; reflexivity|].
      split; [assumption|].
      intros y Hy. apply in_app_or in Hy as [Hy | [<- | []]];
        [apply Hafter|]; assumption.
Qed.

Lemma max_entry_first_maximum {K} (d : list (K * Z)) (e : K * Z) :
  max_entry d = Some e ->
  exists before after,
    d = (before ++ e :: after)%list
    /\ (forall x, In x before -> snd x < snd e)
    /\ (forall x, In x after -> snd x <= snd e).
Proof.
  destruct d as [|e0 t]; cbn [max_entry]; [discriminate|].
  intros [= Hfold].
  apply (fold_max_first t [e0] e0 e); [|exact Hfold].
  exists [], []. split; [reflexivity|]. split; intros x [].
Qed.

(** The label an axis resolves to, when it is not the automatic one, is
    the first entry of greatest score in the order of the axis's table. *)
Lemma best_label_first_maximum {K} (auto k : K) (d : list (K * Z)) :
  best_label auto d = k -> k <> auto ->
  exists v before after,
    d = (before ++ (k, v) :: after)%list
    /\ 0 < v
    /\ (forall x, In x before -> snd x < v)
    /\ (forall x, In x after -> snd x <= v).
Proof.
  unfold best_label. intros Hbest Hk.
  destruct (max_entry d) as [[k' v]|] eqn:Emax; [|congruence].
  destruct (0 <? v) eqn:Epos; [|congruence]. subst k'.
  apply Z.ltb_lt in Epos.
  destruct (max_entry_first_maximum d (k, v) Emax)
    as (before & after & Hd & Hbefore & Hafter).
  exists v, before, after. cbn [snd] in *. repeat split; assumption.
Qed.

Local Ltac order_facts :=
  let c' := fresh "c'" in let Hc' := fresh "Hc'" in
  intros c' Hc'; cbn in Hc';
  repeat (destruct Hc' as [<- | Hc']; [lia|]); contradiction.

Local Ltac ltb_facts :=
  repeat match goal with
         | H : (_ <? _) = true |- _ => apply Z.ltb_lt in H
         | H : (_ <? _) = false |- _ => apply Z.ltb_ge in H
         end.

(** What [determine_chart_type] selects: a label of greatest final score,
    and among several of them the one that comes first in the table. *)
Lemma chart_type_is_first_maximum (q : string) (c : chart_type) :
  determine_chart_type q = c -> c <> ChartAuto ->
  0 < final_score c q
  /\ (forall c', In c' table_order -> final_score c' q <= final_score c q)
  /\ (exists before after,
         table_order = (before ++ c :: after)%list
         /\ forall c', In c' before -> final_score c' q < final_score c q).
Proof.
  unfold determine_chart_type, best_label. rewrite (chart_scores_final q).
  cbn [max_entry fold_left fst snd]. rewrite table_order_labels.
  set (p := final_score Pie q). set (b := final_score Bar q).
  set (l := final_score Line q). set (s := final_score Scatter q).
  destruct (p <? b) eqn:E1; cbn [fst snd];
    [ destruct (b <? l) eqn:E2 | destruct (p <? l) eqn:E2 ]; cbn [fst snd];
    (match goal with
     | |- context [if ?x <? s then _ else _] => destruct (x <? s) eqn:E3
     end);
    (match goal with
     | |- context [if 0 <? ?x then _ else _] => destruct (0 <? x) eqn:E0
     end);
    intros <- Hauto; try congruence;
    ltb_facts; subst p b l s;
    (split; [assumption|]); (split; [order_facts|]).
  all: first
         [ exists [], [Bar; Line; Scatter]; split; [reflexivity|order_facts]
         | exists [Pie], [Line; Scatter]; split; [reflexivity|order_facts]
         | exists [Pie; Bar], [Scatter]; split; [reflexivity|order_facts]
         | exists [Pie; Bar; Line], []; split; [reflexivity|order_facts] ].
Qed.

Lemma score_nonneg (p : patterns) (q : string) : 0 <= score p q.
Proof.
  assert (Hfold : forall (k : Z) (l : list string) (acc : Z),
             0 <= k -> 0 <= acc ->
             0 <= fold_left (fun sc w => if contains w q then sc + k else sc)
                            l acc).
  { intros k l. induction l as [|w l IH]; intros acc Hk Hacc; cbn [fold_left].
    - assumption.
    - apply IH; [assumption|]. destruct (contains w q); lia. }
  unfold score. apply Hfold; [lia|]. apply Hfold; lia.
Qed.

Lemma raw_score_nonneg (c : chart_type) (q : string) : 0 <= raw_score c q.
Proof.
  unfold raw_score.
  destruct (find _ chart_type_patterns); [apply score_nonneg | lia].
Qed.

(** C5, the claim as it stands fails: with "over time" added, pie and bar
    still tie at equal raw counts, and the line label wins. *)
Lemma pie_bar_tie_counterexample :
  contains "distribution" "top distribution over time" = true
  /\ contains "top" "top distribution over time" = true
  /\ raw_score Pie "top distribution over time"
     = raw_score Bar "top distribution over time"
  /\ determine_chart_type "top distribution over time" = Line
  /\ determine_chart_type "top distribution over time" <> Pie.
Proof. repeat split; try reflexivity. vm_compute. discriminate. Qed.

(** C5, amended. A question with "distribution" and "top" whose pie and
    bar raw counts are equal leaves pie and bar tied after the two +5
    bonuses, and [determine_chart_type] selects pie as long as neither line
    nor scatter scores higher. In general the label selected is the first,
    in the order pie, bar, line, scatter of the pattern table, among those
    of greatest score: every label before it scores strictly less and every
    label scores at most as much. The data-focus axis resolves ties the
    same way, in the order defects, parts, trends, performance of its
    table. *)
Theorem chart_tie_resolution (q : string) :
  (contains "distribution" q = true -> contains "top" q = true ->
   raw_score Pie q = raw_score Bar q ->
   final_score Line q <= final_score Pie q ->
   final_score Scatter q <= final_score Pie q ->
   final_score Pie q = final_score Bar q /\ determine_chart_type q = Pie)
  /\ (forall c, determine_chart_type q = c -> c <> ChartAuto ->
      (forall c', In c' table_order -> final_score c' q <= final_score c q)
      /\ exists before after,
           table_order = (before ++ c :: after)%list
           /\ forall c', In c' before -> final_score c' q < final_score c q)
  /\ (forall f, determine_data_focus q = f -> f <> FocusAuto ->
      exists v before after,
        scores data_focus_patterns q = (before ++ (f, v) :: after)%list
        /\ 0 < v
        /\ (forall x, In x before -> snd x < v)
        /\ (forall x, In x after -> snd x <= v)).
Proof.
  split; [|split].
  - intros Hd Ht Hraw Hl Hs.
    pose proof (final_pie_with_distribution q Hd) as Hp.
    pose proof (final_bar_with_top q Ht) as Hb.
    pose proof (raw_score_nonneg Pie q) as Hnn.
    split; [lia|].
    unfold determine_chart_type, best_label. rewrite (chart_scores_final q).
    cbn [max_entry fold_left fst snd].
    replace (final_score Pie q <? final_score Bar q) with false
      by (symmetry; apply Z.ltb_ge; lia).
    cbn [fst snd].
    replace (final_score Pie q <? final_score Line q) with false
      by (symmetry; apply Z.ltb_ge; lia).
    cbn [fst snd].
    replace (final_score Pie q <? final_score Scatter q) with false
      by (symmetry; apply Z.ltb_ge; lia).
    replace (0 <? final_score Pie q) with true
      by (symmetry; apply Z.ltb_lt; lia).
    reflexivity.
  - intros c Hc Hauto.
    destruct (chart_type_is_first_maximum q c Hc Hauto) as (_ & Hmax & Hfirst).
    split; assumption.
  - intros f Hf Hauto.
    apply (best_label_first_maximum FocusAuto f _ Hf Hauto).
Qed.

Lemma chart_tie_resolution_witness :
  contains "distribution" "top distribution" = true
  /\ contains "top" "top distribution" = true
  /\ raw_score Pie "top distribution" = raw_score Bar "top distribution"
  /\ final_score Line "top distribution" <= final_score Pie "top distribution"
  /\ final_score Scatter "top distribution"
     <= final_score Pie "top distribution"
  /\ determine_chart_type "top distribution" = Pie.
Proof.
  assert (H1 : contains "distribution" "top distribution" = true)
    by reflexivity.
  assert (H2 : contains "top" "top distribution" = true) by reflexivity.
  assert (H3 : raw_score Pie "top distribution"
               = raw_score Bar "top distribution") by reflexivity.
  assert (H4 : final_score Line "top distribution"
               <= final_score Pie "top distribution")
    by (vm_compute; discriminate).
  assert (H5 : final_score Scatter "top distribution"
               <= final_score Pie "top distribution")
    by (vm_compute; discriminate).
  repeat (split; [assumption|]).
  exact (proj2 (proj1 (chart_tie_resolution "top distribution")
                      H1 H2 H3 H4 H5)).
Defined.

End ChartType.

(** ** Routing of the enhanced analyzer *)

Section EnhancedRouting.
Import PyStr Regex Enhanced.

Lemma create_smart_visualization_is_chart (q : string) (a : analysis) :
  is_chart (create_smart_visualization q a) = true.
Proof.
  unfold create_smart_visualization.
  destruct (chart a); try reflexivity.
  destruct (focus a); try reflexivity.
  destruct (contains "distribution" (lower q)); reflexivity.
Qed.

Lemma visualization_words_are_chart_requests :
  incl visualization_words chart_request_words.
Proof.
  intros w Hw. cbn in Hw. cbn.
  repeat (destruct Hw as [<- | Hw]; [tauto|]). contradiction.
Qed.

(** *** When the pass raises *)

Lemma scan_number_matches_returns (ms : list (list string)) :
  (forall m num, In m ms -> In num m -> int num <> None) ->
  forall cur, exists count, scan_number_matches ms cur = Returns count.
Proof.
  induction ms as [|m ms IH]; intros Hint cur; cbn [scan_number_matches].
  - eauto.
  - assert (IH' : forall cur, exists count,
               scan_number_matches ms cur = Returns count).
    { apply IH. intros m' num Hm'. apply Hint. right. assumption. }
    destruct (find truthy m) as [num|] eqn:Efind.
    + apply find_some in Efind as [Hnum _].
      specialize (Hint m num (or_introl eq_refl) Hnum).
      destruct (int num) as [n|]; [|contradiction]. cbn [option_map].
      destruct (count_truthy (Some n)); eauto.
    + destruct (count_truthy cur); eauto.
Qed.

Lemma group_tuple_length (n : nat) (m : match_obj) (s num : string) :
  (forall k v, group k m = Some v ->
               (String.length v <= String.length s)%nat) ->
  In num (group_tuple n m) ->
  (String.length num <= String.length s)%nat.
Proof.
  intros Hg Hin. unfold group_tuple in Hin.
  apply in_map_iff in Hin as (k & <- & _).
  destruct (group k m) as [v|] eqn:E; [eauto | cbn; lia].
Qed.

(** The count extraction cannot fail on a text of at most 4300
    characters. *)
Lemma extract_specific_count_returns (ql : string) :
  Z.of_nat (String.length ql) <= max_str_digits ->
  exists count, extract_specific_count ql = Returns count.
Proof.
  intros Hlen. unfold extract_specific_count.
  apply scan_number_matches_returns.
  intros t num Ht Hnum. apply in_map_iff in Ht as (m & <- & Hm).
  apply findall_length in Hm as [_ Hg].
  pose proof (group_tuple_length 4 m ql num Hg Hnum) as Hl.
  rewrite int_accepts by lia. discriminate.
Qed.

Lemma analysis_of_short_question (q : string) :
  Z.of_nat (String.length q) <= max_str_digits ->
  exists a, analyze_question_semantically q = Returns a.
Proof.
  intros Hlen. unfold analyze_question_semantically.
  destruct (extract_specific_count_returns (strip (lower q)))
    as (count & ->); [|eauto].
  pose proof (strip_length (lower q)) as Hs.
  rewrite lower_length in Hs. lia.
Qed.

(** *** Which questions end in a chart *)

Lemma respond_cue (q : string) (a : analysis) :
  any_in visualization_words (lower q) = true ->
  respond q a = create_smart_visualization q a.
Proof.
  intros Hcue. unfold respond. rewrite Hcue, orb_true_r. reflexivity.
Qed.

Lemma qtype_visualization_cue (q : string) (a : analysis) :
  analyze_question_semantically q = Returns a ->
  qtype a = Visualization ->
  any_in visualization_words (lower q) = true.
Proof.
  intros Ha. rewrite (analysis_question_type q a Ha).
  unfold determine_question_type, question_types. cbn [first_type].
  repeat match goal with
         | |- context [if any_in ?ws ?s then _ else _] =>
             destruct (any_in ws s) eqn:?
         end; try discriminate.
  intros _. apply any_in_strip. assumption.
Qed.

Lemma respond_without_cue (q : string) (a : analysis) :
  any_in visualization_words (lower q) = false ->
  qtype a <> Visualization ->
  is_chart (respond q a) = false.
Proof.
  intros Hcue Hq.
  assert (Hwants : wants_chart q = false).
  { unfold wants_chart.
    rewrite (any_in_false visualization_words (lower q) "chart" Hcue)
      by (simpl; auto).
    rewrite (any_in_false visualization_words (lower q) "graph" Hcue)
      by (simpl; auto).
    reflexivity. }
  unfold respond. rewrite Hcue, orb_false_r.
  destruct (qtype a); try contradiction;
    destruct (focus a);
    unfold handle_defect_analysis, handle_parts_analysis,
      handle_trend_analysis; rewrite ?Hwants;
    try reflexivity; destruct (contains "highest" (lower q)); reflexivity.
Qed.

Lemma cue_gives_visualization (q : string) :
  any_in visualization_words (lower q) = true ->
  answer_question q
  = match analyze_question_semantically q with
    | Returns a => create_smart_visualization q a
    | Raises _ => ValueErrorRaised
    end.
Proof.
  intros Hcue. unfold answer_question.
  rewrite (any_in_incl visualization_words chart_request_words (lower q)
             visualization_words_are_chart_requests Hcue).
  unfold generate_intelligent_response.
  destruct (analyze_question_semantically q) as [a|e]; [|reflexivity].
  apply respond_cue. assumption.
Qed.

Lemma no_cue_no_chart_response (q : string) :
  any_in visualization_words (lower q) = false ->
  is_chart (generate_intelligent_response q) = false.
Proof.
  intros Hcue. unfold generate_intelligent_response.
  destruct (analyze_question_semantically q) as [a|e] eqn:Ea; [|reflexivity].
  apply respond_without_cue; [assumption|].
  intros Hq. rewrite (qtype_visualization_cue q a Ea Hq) in Hcue.
  discriminate.
Qed.

Lemma no_cue_no_chart (q : string) :
  any_in visualization_words (lower q) = false ->
  is_chart (answer_question q) = false.
Proof.
  intros Hcue. unfold answer_question.
  destruct (any_in chart_request_words (lower q));
    [apply no_cue_no_chart_response; assumption|].
  destruct (scan_rejection_patterns rejection_patterns (lower q))
    as [[] n]; [reflexivity|].
  apply no_cue_no_chart_response. assumption.
Qed.

(** C10, the claim as it stands fails: "line" is a substring of "decline"
    and of "deadline", the first test of [answer_question] holds, and the
    turn ends in the rejection-reason aggregation, not in a chart. *)
Lemma line_cue_counterexample :
  contains "line" (lower "decline") = true
  /\ any_in chart_request_words (lower "decline") = true
  /\ answer_question "decline" = TopRejectionReasons None
  /\ is_chart (answer_question "decline") = false
  /\ is_chart (answer_question "deadline") = false.
Proof. repeat split; reflexivity. Qed.

(** C10, amended. The cue words are sought as substrings of the
    lower-cased question. A question containing one of chart, graph, plot,
    draw, show, visualize anywhere, also inside a longer word, is routed to
    [create_smart_visualization] and ends in a chart routine, provided the
    classification pass returns; the pass fails only when [int] refuses a
    count, which takes a question of more than 4300 characters. A question
    containing one of the nine words of the first test (those and pie, bar,
    line) skips the rejection-reason patterns and is answered by
    [generate_intelligent_response], which ends in a chart routine only if
    the question type is visualization or one of the six cue words is
    present. *)
Theorem cue_substring_routing (q : string) :
  (any_in visualization_words (lower q) = true ->
   forall a, analyze_question_semantically q = Returns a ->
             answer_question q = create_smart_visualization q a
             /\ is_chart (answer_question q) = true)
  /\ (Z.of_nat (String.length q) <= max_str_digits ->
      exists a, analyze_question_semantically q = Returns a)
  /\ (any_in chart_request_words (lower q) = true ->
      answer_question q = generate_intelligent_response q)
  /\ (is_chart (generate_intelligent_response q) = true ->
      exists a,
        analyze_question_semantically q = Returns a
        /\ generate_intelligent_response q = create_smart_visualization q a
        /\ (qtype a = Visualization
            \/ any_in visualization_words (lower q) = true)).
Proof.
  split; [|split; [|split]].
  - intros Hvis a Ha. rewrite (cue_gives_visualization q Hvis), Ha.
    split; [reflexivity | apply create_smart_visualization_is_chart].
  - apply analysis_of_short_question.
  - intros Hcue. unfold answer_question. rewrite Hcue. reflexivity.
  - intros Hchart.
    destruct (any_in visualization_words (lower q)) eqn:Hvis.
    + unfold generate_intelligent_response in *.
      destruct (analyze_question_semantically q) as [a|e];
        [|discriminate].
      exists a. rewrite (respond_cue q a Hvis). auto.
    + rewrite (no_cue_no_chart_response q Hvis) in Hchart. discriminate.
Qed.

Lemma cue_substring_routing_witness :
  any_in visualization_words (lower "showcase") = true
  /\ answer_question "showcase" = BarChart 15
  /\ any_in chart_request_words (lower "decline") = true
  /\ answer_question "decline" = generate_intelligent_response "decline".
Proof.
  split; [reflexivity|]. split.
  - exact (proj1 (proj1 (cue_substring_routing "showcase") eq_refl
                        _ eq_refl)).
  - split; [reflexivity|].
    exact (proj1 (proj2 (proj2 (cue_substring_routing "decline")))
                 eq_refl).
Defined.

(** *** Count clamping *)

Lemma clamp_count_range (n : Z) : 1 <= clamp_count n <= 20.
Proof. unfold clamp_count. lia. Qed.

Lemma first_number_clamped_range (ql : string) :
  1 <= first_number_clamped ql <= 20.
Proof.
  unfold first_number_clamped.
  destruct (findall (RPlus d) ql) as [|number rest]; [lia|].
  destruct (int (whole number)); [apply clamp_count_range | lia].
Qed.

Lemma scan_rejection_patterns_count (ps : list regex) (ql : string) :
  fst (scan_rejection_patterns ps ql) = true ->
  snd (scan_rejection_patterns ps ql) = first_number_clamped ql.
Proof.
  induction ps as [|pattern ps IH]; cbn [scan_rejection_patterns].
  - discriminate.
  - destruct (search pattern ql); [|exact IH].
    intros _. unfold first_number_clamped.
    destruct (findall (RPlus d) ql) as [|number rest]; [reflexivity|].
    destruct (int (whole number)); reflexivity.
Qed.

(** C3, the claim as it stands fails: the question "top 0" matches none of
    the rejection patterns, so it is not clamped; the router hands the
    count 0 to the aggregation. *)
Lemma top_0_counterexample :
  recognized "top 0" = false
  /\ answer_question "top 0" = TopRejectionReasons (Some 0)
  /\ answer_question "top 0" <> TopRejectionReasons (Some 1).
Proof. repeat split; try reflexivity. vm_compute. discriminate. Qed.

(** C3, amended. For every question recognized as a rejection-reason query
    the count handed to [get_top_rejection_reasons] lies in [1, 20]: it is
    the first number of the question clamped into that range, or 5 when the
    question has no number or when [int] refuses the number for its more
    than 4300 digits. "top 47 rejection reasons" gives 20 and
    "top 0 rejection reasons" gives 1. *)
Theorem rejection_query_count_clamped (q : string) :
  recognized q = true ->
  answer_question q = TopRejectionReasons (Some (requested_count (lower q)))
  /\ 1 <= requested_count (lower q) <= 20
  /\ requested_count (lower q) = first_number_clamped (lower q).
Proof.
  unfold recognized, is_rejection_query, requested_count.
  intros Hrec. apply andb_true_iff in Hrec as [Hcue Hquery].
  apply negb_true_iff in Hcue.
  pose proof (scan_rejection_patterns_count _ _ Hquery) as Hcount.
  split; [|split].
  - unfold answer_question. rewrite Hcue.
    destruct (scan_rejection_patterns rejection_patterns (lower q))
      as [found n].
    cbn [fst snd] in *. rewrite Hquery. reflexivity.
  - rewrite Hcount. apply first_number_clamped_range.
  - exact Hcount.
Qed.

Lemma rejection_query_count_clamped_witness :
  recognized "top 47 rejection reasons" = true
  /\ answer_question "top 47 rejection reasons"
     = TopRejectionReasons (Some 20)
  /\ recognized "top 0 rejection reasons" = true
  /\ answer_question "top 0 rejection reasons" = TopRejectionReasons (Some 1).
Proof.
  split; [reflexivity|]. split.
  - exact (proj1 (rejection_query_count_clamped "top 47 rejection reasons"
                    eq_refl)).
  - split; [reflexivity|].
    exact (proj1 (rejection_query_count_clamped "top 0 rejection reasons"
                    eq_refl)).
Defined.

(** A number of 4301 digits: [int] refuses it. In a rejection-reason
    query the [except] clause makes the count 5; in a chart request the
    [ValueError] of the classification pass ends the turn. One digit fewer
    is converted. *)
Example count_of_4301_digits :
  answer_question ("rejection reason " ++ nines 4301)
  = TopRejectionReasons (Some 5)
  /\ answer_question ("rejection reason " ++ nines 4300)
     = TopRejectionReasons (Some 20)
  /\ answer_question ("show top " ++ nines 4301) = ValueErrorRaised
  /\ is_chart (answer_question ("show top " ++ nines 4300)) = true.
Proof. repeat split; vm_compute; reflexivity. Qed.

End EnhancedRouting.

(** ** The fallback of the intent router *)

Section Fallback.
Import PyStr Regex Enhanced.

(** With no rule applying, the aggregation is called with the stored
    [specific_count], which is [None] when the question names no count. *)
Lemma fallback_hands_stored_count (question : string) :
  no_routing_rule question = true ->
  exists a,
    analyze_question_semantically question = Returns a
    /\ generate_intelligent_response question
       = TopRejectionReasons (specific_count a).
Proof.
  unfold no_routing_rule, generate_intelligent_response, respond,
    get_specific_count.
  destruct (analyze_question_semantically question) as [a|e];
    [|discriminate].
  intros Hno. apply andb_true_iff in Hno as [Hno Hfocus].
  apply andb_true_iff in Hno as [Hq Hv].
  apply negb_true_iff in Hq. apply negb_true_iff in Hv.
  exists a. split; [reflexivity|].
  rewrite Hq, Hv. cbn [orb].
  destruct (focus a); try discriminate; reflexivity.
Qed.

Lemma insert_desc_length (x : string * Z) (l : list (string * Z)) :
  List.length (insert_desc x l) = S (List.length l).
Proof.
  induction l as [|y ys IH]; cbn [insert_desc]; [reflexivity|].
  destruct (snd x <? snd y); cbn [List.length]; [rewrite IH|]; reflexivity.
Qed.

Lemma sorted_desc_length (l : list (string * Z)) :
  List.length (sorted_desc l) = List.length l.
Proof.
  unfold sorted_desc. induction l as [|x l IH]; cbn [fold_right];
    [reflexivity|].
  rewrite insert_desc_length. cbn [List.length]. rewrite IH. reflexivity.
Qed.

(** Called with [None], the aggregation lists every defect that occurred. *)
Lemma unlimited_count_lists_all (self : analyzer) :
  listed (get_top_rejection_reasons self None)
  = List.length (defect_totals self).
Proof.
  unfold get_top_rejection_reasons.
  pose proof (sorted_desc_length (defect_totals self)) as Hlen.
  destruct (defect_totals self) as [|e totals] eqn:Et; [reflexivity|].
  rewrite slice_to_none.
  destruct (sorted_desc (e :: totals)) as [|e' sorted]; [discriminate|].
  exact Hlen.
Qed.

(** Whatever the count, the answer is a text that is not empty. *)
Lemma answer_opening_not_empty (a : reasons_answer) :
  truthy (answer_opening a) = true.
Proof. destruct a; reflexivity. Qed.

(** C1, the code at the failing input. "hello there" matches no routing
    rule and is handed to the rejection-reason aggregation with the count
    [None], not 5: on a data frame with six defects that occurred the answer
    lists six reasons, where a count of 5 lists five. *)
Theorem hello_there_is_not_limited_to_five :
  no_routing_rule "hello there" = true
  /\ answer_question "hello there" = TopRejectionReasons None
  /\ listed (get_top_rejection_reasons six_defects None) = 6%nat
  /\ answer_opening (get_top_rejection_reasons six_defects None)
     = "🎯 **Top 6 Rejection Reasons (Enhanced Analysis):**"
  /\ listed (get_top_rejection_reasons six_defects (Some 5)) = 5%nat.
Proof. repeat split; reflexivity. Qed.

(** A count that the question does name reaches the aggregation as it is. *)
Example fallback_with_named_count :
  no_routing_rule "7 most" = true
  /\ answer_question "7 most" = TopRejectionReasons (Some 7).
Proof. split; reflexivity. Qed.

End Fallback.

(** ** Determinism of the classification *)

Section Determinism.
Import PyStr Enhanced.

(** The pass leaves the object as it found it. *)
Lemma analyze_turn_object (self : analyzer) (q : string) :
  snd (analyze_turn self q) = self.
Proof. reflexivity. Qed.

(** Of the object the pass reads the two pattern tables and nothing else:
    not the conversation context, not the data. *)
Lemma analyze_turn_reads_tables (self other : analyzer) (q : string) :
  same_tables other self ->
  fst (analyze_turn other q) = fst (analyze_turn self q).
Proof.
  intros [Hchart Hfocus]. unfold analyze_turn. cbn [fst].
  rewrite Hchart, Hfocus. reflexivity.
Qed.

(** On the object [__init__] builds, the pass is the classification at the
    tables of [setup_semantic_patterns]. *)
Lemma analyze_turn_initialised (self : analyzer) (q : string) :
  initialised self ->
  fst (analyze_turn self q) = analyze_question_semantically q.
Proof.
  intros [Hchart Hfocus]. unfold analyze_turn, analyze_question_semantically.
  cbn [fst]. rewrite Hchart, Hfocus. reflexivity.
Qed.

(** A turn assigns to no attribute of the object. *)
Lemma answer_turn_object (self : analyzer) (q : string) :
  snd (answer_turn self q) = self.
Proof.
  unfold answer_turn, generate_intelligent_response_turn.
  destruct (any_in chart_request_words (lower q)); [reflexivity|].
  destruct (scan_rejection_patterns rejection_patterns (lower q))
    as [[] n]; reflexivity.
Qed.

Lemma answer_turn_call (self : analyzer) (q : string) :
  initialised self -> fst (answer_turn self q) = answer_question q.
Proof.
  intros Hinit. unfold answer_turn, answer_question,
    generate_intelligent_response_turn, generate_intelligent_response.
  pose proof (analyze_turn_initialised self q Hinit) as Hpass.
  destruct (analyze_turn self q) as [a self'] eqn:Ea. cbn [fst] in Hpass.
  subst a.
  destruct (any_in chart_request_words (lower q)); [reflexivity|].
  destruct (scan_rejection_patterns rejection_patterns (lower q))
    as [[] n]; reflexivity.
Qed.

Lemma converse_tables (history : list string) :
  forall self, same_tables (converse self history) self.
Proof.
  induction history as [|q qs IH]; intros self; cbn [converse].
  - split; reflexivity.
  - rewrite answer_turn_object. apply IH.
Qed.

(** C9. Two runs of the classification pass on the same question, the
    second on the object the first one leaves, give the same Intent: the
    same question type, data focus, chart type and count, or the same
    exception. The pass reads the question and the two pattern tables of
    the object and nothing else, so the Intent is the same on every object
    [__init__] builds, whatever its conversation context and data; no turn
    changes the tables, so it is the same after any conversation. *)
Theorem classification_deterministic (self : analyzer) (q : string) :
  initialised self ->
  let first_run := analyze_turn self q in
  let second_run := analyze_turn (snd first_run) q in
  fst second_run = fst first_run
  /\ (forall a1 a2,
         fst first_run = Returns a1 -> fst second_run = Returns a2 ->
         qtype a1 = qtype a2 /\ focus a1 = focus a2
         /\ chart a1 = chart a2 /\ specific_count a1 = specific_count a2)
  /\ snd second_run = self
  /\ (forall other,
         initialised other ->
         fst (analyze_turn other q) = fst first_run)
  /\ (forall history,
         initialised (converse self history)
         /\ fst (analyze_turn (converse self history) q) = fst first_run)
  /\ fst first_run = analyze_question_semantically q.
Proof.
  intros Hinit. cbv zeta. rewrite !analyze_turn_object.
  assert (Hsame : forall other, initialised other -> same_tables other self).
  { intros other [Hc Hf]. destruct Hinit as [Hc' Hf'].
    split; congruence. }
  split; [reflexivity|]. split; [|split; [reflexivity|split; [|split]]].
  - intros a1 a2 H1 H2. rewrite H1 in H2. injection H2 as <-.
    repeat split.
  - intros other Hother. apply analyze_turn_reads_tables. auto.
  - intros history. destruct (converse_tables history self) as [Hc Hf].
    assert (Hinit' : initialised (converse self history)).
    { destruct Hinit as [Hc' Hf']. split; congruence. }
    split; [exact Hinit'|]. apply analyze_turn_reads_tables. auto.
  - apply analyze_turn_initialised. assumption.
Qed.

Lemma classification_deterministic_witness :
  initialised six_defects
  /\ fst (analyze_turn (snd (analyze_turn six_defects "show top 3 defects"))
                       "show top 3 defects")
     = fst (analyze_turn six_defects "show top 3 defects")
  /\ fst (analyze_turn (converse six_defects ["hello there"; "decline"])
                       "show top 3 defects")
     = fst (analyze_turn six_defects "show top 3 defects").
Proof.
  assert (Hinit : initialised six_defects) by (split; reflexivity).
  split; [exact Hinit|]. split.
  - exact (proj1 (classification_deterministic six_defects
                    "show top 3 defects" Hinit)).
  - exact (proj2 (proj1 (proj2 (proj2 (proj2 (proj2
             (classification_deterministic six_defects
                "show top 3 defects" Hinit)))))
             ["hello there"; "decline"])).
Defined.

(** A turn of the enhanced analyzer writes nothing to its conversation
    context. *)
Lemma enhanced_turn_keeps_context (self : analyzer) (q : string) :
  context (snd (answer_turn self q)) = context self.
Proof. rewrite answer_turn_object. reflexivity. Qed.

End Determinism.

(** ** Dialogue memory of the intelligent analyzer *)

Section DialogueMemory.
Import PyStr Regex Intelligent.

(** *** What a turn stores *)

Lemma rate_is_not_contextual (H : handlers) (m : conversation_memory) :
  handle_contextual_questions H m "rate" = (None, m).
Proof.
  unfold handle_contextual_questions, resolve_part, triggered.
  change (any_in context_words (lower "rate")) with false. cbn [andb].
  unfold handle_pronoun.
  change (pronoun (lower "rate")) with false. cbn [andb].
  destruct (current_part m); reflexivity.
Qed.

(** C2, the code at the failing input. The question "rate" is answered by
    [handle_ratio_questions], and the memory afterwards holds the question
    but still the answer of the turn before: [last_answer] is not
    written. *)
Theorem ratio_turn_keeps_stale_answer (H : handlers) (m : conversation_memory) :
  answer_question H m "rate"
  = (handle_ratio_questions H "rate", set_last_question "rate" m)
  /\ last_question (snd (answer_question H m "rate")) = "rate"
  /\ last_answer (snd (answer_question H m "rate")) = last_answer m.
Proof.
  assert (Hturn : answer_question H m "rate"
                  = (handle_ratio_questions H "rate",
                     set_last_question "rate" m)).
  { unfold answer_question. rewrite rate_is_not_contextual. reflexivity. }
  rewrite Hturn. repeat split.
Qed.

(** The same on a conversation: the second answer is given and lost. *)
Example stale_answer_after_two_turns :
  let '(answers, m) :=
    converse sample_handlers fresh_memory
             ["which part has the highest rejections?"; "rate"] in
  answers = ["✅ **Answer:** PART-1001 with 57 total rejections.";
             "📊 **Answer:** Ratio calculation available. Please specify what ratio you need."]
  /\ last_question m = "rate"
  /\ last_answer m = "✅ **Answer:** PART-1001 with 57 total rejections.".
Proof. vm_compute. repeat split. Qed.

(** The branches that do store the answer store the one returned. *)
Lemma route_last_answer (H : handlers) (m : conversation_memory) (q : string) :
  last_answer (snd (route H m q)) = fst (route H m q)
  \/ last_answer (snd (route H m q)) = last_answer m.
Proof.
  unfold route.
  repeat match goal with
         | |- context [if ?b then _ else _] => destruct b
         end; cbn; auto.
Qed.

(** *** The list of mentioned parts *)

Lemma existsb_eqb_In (p : string) (l : list string) :
  existsb (String.eqb p) l = true <-> In p l.
Proof.
  rewrite existsb_exists. split.
  - intros (x & Hx & Heq). apply String.eqb_eq in Heq. subst. assumption.
  - intros Hin. exists p. split; [assumption | apply String.eqb_refl].
Qed.

Lemma append_once_present (p : string) (l : list string) :
  In p l -> append_once p l = l.
Proof.
  intros Hin. unfold append_once.
  apply existsb_eqb_In in Hin. rewrite Hin. reflexivity.
Qed.

Lemma append_once_absent (p : string) (l : list string) :
  ~ In p l -> append_once p l = (l ++ [p])%list.
Proof.
  intros Hnin. unfold append_once.
  destruct (existsb (String.eqb p) l) eqn:E; [|reflexivity].
  apply existsb_eqb_In in E. contradiction.
Qed.

Lemma append_once_In (p : string) (l : list string) :
  In p (append_once p l).
Proof.
  destruct (in_dec string_dec p l) as [Hin | Hnin].
  - rewrite append_once_present; assumption.
  - rewrite append_once_absent by assumption. apply in_or_app. right.
    left. reflexivity.
Qed.

Lemma append_once_extends (p : string) (l : list string) :
  exists added, append_once p l = (l ++ added)%list.
Proof.
  destruct (in_dec string_dec p l) as [Hin | Hnin].
  - exists []. rewrite append_once_present by assumption.
    symmetry. apply app_nil_r.
  - exists [p]. apply append_once_absent. assumption.
Qed.

Lemma append_once_NoDup (p : string) (l : list string) :
  NoDup l -> NoDup (append_once p l).
Proof.
  intros Hnd. destruct (in_dec string_dec p l) as [Hin | Hnin].
  - rewrite append_once_present; assumption.
  - rewrite append_once_absent by assumption.
    apply NoDup_app; [assumption | repeat constructor; auto | ].
    intros x Hx [<- | []]. contradiction.
Qed.

Lemma route_mentioned_parts (H : handlers) (m : conversation_memory)
      (q : string) :
  mentioned_parts (snd (route H m q)) = mentioned_parts m
  /\ current_part (snd (route H m q)) = current_part m.
Proof.
  unfold route.
  repeat match goal with
         | |- context [if ?b then _ else _] => destruct b
         end; split; reflexivity.
Qed.

(** A call of [handle_contextual_questions] leaves the list as it is or
    appends the resolved part once. *)
Lemma contextual_mentioned_parts (H : handlers) (m : conversation_memory)
      (q : string) :
  mentioned_parts (snd (handle_contextual_questions H m q))
  = match resolve_part m q with
    | Some p => append_once p (mentioned_parts m)
    | None => mentioned_parts m
    end.
Proof.
  unfold handle_contextual_questions.
  destruct (resolve_part m q) as [p|]; [|reflexivity].
  repeat match goal with
         | |- context [if ?b then _ else _] => destruct b
         end; reflexivity.
Qed.

Lemma answer_question_mentioned_parts (H : handlers) (m : conversation_memory)
      (q : string) :
  mentioned_parts (snd (answer_question H m q))
  = match resolve_part (set_last_question q m) q with
    | Some p => append_once p (mentioned_parts m)
    | None => mentioned_parts m
    end.
Proof.
  unfold answer_question.
  pose proof (contextual_mentioned_parts H (set_last_question q m) q) as Hc.
  destruct (handle_contextual_questions H (set_last_question q m) q)
    as [[response|] m2]; cbn [snd] in Hc.
  - destruct (truthy response); [exact Hc|].
    rewrite (proj1 (route_mentioned_parts H m2 q)). exact Hc.
  - rewrite (proj1 (route_mentioned_parts H m2 q)). exact Hc.
Qed.

Lemma converse_NoDup (H : handlers) (qs : list string) :
  forall m, NoDup (mentioned_parts m) ->
            NoDup (mentioned_parts (snd (converse H m qs))).
Proof.
  induction qs as [|q qs IH]; intros m Hnd; cbn [converse].
  - assumption.
  - pose proof (answer_question_mentioned_parts H m q) as Hstep.
    destruct (answer_question H m q) as [a m'].
    specialize (IH m').
    destruct (converse H m' qs) as [answers m'']. cbn [snd] in *.
    apply IH. rewrite Hstep.
    destruct (resolve_part (set_last_question q m) q);
      [apply append_once_NoDup|]; assumption.
Qed.

Lemma converse_extends (H : handlers) (qs : list string) :
  forall m, exists added,
    mentioned_parts (snd (converse H m qs))
    = (mentioned_parts m ++ added)%list.
Proof.
  induction qs as [|q qs IH]; intros m; cbn [converse].
  - exists []. symmetry. apply app_nil_r.
  - pose proof (answer_question_mentioned_parts H m q) as Hstep.
    destruct (answer_question H m q) as [a m'].
    destruct (IH m') as (added' & Hadded').
    destruct (converse H m' qs) as [answers m'']. cbn [snd] in *.
    rewrite Hadded', Hstep.
    destruct (resolve_part (set_last_question q m) q) as [p|].
    + destruct (append_once_extends p (mentioned_parts m)) as (added & ->).
      exists (added ++ added')%list. symmetry. apply app_assoc.
    + exists added'. reflexivity.
Qed.

(** Turns that all resolve to one part leave the list with that part
    appended once. *)
Lemma converse_resolves (H : handlers) (p : string) (qs : list string) :
  forall m,
    qs <> [] -> every_turn_resolves H m qs p ->
    mentioned_parts (snd (converse H m qs))
    = append_once p (mentioned_parts m).
Proof.
  induction qs as [|q qs IH]; intros m Hne; [congruence|].
  cbn [every_turn_resolves converse]. intros [Hq Hrest].
  pose proof (answer_question_mentioned_parts H m q) as Hstep.
  rewrite Hq in Hstep.
  destruct (answer_question H m q) as [a m'].
  specialize (IH m').
  destruct (converse H m' qs) as [answers m''] eqn:Econv.
  cbn [snd] in *.
  destruct qs as [|q' qs'].
  - cbn [converse] in Econv. injection Econv as _ <-. exact Hstep.
  - rewrite IH by (discriminate || assumption).
    rewrite Hstep. apply append_once_present. apply append_once_In.
Qed.

(** C8. The list of mentioned parts is append-only and holds no part
    twice: appending a part that is present leaves the list unchanged,
    appending the same part three times to a list without duplicates leaves
    exactly one instance of it, a turn only ever extends the list at its
    end, and after any sequence of turns of a session the list has no
    duplicates. A turn that resolves its question to a part records the
    part, once, and any other turn leaves the list as it is; so after the
    same part was resolved in consecutive turns, three or any number, the
    list is the one before them with the part appended once, and it holds
    exactly one instance of the part, at its first-seen position. *)
Theorem mentioned_parts_append_once :
  (forall (p : string) (l : list string), In p l -> append_once p l = l)
  /\ (forall (p : string) (l : list string),
         NoDup l ->
         count_occ string_dec
                   (append_once p (append_once p (append_once p l))) p
         = 1%nat
         /\ exists added,
              append_once p (append_once p (append_once p l))
              = (l ++ added)%list)
  /\ (forall (H : handlers) (m : conversation_memory) (qs : list string),
         exists added,
           mentioned_parts (snd (converse H m qs))
           = (mentioned_parts m ++ added)%list)
  /\ (forall (H : handlers) (qs : list string),
         NoDup (mentioned_parts (snd (converse H fresh_memory qs))))
  /\ (forall (H : handlers) (m : conversation_memory) (q : string),
         mentioned_parts (snd (answer_question H m q))
         = match resolve_part (set_last_question q m) q with
           | Some p => append_once p (mentioned_parts m)
           | None => mentioned_parts m
           end)
  /\ (forall (H : handlers) (m : conversation_memory) (qs : list string)
             (p : string),
         qs <> [] -> every_turn_resolves H m qs p ->
         NoDup (mentioned_parts m) ->
         let parts := mentioned_parts (snd (converse H m qs)) in
         parts = append_once p (mentioned_parts m)
         /\ count_occ string_dec parts p = 1%nat
         /\ (In p (mentioned_parts m) -> parts = mentioned_parts m)
         /\ (~ In p (mentioned_parts m) ->
             parts = (mentioned_parts m ++ [p])%list)).
Proof.
  split; [exact append_once_present|].
  split; [|split; [|split; [|split]]].
  - intros p l Hnd.
    rewrite (append_once_present p (append_once p l))
      by apply append_once_In.
    rewrite (append_once_present p (append_once p l))
      by apply append_once_In.
    split.
    + apply NoDup_count_occ'; [apply append_once_NoDup; assumption|].
      apply append_once_In.
    + apply append_once_extends.
  - intros H m qs. apply converse_extends.
  - intros H qs. apply converse_NoDup. constructor.
  - intros H m q. apply answer_question_mentioned_parts.
  - intros H m qs p Hne Hres Hnd. cbv zeta.
    rewrite (converse_resolves H p qs m Hne Hres).
    split; [reflexivity|]. split; [|split].
    + apply NoDup_count_occ'; [apply append_once_NoDup; assumption|].
      apply append_once_In.
    + apply append_once_present.
    + apply append_once_absent.
Qed.

Lemma mentioned_parts_append_once_witness :
  In "PART-1001" ["PART-7"; "PART-1001"]
  /\ append_once "PART-1001" ["PART-7"; "PART-1001"]
     = ["PART-7"; "PART-1001"]
  /\ NoDup ["PART-7"]
  /\ count_occ string_dec
               (append_once "PART-1001"
                  (append_once "PART-1001"
                     (append_once "PART-1001" ["PART-7"])))
               "PART-1001" = 1%nat
  /\ every_turn_resolves sample_handlers after_turn1
       ["why does this part fail so much?"; "why this part rejection";
        "what caused this"] "PART-1001"
  /\ count_occ string_dec
               (mentioned_parts
                  (snd (converse sample_handlers after_turn1
                          ["why does this part fail so much?";
                           "why this part rejection"; "what caused this"])))
               "PART-1001" = 1%nat.
Proof.
  assert (Hin : In "PART-1001" ["PART-7"; "PART-1001"])
    by (right; left; reflexivity).
  assert (Hnd : NoDup ["PART-7"])
    by (constructor; [intros [] | constructor]).
  assert (Hres : every_turn_resolves sample_handlers after_turn1
                   ["why does this part fail so much?";
                    "why this part rejection"; "what caused this"]
                   "PART-1001")
    by (repeat split; reflexivity).
  split; [exact Hin|]. split.
  - exact (proj1 mentioned_parts_append_once "PART-1001" _ Hin).
  - split; [exact Hnd|]. split.
    + exact (proj1 (proj1 (proj2 mentioned_parts_append_once)
                          "PART-1001" _ Hnd)).
    + split; [exact Hres|].
      refine (proj1 (proj2 (proj2 (proj2 (proj2 (proj2 (proj2
                mentioned_parts_append_once)))) sample_handlers
                after_turn1 _ "PART-1001" _ Hres _))).
      * discriminate.
      * constructor.
Defined.

(** The part is named in three turns running and is listed once. *)
Example three_mentions_one_entry :
  mentioned_parts
    (snd (converse sample_handlers fresh_memory
                   ["which part has the highest rejections?";
                    "why does this part fail so much?";
                    "why this part rejection";
                    "what caused this"]))
  = ["PART-1001"].
Proof. vm_compute. reflexivity. Qed.

End DialogueMemory.

(** ** Reference resolution *)

Section ReferenceResolution.
Import PyStr Regex Intelligent.


Lemma resolve_part_triggered (m : conversation_memory) (q : string) :
  triggered (lower q) (last_answer m) = true ->
  resolve_part m q
  = match part_match (lower (last_question m)) (last_answer m) with
    | Some mo => part_name_of mo
    | None => None
    end.
Proof. intros Hyes. unfold resolve_part. rewrite Hyes. reflexivity. Qed.

(** The first turn of the scenario, for any handlers: the part handler
    answers and its answer is stored. *)
Lemma first_turn (H : handlers) :
  answer_question H fresh_memory turn1
  = (handle_part_questions H turn1,
     set_last_answer (handle_part_questions H turn1)
                     (set_last_question turn1 fresh_memory)).
Proof. reflexivity. Qed.

(** The second turn, once the stored answer names PART-1001. *)
Lemma second_turn (H : handlers) (m : conversation_memory) :
  last_answer m = part_answer ->
  truthy (analyze_part_rejection_reasons H "PART-1001") = true ->
  resolve_part (set_last_question turn2 m) turn2 = Some "PART-1001"
  /\ answer_question H m turn2
     = (analyze_part_rejection_reasons H "PART-1001",
        set_last_answer (analyze_part_rejection_reasons H "PART-1001")
          (remember_part "PART-1001" (set_last_question turn2 m))).
Proof.
  intros Hlast Htruthy.
  assert (Hres : resolve_part (set_last_question turn2 m) turn2
                 = Some "PART-1001").
  { unfold resolve_part, part_match. cbn [last_answer set_last_question].
    rewrite Hlast. reflexivity. }
  split; [exact Hres|].
  unfold answer_question, handle_contextual_questions. rewrite Hres.
  change (contains "why" (lower turn2)) with true.
  change (contains "this part" (lower turn2)) with true.
  rewrite !orb_true_r. cbn [andb]. rewrite Htruthy. reflexivity.
Qed.

(** When the resolution is triggered, the three searches are taken in
    order and the first that succeeds gives the part: the token search over
    [last_answer], then the "part number/name" search over [last_question],
    then the search for a long token over [last_answer]. In the two-turn
    scenario, with the first answer naming PART-1001, the follow-up
    "why does this part fail so much?" is resolved to PART-1001 and answered
    by [analyze_part_rejection_reasons] for that part. *)
Lemma resolution_or_chain (H : handlers) :
  (forall (m : conversation_memory) (q : string),
      triggered (lower q) (last_answer m) = true ->
      let first := search part_in_answer (last_answer m) in
      let second := search part_in_question (lower (last_question m)) in
      let third := search long_part_in_answer (last_answer m) in
      (forall mo, first = Some mo -> resolve_part m q = part_name_of mo)
      /\ (forall mo, first = None -> second = Some mo ->
                     resolve_part m q = part_name_of mo)
      /\ (forall mo, first = None -> second = None -> third = Some mo ->
                     resolve_part m q = part_name_of mo)
      /\ (first = None -> second = None -> third = None ->
          resolve_part m q = None))
  /\ (handle_part_questions H turn1 = part_answer ->
      truthy (analyze_part_rejection_reasons H "PART-1001") = true ->
      exists m,
        converse H fresh_memory [turn1; turn2]
        = ([part_answer; analyze_part_rejection_reasons H "PART-1001"], m)
        /\ current_part m = Some "PART-1001"
        /\ mentioned_parts m = ["PART-1001"]).
Proof.
  split.
  - intros m q Htrig. cbv zeta.
    rewrite (resolve_part_triggered m q Htrig). unfold part_match, or_else.
    repeat split.
    + intros mo ->. reflexivity.
    + intros mo -> ->. reflexivity.
    + intros mo -> -> ->. reflexivity.
    + intros -> -> ->. reflexivity.
  - intros Hpart Htruthy. cbn [converse].
    rewrite first_turn, Hpart.
    destruct (second_turn H
                (set_last_answer part_answer
                                 (set_last_question turn1 fresh_memory))
                eq_refl Htruthy) as [_ ->].
    eexists. split; [reflexivity|]. split; reflexivity.
Qed.

Example carry_over_scenario :
  handle_part_questions sample_handlers turn1 = part_answer
  /\ truthy (analyze_part_rejection_reasons sample_handlers "PART-1001") = true
  /\ exists m,
       converse sample_handlers fresh_memory [turn1; turn2]
       = ([part_answer; "🔍 **Why PART-1001 has the most rejections:**"], m)
       /\ current_part m = Some "PART-1001"
       /\ mentioned_parts m = ["PART-1001"].
Proof.
  split; [reflexivity|]. split; [reflexivity|].
  exact (proj2 (resolution_or_chain sample_handlers) eq_refl eq_refl).
Qed.

(** Without the resolution the same question gets the general summary. *)
Example follow_up_without_context :
  fst (answer_question sample_handlers fresh_memory turn2)
  = handle_general_questions sample_handlers turn2.
Proof. reflexivity. Qed.

(** *** A fresh session *)






(** *** The second search works on a lower-cased text

    [handle_contextual_questions] lower-cases [last_question] before the
    search, and the pattern asks for a capital letter after "part number":
    that search finds nothing, whatever the question was. *)

Lemma lower_ascii_not_upper (a : ascii) : is_upper (lower_ascii a) = false.
Proof. destruct a as [[] [] [] [] [] [] [] []]; reflexivity. Qed.

Lemma lower_no_upper (s : string) : no_upper (lower s) = true.
Proof.
  induction s as [|a t IH]; cbn [lower no_upper]; [reflexivity|].
  rewrite lower_ascii_not_upper, IH. reflexivity.
Qed.

Lemma no_upper_tail (a : ascii) (t : string) :
  no_upper (String a t) = true -> no_upper t = true.
Proof. cbn [no_upper]. intros Hn. apply andb_true_iff in Hn. tauto. Qed.

Lemma strip_prefix_no_upper (x : string) :
  forall s rest, no_upper s = true -> strip_prefix x s = Some rest ->
                 no_upper rest = true.
Proof.
  induction x as [|a x IH]; intros s rest Hs; cbn [strip_prefix].
  - intros [= <-]. assumption.
  - destruct s as [|b s]; [discriminate|].
    destruct (Ascii.eqb a b); [|discriminate].
    apply IH. apply (no_upper_tail b). assumption.
Qed.

Lemma star_rests_no_upper (p : ascii -> bool) :
  forall s rest, no_upper s = true -> In rest (star_rests p s) ->
                 no_upper rest = true.
Proof.
  induction s as [|a t IH]; intros rest Hs; cbn [star_rests].
  - intros [<- | []]. assumption.
  - destruct (p a).
    + intros Hin. apply in_app_or in Hin as [Hin | [<- | []]].
      * apply IH; [apply (no_upper_tail a)|]; assumption.
      * assumption.
    + intros [<- | []]. assumption.
Qed.

Lemma run_rest_no_upper (r : regex) :
  forall s c rest c', no_upper s = true -> In (rest, c') (run r s c) ->
                      no_upper rest = true.
Proof.
  induction r as [x | p | p | r1 IH1 r2 IH2 | r1 IH1 r2 IH2 | r1 IH1
                  | n r1 IH1];
    intros s c rest c' Hs; cbn [run].
  - destruct (strip_prefix x s) as [rest'|] eqn:E; [|intros []].
    intros [[= <- <-] | []]. apply (strip_prefix_no_upper x s); assumption.
  - destruct s as [|a t]; [intros []|].
    destruct (p a); [|intros []].
    intros [[= <- <-] | []]. apply (no_upper_tail a). assumption.
  - intros Hin. apply in_map_iff in Hin as (rest' & [= <- <-] & Hin).
    apply (star_rests_no_upper p s); assumption.
  - intros Hin. apply in_flat_map in Hin as ([s1 c1] & Hin1 & Hin2).
    cbn [fst snd] in Hin2.
    apply (IH2 s1 c1 rest c'); [|assumption].
    apply (IH1 s c s1 c1); assumption.
  - intros Hin. apply in_app_or in Hin as [Hin | Hin];
      [apply (IH1 s c rest c') | apply (IH2 s c rest c')]; assumption.
  - intros Hin. apply in_app_or in Hin as [Hin | [[= <- <-] | []]];
      [apply (IH1 s c rest c')|]; assumption.
  - intros Hin. apply in_map_iff in Hin as ([s1 c1] & [= <- <-] & Hin).
    apply (IH1 s c s1 c1); assumption.
Qed.

Lemma fails_lower_upper : fails_lower (RSet upper).
Proof.
  intros [|a t] c Hs; cbn [run]; [reflexivity|].
  cbn [no_upper] in Hs. apply andb_true_iff in Hs as [Ha _].
  apply negb_true_iff in Ha. unfold upper. rewrite Ha. reflexivity.
Qed.

Lemma fails_lower_seq_l (r1 r2 : regex) :
  fails_lower r1 -> fails_lower (RSeq r1 r2).
Proof. intros H1 s c Hs. cbn [run]. rewrite (H1 s c Hs). reflexivity. Qed.

Lemma fails_lower_seq_r (r1 r2 : regex) :
  fails_lower r2 -> fails_lower (RSeq r1 r2).
Proof.
  intros H2 s c Hs. cbn [run].
  assert (Hall : forall l : list (string * captures),
             (forall sc, In sc l -> no_upper (fst sc) = true) ->
             flat_map (fun sc => run r2 (fst sc) (snd sc)) l = []).
  { induction l as [|sc l IH]; intros Hl; cbn [flat_map]; [reflexivity|].
    rewrite (H2 (fst sc) (snd sc)) by (apply Hl; left; reflexivity).
    apply IH. intros sc' Hin. apply Hl. right. assumption. }
  apply Hall. intros [s1 c1] Hin.
  apply (run_rest_no_upper r1 s c s1 c1); assumption.
Qed.

Lemma fails_lower_group (n : nat) (r : regex) :
  fails_lower r -> fails_lower (RGroup n r).
Proof. intros Hr s c Hs. cbn [run]. rewrite (Hr s c Hs). reflexivity. Qed.

Lemma part_in_question_fails_lower : fails_lower part_in_question.
Proof.
  unfold part_in_question, part_token. cbn [seqs].
  repeat apply fails_lower_seq_r. apply fails_lower_group.
  apply fails_lower_seq_l. apply fails_lower_upper.
Qed.

Lemma search_part_in_question_lower (last_question : string) :
  search part_in_question (lower last_question) = None.
Proof.
  assert (Hsearch : forall s, no_upper s = true ->
                              search part_in_question s = None).
  { induction s as [|a t IH]; intros Hs; cbn [search]; unfold match_here;
      rewrite (part_in_question_fails_lower _ [] Hs); [reflexivity|].
    apply IH. apply (no_upper_tail a). assumption. }
  apply Hsearch. apply lower_no_upper.
Qed.

(** So a part is resolved from the previous answer alone. *)
Lemma part_match_from_answer (last_question last_answer : string) :
  part_match (lower last_question) last_answer
  = or_else (search part_in_answer last_answer)
            (search long_part_in_answer last_answer).
Proof.
  unfold part_match. rewrite search_part_in_question_lower. reflexivity.
Qed.

(** *** A part named in the previous question *)

(** C6, the code at the failing input. The first turn names a part in the
    "part number <value>" phrasing and its answer holds no part token; the
    follow-up triggers the resolution. The first search finds nothing, and
    the second, which the claim has look into the previous question, cannot
    find the part either: the text it is given is lower-cased (and is by
    then the follow-up itself), while the pattern, which does match the
    question as typed, needs a capital letter. No part is resolved and the
    follow-up gets the general summary. *)
Theorem part_number_phrase_is_not_resolved :
  (forall last_question,
      search part_in_question (lower last_question) = None)
  /\ option_map (group 2) (search part_in_question turn_naming_part)
     = Some (Some "ABC-123")
  /\ (exists m1 m2,
         answer_question sample_handlers fresh_memory turn_naming_part
         = (please_specify, m1)
         /\ triggered (lower follow_up) (last_answer m1) = true
         /\ search part_in_answer (last_answer m1) = None
         /\ resolve_part (set_last_question follow_up m1) follow_up = None
         /\ answer_question sample_handlers m1 follow_up
            = (handle_general_questions sample_handlers follow_up, m2)
         /\ current_part m2 = None
         /\ mentioned_parts m2 = []).
Proof.
  split; [exact search_part_in_question_lower|].
  split; [reflexivity|].
  eexists. eexists.
  split; [reflexivity|]. repeat split; reflexivity.
Qed.

(** Had the second search matched, the name taken would be its first
    group, the word "number". *)
Example part_name_of_second_pattern :
  option_map part_name_of (search part_in_question turn_naming_part)
  = Some (Some "number").
Proof. reflexivity. Qed.

End ReferenceResolution.

(** ** Scores and the automatic label *)

Section NoSignal.
Import PyStr Enhanced.

Lemma any_in_app (ws ws' : list string) (s : string) :
  any_in (ws ++ ws') s = (any_in ws s || any_in ws' s)%bool.
Proof. unfold any_in. apply existsb_app. Qed.

Lemma fold_matched (k : Z) (q : string) (ws : list string) :
  forall acc,
    fold_left (fun sc w => if contains w q then sc + k else sc) ws acc
    = acc + k * matched ws q.
Proof.
  unfold matched.
  induction ws as [|w ws IH]; intros acc; cbn [fold_left filter].
  - cbn. lia.
  - rewrite IH. destruct (contains w q); cbn [List.length]; lia.
Qed.

(** The score of a label: two for each keyword found, three for each
    phrase found. *)
Lemma score_counts (p : patterns) (q : string) :
  score p q = 2 * matched (keywords p) q + 3 * matched (phrases p) q.
Proof. unfold score. rewrite !fold_matched. lia. Qed.

Lemma matched_zero (ws : list string) (q : string) :
  matched ws q = 0 <-> any_in ws q = false.
Proof.
  unfold matched, any_in.
  induction ws as [|w ws IH]; cbn [filter existsb List.length].
  - split; reflexivity.
  - destruct (contains w q); cbn [List.length orb].
    + split; [lia | discriminate].
    + exact IH.
Qed.

Lemma matched_nonneg (ws : list string) (q : string) : 0 <= matched ws q.
Proof. unfold matched. lia. Qed.

Lemma score_zero (p : patterns) (q : string) :
  score p q = 0 <-> any_in (keywords p ++ phrases p) q = false.
Proof.
  rewrite score_counts, any_in_app, orb_false_iff, <- !matched_zero.
  pose proof (matched_nonneg (keywords p) q).
  pose proof (matched_nonneg (phrases p) q). lia.
Qed.

Lemma max_entry_In {K} (d : list (K * Z)) (e : K * Z) :
  max_entry d = Some e -> In e d /\ forall x, In x d -> snd x <= snd e.
Proof.
  intros Hmax.
  destruct (max_entry_first_maximum d e Hmax)
    as (before & after & -> & Hbefore & Hafter).
  split; [apply in_or_app; right; left; reflexivity|].
  intros x Hx. apply in_app_or in Hx as [Hx | [<- | Hx]].
  - specialize (Hbefore x Hx). lia.
  - lia.
  - apply Hafter. assumption.
Qed.

(** An axis resolves to its automatic label exactly when every score on
    it is zero. *)
Lemma best_label_auto_iff {K} (auto : K) (d : list (K * Z)) :
  (forall e, In e d -> fst e <> auto) ->
  (forall e, In e d -> 0 <= snd e) ->
  best_label auto d = auto <-> forall e, In e d -> snd e = 0.
Proof.
  intros Hlabels Hnonneg. unfold best_label.
  destruct (max_entry d) as [[k v]|] eqn:Emax.
  - destruct (max_entry_In d (k, v) Emax) as [Hin Hle]. cbn [snd] in Hle.
    destruct (0 <? v) eqn:Epos.
    + apply Z.ltb_lt in Epos. split.
      * intros ->. destruct (Hlabels _ Hin). reflexivity.
      * intros Hzero. specialize (Hzero _ Hin). cbn in Hzero. lia.
    + apply Z.ltb_ge in Epos. split; [|reflexivity].
      intros _ e He. specialize (Hle e He). specialize (Hnonneg e He). lia.
  - destruct d; [|discriminate]. split; [intros _ e []|reflexivity].
Qed.

Lemma any_in_table_words {K} (table : list (K * patterns)) (q : string) :
  any_in (table_words table) q = false
  <-> forall e, In e table -> score (snd e) q = 0.
Proof.
  unfold table_words. induction table as [|e table IH]; cbn [flat_map].
  - split; [intros _ e [] | reflexivity].
  - rewrite any_in_app, orb_false_iff, IH, <- score_zero. split.
    + intros [He Hrest] e' [<- | Hin]; auto.
    + intros Hall. split; [apply Hall; left; reflexivity|].
      intros e' Hin. apply Hall. right. assumption.
Qed.

Lemma focus_auto_iff (ql : string) :
  determine_data_focus ql = FocusAuto
  <-> any_in (table_words data_focus_patterns) ql = false.
Proof.
  unfold determine_data_focus.
  rewrite best_label_auto_iff, any_in_table_words.
  - unfold scores. split.
    + intros Hzero e He. apply (Hzero (fst e, score (snd e) ql)).
      apply in_map_iff. exists e. split; [reflexivity | assumption].
    + intros Hzero e He. apply in_map_iff in He as (e' & <- & He').
      apply Hzero. assumption.
  - intros e He Hauto. unfold scores in He.
    apply in_map_iff in He as (e' & <- & He'). cbn [fst] in Hauto.
    cbn in He'.
    repeat (destruct He' as [<- | He']; [discriminate|]). contradiction.
  - intros e He. unfold scores in He.
    apply in_map_iff in He as (e' & <- & _). apply score_nonneg.
Qed.

Lemma bonus_zero (ws : list string) (q : string) :
  bonus ws q = 0 <-> any_in ws q = false.
Proof. unfold bonus. destruct (any_in ws q); split; congruence || lia. Qed.

Lemma bonus_nonneg (ws : list string) (q : string) : 0 <= bonus ws q.
Proof. unfold bonus. destruct (any_in ws q); lia. Qed.

Lemma raw_score_zero (ql : string) :
  (raw_score Pie ql = 0 /\ raw_score Bar ql = 0 /\ raw_score Line ql = 0
   /\ raw_score Scatter ql = 0)
  <-> any_in (table_words chart_type_patterns) ql = false.
Proof.
  rewrite any_in_table_words. unfold raw_score.
  cbn [find chart_type_patterns chart_type_eqb fst snd]. split.
  - intros (Hp & Hb & Hl & Hs) e He. cbn in He.
    repeat (destruct He as [<- | He]; [assumption|]). contradiction.
  - intros Hall.
    split; [apply (Hall (Pie, _)); simpl; auto 6|].
    split; [apply (Hall (Bar, _)); simpl; auto 6|].
    split; [apply (Hall (Line, _)); simpl; auto 6|].
    apply (Hall (Scatter, _)); simpl; auto 6.
Qed.

Lemma any_in_incl_false (ws ws' : list string) (s : string) :
  incl ws ws' -> any_in ws' s = false -> any_in ws s = false.
Proof.
  intros Hincl Hfalse. destruct (any_in ws s) eqn:E; [|reflexivity].
  rewrite (any_in_incl ws ws' s Hincl E) in Hfalse. discriminate.
Qed.

Lemma incl_check (ws ws' : list string) :
  forallb (fun w => existsb (String.eqb w) ws') ws = true -> incl ws ws'.
Proof.
  intros Hall w Hw. rewrite forallb_forall in Hall.
  specialize (Hall w Hw). apply existsb_exists in Hall as (w' & Hw' & Heq).
  apply String.eqb_eq in Heq. subst. assumption.
Qed.

Lemma chart_scores_all_zero (ql : string) :
  determine_chart_type ql = ChartAuto
  <-> (final_score Pie ql = 0 /\ final_score Bar ql = 0
       /\ final_score Line ql = 0 /\ final_score Scatter ql = 0).
Proof.
  unfold determine_chart_type. rewrite best_label_auto_iff.
  - rewrite (chart_scores_final ql). split.
    + intros Hzero.
      split; [apply (Hzero (Pie, _)); simpl; auto|].
      split; [apply (Hzero (Bar, _)); simpl; auto|].
      split; [apply (Hzero (Line, _)); simpl; auto|].
      apply (Hzero (Scatter, _)); simpl; auto.
    + intros (Hp & Hb & Hl & Hs) e He. simpl in He.
      repeat (destruct He as [<- | He]; [assumption|]). contradiction.
  - intros e He. rewrite (chart_scores_final ql) in He. simpl in He.
    repeat (destruct He as [<- | He]; [discriminate|]). contradiction.
  - intros e He. rewrite (chart_scores_entries ql) in He.
    pose proof (raw_score_nonneg Pie ql). pose proof (raw_score_nonneg Bar ql).
    pose proof (raw_score_nonneg Line ql).
    pose proof (raw_score_nonneg Scatter ql).
    pose proof (bonus_nonneg
                  ["distribution"; "proportion"; "breakdown"; "share"] ql).
    pose proof (bonus_nonneg
                  ["compare"; "top"; "highest"; "lowest"; "rank"] ql).
    pose proof (bonus_nonneg
                  ["trend"; "over time"; "monthly"; "progression"] ql).
    cbn [In] in He.
    repeat (destruct He as [<- | He]; [cbn [snd]; lia|]). contradiction.
Qed.

Lemma final_scores_entries (ql : string) :
  final_score Pie ql
  = raw_score Pie ql
    + bonus ["distribution"; "proportion"; "breakdown"; "share"] ql
  /\ final_score Bar ql
     = raw_score Bar ql
       + bonus ["compare"; "top"; "highest"; "lowest"; "rank"] ql
  /\ final_score Line ql
     = raw_score Line ql
       + bonus ["trend"; "over time"; "monthly"; "progression"] ql
  /\ final_score Scatter ql = raw_score Scatter ql.
Proof.
  unfold final_score. rewrite (chart_scores_entries ql).
  repeat split; reflexivity.
Qed.

Lemma chart_auto_iff (ql : string) :
  determine_chart_type ql = ChartAuto
  <-> any_in (table_words chart_type_patterns ++ ["monthly"]) ql = false.
Proof.
  rewrite chart_scores_all_zero.
  destruct (final_scores_entries ql) as (-> & -> & -> & ->).
  pose proof (raw_score_nonneg Pie ql). pose proof (raw_score_nonneg Bar ql).
  pose proof (raw_score_nonneg Line ql).
  set (b1 := ["distribution"; "proportion"; "breakdown"; "share"]).
  set (b2 := ["compare"; "top"; "highest"; "lowest"; "rank"]).
  set (b3 := ["trend"; "over time"; "monthly"; "progression"]).
  pose proof (bonus_nonneg b1 ql). pose proof (bonus_nonneg b2 ql).
  pose proof (bonus_nonneg b3 ql).
  split.
  - intros (Hp & Hb & Hl & Hs).
    rewrite any_in_app. apply orb_false_iff. split.
    + apply raw_score_zero. repeat split; lia.
    + assert (Hb3 : bonus b3 ql = 0) by lia. apply bonus_zero in Hb3.
      unfold any_in. cbn [existsb].
      rewrite (any_in_false b3 ql "monthly" Hb3) by (simpl; auto).
      reflexivity.
  - intros Hnone.
    assert (Hb1 : any_in b1 ql = false)
      by (apply (any_in_incl_false b1 _ ql
                   (incl_check b1 (table_words chart_type_patterns
                                   ++ ["monthly"])%list eq_refl) Hnone)).
    assert (Hb2 : any_in b2 ql = false)
      by (apply (any_in_incl_false b2 _ ql
                   (incl_check b2 (table_words chart_type_patterns
                                   ++ ["monthly"])%list eq_refl) Hnone)).
    assert (Hb3 : any_in b3 ql = false)
      by (apply (any_in_incl_false b3 _ ql
                   (incl_check b3 (table_words chart_type_patterns
                                   ++ ["monthly"])%list eq_refl) Hnone)).
    apply bonus_zero in Hb1, Hb2, Hb3.
    rewrite any_in_app in Hnone. apply orb_false_iff in Hnone as [Hraw _].
    apply raw_score_zero in Hraw as (Hp & Hb & Hl & Hs). lia.
Qed.

(** X1. An axis resolves to its automatic label exactly when the question
    gives no signal on it: the data focus is automatic when no keyword or
    phrase of the focus table occurs in the question, and the chart type is
    automatic when no keyword or phrase of the chart table occurs in it and
    neither does "monthly", which is a bonus word for line without being
    one of its keywords. *)
Theorem axis_auto_iff_no_signal (ql : string) :
  (determine_data_focus ql = FocusAuto
   <-> any_in (table_words data_focus_patterns) ql = false)
  /\ (determine_chart_type ql = ChartAuto
      <-> any_in (table_words chart_type_patterns ++ ["monthly"]) ql = false).
Proof. split; [apply focus_auto_iff | apply chart_auto_iff]. Qed.

End NoSignal.

(** ** Which turns of the enhanced analyzer end in a chart *)

Section ChartRouting.
Import PyStr Regex Enhanced.

(** X2. A turn of the enhanced analyzer ends in a chart routine exactly
    when the lower-cased question contains one of chart, graph, plot, draw,
    show, visualize and the classification pass does not end in an
    exception, which it can only for a question of more than 4300
    characters. The chart tests inside the defect, parts and trend handlers
    never add a chart of their own. *)
Theorem chart_exactly_on_cue_word (q : string) :
  is_chart (answer_question q)
  = (any_in visualization_words (lower q) && negb (pass_raises q))%bool
  /\ (pass_raises q = true ->
      max_str_digits < Z.of_nat (String.length q)).
Proof.
  split.
  - destruct (any_in visualization_words (lower q)) eqn:Hcue.
    + rewrite (cue_gives_visualization q Hcue). unfold pass_raises.
      destruct (analyze_question_semantically q) as [a|e]; [|reflexivity].
      apply create_smart_visualization_is_chart.
    + apply no_cue_no_chart. assumption.
  - unfold pass_raises. intros Hraises.
    destruct (Z.le_gt_cases (Z.of_nat (String.length q)) max_str_digits)
      as [Hshort | Hlong]; [|assumption].
    destruct (analysis_of_short_question q Hshort) as (a & Ha).
    rewrite Ha in Hraises. discriminate.
Qed.

Lemma chart_is_smart_visualization (q : string) :
  is_chart (answer_question q) = true ->
  exists a,
    analyze_question_semantically q = Returns a
    /\ answer_question q = create_smart_visualization q a.
Proof.
  intros Hchart.
  destruct (any_in visualization_words (lower q)) eqn:Hcue.
  - rewrite (cue_gives_visualization q Hcue) in *.
    destruct (analyze_question_semantically q) as [a|e]; [|discriminate].
    exists a. split; reflexivity.
  - rewrite (no_cue_no_chart q Hcue) in Hchart. discriminate.
Qed.

(** *** The count a chart is drawn with *)

Lemma int_of_digits_nonneg (s : string) : 0 <= int_of_digits s.
Proof.
  unfold int_of_digits.
  assert (Hfold : forall l acc, 0 <= acc ->
             0 <= fold_left
                    (fun acc a => 10 * acc + Z.of_nat (nat_of_ascii a - 48))
                    l acc).
  { induction l as [|a l IH]; intros acc Hacc; cbn [fold_left];
      [assumption|]. apply IH. lia. }
  apply Hfold. lia.
Qed.

Lemma int_nonneg (s : string) (n : Z) : int s = Some n -> 0 <= n.
Proof.
  unfold int. destruct (_ <=? _); [|discriminate].
  intros [= <-]. apply int_of_digits_nonneg.
Qed.

Lemma scan_number_matches_nonneg (ms : list (list string)) :
  forall cur n,
    (forall c, cur = Some c -> 0 <= c) ->
    scan_number_matches ms cur = Returns (Some n) -> 0 <= n.
Proof.
  induction ms as [|m ms IH]; intros cur n Hcur; cbn [scan_number_matches].
  - intros [= ->]. apply Hcur. reflexivity.
  - destruct (find truthy m) as [num|].
    + destruct (int num) as [z|] eqn:Ez; cbn [option_map]; [|discriminate].
      apply int_nonneg in Ez.
      destruct (count_truthy (Some z)).
      * intros [= <-]. assumption.
      * apply IH. intros c [= <-]. assumption.
    + destruct (count_truthy cur).
      * intros [= Hn]. apply Hcur. assumption.
      * apply IH. assumption.
Qed.

Lemma specific_count_nonneg (ql : string) (n : Z) :
  extract_specific_count ql = Returns (Some n) -> 0 <= n.
Proof.
  unfold extract_specific_count. apply scan_number_matches_nonneg.
  intros c [=].
Qed.

Lemma count_or_positive (c : option Z) (default : Z) :
  (forall n, c = Some n -> 0 <= n) -> 1 <= default ->
  1 <= count_or c default.
Proof.
  intros Hc Hd. unfold count_or. destruct c as [n|]; [|assumption].
  destruct (n =? 0) eqn:E; [assumption|].
  apply Z.eqb_neq in E. specialize (Hc n eq_refl). lia.
Qed.

(** X3. A pie or bar chart is always drawn with a count of at least one:
    the count the question names, or 15 when it names none or names zero. *)
Theorem chart_count_at_least_one (q : string) (n : Z) :
  answer_question q = PieChart n \/ answer_question q = BarChart n ->
  exists count,
    extract_specific_count (strip (lower q)) = Returns count
    /\ n = count_or count 15 /\ 1 <= n.
Proof.
  intros Hchart.
  assert (His : is_chart (answer_question q) = true)
    by (destruct Hchart as [-> | ->]; reflexivity).
  destruct (chart_is_smart_visualization q His) as (a & Ha & Hvis).
  apply analysis_returns in Ha as (count & Hcount & ->).
  exists count. split; [assumption|].
  assert (Hn : n = count_or count 15).
  { rewrite Hvis in Hchart. unfold create_smart_visualization in Hchart.
    cbn [specific_count chart focus] in Hchart.
    destruct Hchart as [Hc | Hc];
      repeat match type of Hc with
             | context [match ?x with _ => _ end] => destruct x
             end; congruence. }
  split; [exact Hn|]. rewrite Hn.
  apply count_or_positive; [|lia].
  intros c ->. apply (specific_count_nonneg _ _ Hcount).
Qed.

Lemma chart_count_at_least_one_witness :
  answer_question "show top 3 defects" = BarChart 3
  /\ answer_question "show top 0 defects" = BarChart 15
  /\ exists count,
       extract_specific_count (strip (lower "show top 3 defects"))
       = Returns count
       /\ 3 = count_or count 15 /\ 1 <= 3.
Proof.
  split; [reflexivity|]. split; [reflexivity|].
  exact (chart_count_at_least_one "show top 3 defects" 3
           (or_intror eq_refl)).
Defined.

(** *** The pie chart *)

Lemma distribution_is_not_auto (ql : string) :
  contains "distribution" ql = true -> determine_chart_type ql <> ChartAuto.
Proof.
  intros Hd Hauto. apply chart_scores_all_zero in Hauto as (Hp & _).
  rewrite (final_pie_with_distribution ql Hd) in Hp.
  pose proof (raw_score_nonneg Pie ql). lia.
Qed.

(** X4. A pie chart is drawn only when the scoring itself selects pie.
    The secondary rule for an automatic chart type, pie for a defect
    question that mentions "distribution", never applies: with that word in
    the question the chart type is not automatic. *)
Theorem pie_chart_only_by_score (q : string) (n : Z) :
  answer_question q = PieChart n ->
  determine_chart_type (strip (lower q)) = Pie.
Proof.
  intros Hpie.
  assert (His : is_chart (answer_question q) = true)
    by (rewrite Hpie; reflexivity).
  destruct (chart_is_smart_visualization q His) as (a & Ha & Hvis).
  apply analysis_returns in Ha as (count & _ & ->).
  rewrite Hvis in Hpie.
  unfold create_smart_visualization in Hpie.
  cbn [chart focus specific_count] in Hpie.
  destruct (determine_chart_type (strip (lower q))) eqn:Echart;
    try reflexivity; try discriminate.
  destruct (determine_data_focus (strip (lower q))); try discriminate.
  destruct (contains "distribution" (lower q)) eqn:Ed; [|discriminate].
  rewrite <- (contains_strip_word "distribution" (lower q) eq_refl eq_refl)
    in Ed.
  destruct (distribution_is_not_auto _ Ed Echart).
Qed.

Lemma pie_chart_only_by_score_witness :
  answer_question "show the distribution" = PieChart 15
  /\ determine_chart_type (strip (lower "show the distribution")) = Pie.
Proof.
  split; [reflexivity|].
  exact (pie_chart_only_by_score "show the distribution" 15 eq_refl).
Defined.

End ChartRouting.

(** ** The rejection-reason ranking *)

Section RejectionRanking.
Import PyStr Enhanced.

(** *** The dict of totals *)

Lemma dict_set_In (d : list (string * Z)) (k : string) (v : Z) (e : string * Z) :
  In e (dict_set d k v) -> In e d \/ e = (k, v).
Proof.
  induction d as [|[k' v'] d IH]; cbn [dict_set].
  - intros [<- | []]. right. reflexivity.
  - destruct (String.eqb k' k) eqn:E.
    + apply String.eqb_eq in E. subst k'.
      intros [<- | Hin]; [right; reflexivity | left; right; assumption].
    + intros [<- | Hin]; [left; left; reflexivity|].
      destruct (IH Hin) as [Hd | ->]; [left; right; assumption | right; reflexivity].
Qed.

Lemma dict_set_keeps (d : list (string * Z)) (k : string) (v : Z)
      (e : string * Z) :
  In e d -> e = (k, v) \/ fst e <> k -> In e (dict_set d k v).
Proof.
  induction d as [|[k' v'] d IH]; cbn [dict_set]; [intros []|].
  intros [<- | Hin] Hother.
  - destruct (String.eqb k' k) eqn:E; [|left; reflexivity].
    apply String.eqb_eq in E. subst k'.
    destruct Hother as [[= ->] | Hne]; [left; reflexivity|].
    destruct Hne. reflexivity.
  - destruct (String.eqb k' k); right; [assumption | apply IH; assumption].
Qed.

Lemma dict_set_has (d : list (string * Z)) (k : string) (v : Z) :
  In (k, v) (dict_set d k v).
Proof.
  induction d as [|[k' v'] d IH]; cbn [dict_set]; [left; reflexivity|].
  destruct (String.eqb k' k) eqn:E.
  - apply String.eqb_eq in E. subst. left. reflexivity.
  - right. assumption.
Qed.

Lemma dict_set_keys (d : list (string * Z)) (k : string) (v : Z) :
  map fst (dict_set d k v)
  = if existsb (String.eqb k) (map fst d) then map fst d
    else (map fst d ++ [k])%list.
Proof.
  induction d as [|[k' v'] d IH]; cbn [dict_set map existsb fst];
    [reflexivity|].
  rewrite (String.eqb_sym k k').
  destruct (String.eqb k' k); cbn [orb map fst]; [reflexivity|].
  rewrite IH. destruct (existsb (String.eqb k) (map fst d)); reflexivity.
Qed.

Lemma dict_set_NoDup (d : list (string * Z)) (k : string) (v : Z) :
  NoDup (map fst d) -> NoDup (map fst (dict_set d k v)).
Proof.
  intros Hnd. rewrite dict_set_keys.
  destruct (existsb (String.eqb k) (map fst d)) eqn:E; [assumption|].
  apply NoDup_app; [assumption | repeat constructor; auto |].
  intros x Hx [Hk | []]. subst x.
  assert (existsb (String.eqb k) (map fst d) = true); [|congruence].
  apply existsb_exists. exists k. split; [assumption | apply String.eqb_refl].
Qed.

Lemma defect_totals_fold (self : analyzer) :
  defect_totals self = fold_left (add_total self) (defect_columns self) [].
Proof. reflexivity. Qed.

Lemma add_total_In (self : analyzer) (totals : list (string * Z))
      (col : string) (e : string * Z) :
  In e (add_total self totals col) ->
  In e totals
  \/ (fst e = col /\ 0 < snd e /\ column_total self col (snd e)).
Proof.
  unfold add_total, column_total.
  destruct (column (df self) col) as [values|] eqn:Ecol; [|auto].
  cbv zeta. destruct (0 <? sum values) eqn:Epos; [|auto].
  apply Z.ltb_lt in Epos. intros Hin.
  destruct (dict_set_In _ _ _ _ Hin) as [Hold | ->]; [auto|].
  right. cbn [fst snd]. eauto.
Qed.

Lemma totals_sound (self : analyzer) (cols : list string) :
  forall totals e,
    In e (fold_left (add_total self) cols totals) ->
    In e totals
    \/ (In (fst e) cols /\ 0 < snd e /\ column_total self (fst e) (snd e)).
Proof.
  induction cols as [|col cols IH]; intros totals e; cbn [fold_left];
    [auto|].
  intros Hin. destruct (IH _ _ Hin) as [Hstep | (Hc & Hpos & Htot)].
  - destruct (add_total_In _ _ _ _ Hstep) as [Hold | (<- & Hpos & Htot)];
      [auto|].
    right. split; [left; reflexivity | auto].
  - right. split; [right; assumption | auto].
Qed.

Lemma totals_NoDup (self : analyzer) (cols : list string) :
  forall totals, NoDup (map fst totals) ->
                 NoDup (map fst (fold_left (add_total self) cols totals)).
Proof.
  induction cols as [|col cols IH]; intros totals Hnd; cbn [fold_left];
    [assumption|].
  apply IH. unfold add_total.
  destruct (column (df self) col); [|assumption]. cbv zeta.
  destruct (0 <? sum l); [apply dict_set_NoDup|]; assumption.
Qed.

(** an entry that carries the total of its column survives the loop *)
Lemma totals_keep (self : analyzer) (cols : list string) :
  forall totals e,
    In e totals -> column_total self (fst e) (snd e) ->
    In e (fold_left (add_total self) cols totals).
Proof.
  induction cols as [|col cols IH]; intros totals [k v] Hin Htot;
    cbn [fold_left]; [assumption|].
  apply IH; [|assumption]. unfold add_total.
  destruct (column (df self) col) as [values|] eqn:Ecol; [|assumption].
  cbv zeta. destruct (0 <? sum values); [|assumption].
  apply dict_set_keeps; [assumption|].
  destruct (String.eqb k col) eqn:E.
  - apply String.eqb_eq in E. subst col. left.
    destruct Htot as (values' & Hcol & Hsum). cbn [fst snd] in *.
    congruence.
  - right. apply String.eqb_neq in E. assumption.
Qed.

Lemma totals_complete (self : analyzer) (cols : list string) :
  forall totals col v,
    In col cols -> column_total self col v -> 0 < v ->
    In (col, v) (fold_left (add_total self) cols totals).
Proof.
  induction cols as [|c cols IH]; intros totals col v Hin Htot Hpos;
    [destruct Hin|].
  cbn [fold_left]. destruct Hin as [-> | Hin]; [|apply IH; assumption].
  apply totals_keep; [|assumption].
  unfold add_total. destruct Htot as (values & -> & <-). cbv zeta.
  replace (0 <? sum values) with true by (symmetry; apply Z.ltb_lt; lia).
  apply dict_set_has.
Qed.

(** *** The sort *)

Lemma insert_desc_perm (x : string * Z) (l : list (string * Z)) :
  Permutation (insert_desc x l) (x :: l).
Proof.
  induction l as [|y ys IH]; cbn [insert_desc]; [reflexivity|].
  destruct (snd x <? snd y); [|reflexivity].
  rewrite IH. apply perm_swap.
Qed.

Lemma sorted_desc_perm (l : list (string * Z)) :
  Permutation (sorted_desc l) l.
Proof.
  unfold sorted_desc. induction l as [|x l IH]; cbn [fold_right];
    [reflexivity|].
  rewrite insert_desc_perm. apply perm_skip. assumption.
Qed.

Lemma insert_desc_ranked (x : string * Z) (l : list (string * Z)) :
  StronglySorted ranked l -> StronglySorted ranked (insert_desc x l).
Proof.
  induction l as [|y ys IH]; intros Hs; cbn [insert_desc].
  - repeat constructor.
  - inversion Hs as [|? ? Hys Hall]; subst.
    destruct (snd x <? snd y) eqn:E.
    + apply Z.ltb_lt in E. constructor; [apply IH; assumption|].
      apply Forall_forall. intros z Hz.
      apply (Permutation_in _ (insert_desc_perm x ys)) in Hz.
      destruct Hz as [<- | Hz]; [unfold ranked; lia|].
      rewrite Forall_forall in Hall. apply Hall. assumption.
    + apply Z.ltb_ge in E. constructor; [assumption|].
      constructor; [unfold ranked; lia|].
      apply Forall_forall. intros z Hz. rewrite Forall_forall in Hall.
      specialize (Hall z Hz). unfold ranked in *. lia.
Qed.

Lemma sorted_desc_ranked (l : list (string * Z)) :
  StronglySorted ranked (sorted_desc l).
Proof.
  unfold sorted_desc. induction l as [|x l IH]; cbn [fold_right].
  - constructor.
  - apply insert_desc_ranked. assumption.
Qed.

(** Entries of equal total keep the order they had: the sort is stable. *)
Lemma insert_desc_stable (v : Z) (x : string * Z) (l : list (string * Z)) :
  StronglySorted ranked l ->
  filter (fun e => snd e =? v) (insert_desc x l)
  = filter (fun e => snd e =? v) (x :: l).
Proof.
  induction l as [|y ys IH]; intros Hs; cbn [insert_desc]; [reflexivity|].
  inversion Hs as [|? ? Hys Hall]; subst.
  destruct (snd x <? snd y) eqn:E; [|reflexivity].
  apply Z.ltb_lt in E. cbn [filter]. rewrite (IH Hys). cbn [filter].
  destruct (snd y =? v) eqn:Ey; [|reflexivity].
  destruct (snd x =? v) eqn:Ex; [|reflexivity].
  apply Z.eqb_eq in Ey, Ex. lia.
Qed.

Lemma firstn_In {A} (n : nat) (l : list A) (x : A) :
  In x (firstn n l) -> In x l.
Proof.
  intros Hin. rewrite <- (firstn_skipn n l). apply in_or_app. left.
  assumption.
Qed.

Lemma firstn_ranked (n : nat) (l : list (string * Z)) :
  StronglySorted ranked l -> StronglySorted ranked (firstn n l).
Proof.
  revert n. induction l as [|x l IH]; intros n Hs.
  - rewrite firstn_nil. constructor.
  - destruct n as [|n]; [constructor|]. cbn [firstn].
    inversion Hs as [|? ? Hl Hall]; subst.
    constructor; [apply IH; assumption|].
    apply Forall_forall. intros z Hz. rewrite Forall_forall in Hall.
    apply Hall. apply (firstn_In n). assumption.
Qed.

Lemma firstn_NoDup {A} (n : nat) (l : list A) :
  NoDup l -> NoDup (firstn n l).
Proof.
  intros Hnd. rewrite <- (firstn_skipn n l) in Hnd.
  apply NoDup_app_remove_r in Hnd. assumption.
Qed.

(** a slice from the start is a run of leading entries *)
Lemma slice_to_firstn {A} (count : option Z) (l : list A) :
  exists n, slice_to count l = firstn n l.
Proof.
  destruct count as [c|]; cbn [slice_to].
  - destruct (c <? 0); eauto.
  - exists (List.length l). symmetry. apply firstn_all.
Qed.

Lemma sum_from (l : list Z) :
  forall acc, fold_left Z.add l acc = acc + exact_sum l.
Proof.
  unfold exact_sum. induction l as [|x l IH]; intros acc; cbn [fold_left];
    [lia|].
  rewrite IH, (IH (0 + x)). lia.
Qed.

Lemma sum_cons (x : Z) (l : list Z) :
  exact_sum (x :: l) = x + exact_sum l.
Proof. unfold exact_sum at 1. cbn [fold_left]. rewrite sum_from. lia. Qed.

Lemma sum_bounds (l : list Z) :
  (forall x, In x l -> 0 < x) ->
  0 <= exact_sum l /\ forall x, In x l -> x <= exact_sum l.
Proof.
  induction l as [|y l IH]; intros Hpos.
  - split; [unfold exact_sum; cbn; lia | intros x []].
  - rewrite sum_cons.
    destruct IH as [Hnn Hle]; [intros x Hx; apply Hpos; right; assumption|].
    pose proof (Hpos y (or_introl eq_refl)).
    split; [lia|]. intros x [<- | Hx]; [lia|]. specialize (Hle x Hx). lia.
Qed.

(** within its range a sum is the exact one *)
Lemma sum_exact (l : list Z) :
  - 2 ^ 63 <= exact_sum l < 2 ^ 63 -> sum l = exact_sum l.
Proof.
  intros Hrange. unfold sum, int64. fold (exact_sum l).
  rewrite Z.mod_small; lia.
Qed.

(** *** What a ranking holds *)

Lemma ranking_inv (self : analyzer) (count : option Z)
      (rows : list (string * Z)) (total : Z) :
  get_top_rejection_reasons self count = RankedReasons rows total ->
  rows <> []
  /\ rows = slice_to count (sorted_desc (defect_totals self))
  /\ total = sum (map snd (defect_totals self)).
Proof.
  unfold get_top_rejection_reasons.
  destruct (defect_totals self) as [|e totals]; [discriminate|].
  destruct (slice_to count (sorted_desc (e :: totals))) as [|r rs];
    [discriminate|].
  intros [= <- <-]. repeat split. discriminate.
Qed.

Lemma ranking_rows_from_totals (self : analyzer) (count : option Z)
      (rows : list (string * Z)) (total : Z) (e : string * Z) :
  get_top_rejection_reasons self count = RankedReasons rows total ->
  In e rows -> In e (defect_totals self).
Proof.
  intros Hget Hin. destruct (ranking_inv _ _ _ _ Hget) as (_ & -> & _).
  destruct (slice_to_firstn count (sorted_desc (defect_totals self)))
    as (n & Hn).
  rewrite Hn in Hin. apply firstn_In in Hin.
  apply (Permutation_in _ (sorted_desc_perm _)). assumption.
Qed.

Lemma defect_totals_sound (self : analyzer) (e : string * Z) :
  In e (defect_totals self) ->
  In (fst e) (defect_columns self) /\ 0 < snd e
  /\ column_total self (fst e) (snd e).
Proof.
  rewrite defect_totals_fold. intros Hin.
  destruct (totals_sound _ _ _ _ Hin) as [[] | H]. exact H.
Qed.

Lemma defect_totals_NoDup (self : analyzer) :
  NoDup (map fst (defect_totals self)).
Proof. rewrite defect_totals_fold. apply totals_NoDup. constructor. Qed.

(** X5. Every row of a rejection-reason ranking is a defect column of the
    analyzer with the sum of that column, which is positive; no column is
    listed twice and no later row has a greater count. When the totals add
    up within [int64], the total the percentages divide by is positive and
    no row exceeds it. *)
Theorem ranking_is_sound (self : analyzer) (count : option Z)
        (rows : list (string * Z)) (total : Z) :
  get_top_rejection_reasons self count = RankedReasons rows total ->
  rows <> []
  /\ StronglySorted ranked rows
  /\ NoDup (map fst rows)
  /\ (forall k v, In (k, v) rows ->
                  In k (defect_columns self) /\ 0 < v
                  /\ column_total self k v)
  /\ (no_overflow self ->
      0 < total /\ forall k v, In (k, v) rows -> v <= total).
Proof.
  intros Hget. destruct (ranking_inv _ _ _ _ Hget) as (Hne & Hrows & Htotal).
  destruct (slice_to_firstn count (sorted_desc (defect_totals self)))
    as (n & Hn).
  assert (Hrow : forall k v, In (k, v) rows ->
             In (k, v) (defect_totals self)
             /\ In k (defect_columns self) /\ 0 < v
             /\ column_total self k v).
  { intros k v Hin.
    pose proof (ranking_rows_from_totals _ _ _ _ _ Hget Hin) as Htot.
    split; [assumption|].
    apply (defect_totals_sound self (k, v) Htot). }
  split; [assumption|].
  split; [rewrite Hrows, Hn; apply firstn_ranked, sorted_desc_ranked|].
  split; [|split].
  - rewrite Hrows, Hn, <- firstn_map. apply firstn_NoDup.
    apply (Permutation_NoDup
             (Permutation_map fst
                (Permutation_sym (sorted_desc_perm (defect_totals self))))).
    apply defect_totals_NoDup.
  - intros k v Hin. apply Hrow. assumption.
  - intros Hfit. unfold no_overflow in Hfit.
    destruct (sum_bounds (map snd (defect_totals self))) as [Hnn Hle].
    { intros x Hx. apply in_map_iff in Hx as (e & <- & He).
      apply (defect_totals_sound self e He). }
    rewrite sum_exact in Htotal by lia.
    assert (Hle' : forall k v, In (k, v) rows -> v <= total).
    { intros k v Hin. rewrite Htotal. apply Hle.
      apply in_map_iff. exists (k, v). split; [reflexivity|].
      apply (Hrow k v Hin). }
    split; [|exact Hle'].
    destruct rows as [|[k v] rows']; [congruence|].
    destruct (Hrow k v (or_introl eq_refl)) as (_ & _ & Hv & _).
    specialize (Hle' k v (or_introl eq_refl)). lia.
Qed.

(** Beyond [int64] the total wraps around: two totals of 2^62 add up to
    -2^63, a total below every row. *)
Example total_wraps_around :
  get_top_rejection_reasons (analyzer_of_table two_large_columns) None
  = RankedReasons [("Burr", 2 ^ 62); ("Damage", 2 ^ 62)] (- 2 ^ 63)
  /\ ~ no_overflow (analyzer_of_table two_large_columns).
Proof.
  split; [vm_compute; reflexivity|].
  unfold no_overflow. vm_compute. discriminate.
Qed.

Lemma ranking_is_sound_witness :
  get_top_rejection_reasons six_defects (Some 3)
  = RankedReasons [("Burr", 7); ("Toolmark", 7); ("Undersize", 7)] 29
  /\ no_overflow six_defects
  /\ 0 < 29
  /\ NoDup (map fst [("Burr", 7); ("Toolmark", 7); ("Undersize", 7)]).
Proof.
  assert (Hfit : no_overflow six_defects) by (vm_compute; reflexivity).
  split; [reflexivity|]. split; [exact Hfit|].
  destruct (ranking_is_sound six_defects (Some 3) _ _ eq_refl)
    as (_ & _ & Hnd & _ & Hpos).
  split; [exact (proj1 (Hpos Hfit)) | exact Hnd].
Defined.

(** X6. Asked for [n] reasons, the aggregation lists [n] of them, or all
    the defects that occurred when there are fewer; asked for none it lists
    none. *)
Theorem ranking_length (self : analyzer) (n : Z) :
  0 <= n ->
  listed (get_top_rejection_reasons self (Some n))
  = Nat.min (Z.to_nat n) (List.length (defect_totals self)).
Proof.
  intros Hn. unfold get_top_rejection_reasons.
  pose proof (sorted_desc_length (defect_totals self)) as Hlen.
  destruct (defect_totals self) as [|e totals] eqn:Et.
  - rewrite Nat.min_0_r. reflexivity.
  - rewrite <- Hlen, <- length_firstn.
    cbn [slice_to]. destruct (n <? 0) eqn:E; [apply Z.ltb_lt in E; lia|].
    destruct (firstn (Z.to_nat n) (sorted_desc (e :: totals)));
      reflexivity.
Qed.

Lemma ranking_length_witness :
  0 <= 5
  /\ listed (get_top_rejection_reasons six_defects (Some 5)) = 5%nat
  /\ listed (get_top_rejection_reasons six_defects (Some 20)) = 6%nat
  /\ listed (get_top_rejection_reasons six_defects (Some 0)) = 0%nat.
Proof.
  split; [lia|]. split; [|split; reflexivity].
  exact (ranking_length six_defects 5 ltac:(lia)).
Defined.

Lemma sorted_desc_stable (v : Z) (l : list (string * Z)) :
  filter (fun e => snd e =? v) (sorted_desc l)
  = filter (fun e => snd e =? v) l.
Proof.
  induction l as [|x l IH]; [reflexivity|].
  change (sorted_desc (x :: l)) with (insert_desc x (sorted_desc l)).
  rewrite insert_desc_stable by apply sorted_desc_ranked.
  cbn [filter]. rewrite IH. reflexivity.
Qed.

(** X7. The ranking orders the defects by total, greatest first, and lists
    defects of equal total in the order of their columns: the sorted list
    is a rearrangement of the totals in which the entries of any one total
    keep their order. *)
Theorem ranking_order_is_stable (self : analyzer) :
  Permutation (sorted_desc (defect_totals self)) (defect_totals self)
  /\ StronglySorted ranked (sorted_desc (defect_totals self))
  /\ (forall v,
         filter (fun e => snd e =? v) (sorted_desc (defect_totals self))
         = filter (fun e => snd e =? v) (defect_totals self))
  /\ (forall count rows total,
         get_top_rejection_reasons self count = RankedReasons rows total ->
         exists n, rows = firstn n (sorted_desc (defect_totals self))).
Proof.
  split; [apply sorted_desc_perm|]. split; [apply sorted_desc_ranked|].
  split; [intros v; apply sorted_desc_stable|].
  intros count rows total Hget.
  destruct (ranking_inv _ _ _ _ Hget) as (_ & -> & _).
  apply slice_to_firstn.
Qed.

(** X8. The aggregation answers that no defect data was found exactly when
    no defect column of the analyzer is present in the data frame with a
    positive sum, whatever the count asked for. *)
Theorem no_defect_data_iff (self : analyzer) (count : option Z) :
  get_top_rejection_reasons self count = NoDefectData
  <-> forall col v, In col (defect_columns self) ->
                    column_total self col v -> v <= 0.
Proof.
  assert (Hempty : get_top_rejection_reasons self count = NoDefectData
                   <-> defect_totals self = []).
  { unfold get_top_rejection_reasons.
    destruct (defect_totals self) as [|e totals];
      [split; reflexivity|].
    destruct (slice_to count (sorted_desc (e :: totals)));
      split; discriminate. }
  rewrite Hempty. split.
  - intros Hnil col v Hcol Htot.
    destruct (Z_le_gt_dec v 0) as [|Hpos]; [assumption|].
    pose proof (totals_complete self (defect_columns self) [] col v Hcol Htot
                  ltac:(lia)) as Hin.
    rewrite <- defect_totals_fold, Hnil in Hin. destruct Hin.
  - intros Hnone. destruct (defect_totals self) as [|e totals] eqn:Et;
      [reflexivity|].
    destruct (defect_totals_sound self e) as (Hcol & Hpos & Htot);
      [rewrite Et; left; reflexivity|].
    specialize (Hnone _ _ Hcol Htot). lia.
Qed.

End RejectionRanking.

(** ** Column discovery and the process insights *)

Section Columns.
Import PyStr Enhanced.

Lemma filter_filter {A} (f g : A -> bool) (l : list A) :
  filter g (filter f l) = filter (fun x => (f x && g x)%bool) l.
Proof.
  induction l as [|x l IH]; cbn [filter]; [reflexivity|].
  destruct (f x); cbn [filter andb]; [destruct (g x)|]; rewrite IH;
    reflexivity.
Qed.

Lemma identify_columns_filter (columns : list string) :
  identify_columns columns
  = filter (fun col =>
              (negb (existsb (String.eqb col) basic_cols)
               && negb (String.prefix "Unnamed" col)
               && negb (blank col))%bool) columns.
Proof. unfold identify_columns. apply filter_filter. Qed.

Lemma identify_columns_In (columns : list string) (col : string) :
  In col (identify_columns columns)
  <-> In col columns
      /\ ~ In col ["Date"; "Inspected Qty."; "Part Name"; "Total Rej Qty."]
      /\ String.prefix "Unnamed" col = false
      /\ blank col = false.
Proof.
  rewrite identify_columns_filter, filter_In.
  rewrite !andb_true_iff, !negb_true_iff.
  assert (Hbasic : existsb (String.eqb col) basic_cols = false
                   /\ String.prefix "Unnamed" col = false
                   <-> ~ In col ["Date"; "Inspected Qty."; "Part Name";
                                 "Total Rej Qty."]
                       /\ String.prefix "Unnamed" col = false).
  { split; intros [Hb Hu]; (split; [|assumption]).
    - intros Hin.
      assert (existsb (String.eqb col) basic_cols = true); [|congruence].
      apply existsb_exists. exists col.
      split; [right; assumption | apply String.eqb_refl].
    - destruct (existsb (String.eqb col) basic_cols) eqn:E; [|reflexivity].
      apply existsb_exists in E as (c & Hc & Heq).
      apply String.eqb_eq in Heq. subst c.
      destruct Hc as [<- | Hc]; [discriminate | contradiction]. }
  tauto.
Qed.

(** X9. Which headers of a loaded table a rejection-reason ranking can
    list: a row of a ranking is a header of the table that is none of the
    basic columns, does not begin with "Unnamed", is not made of white
    space alone and whose column has the positive sum the row shows; asked
    without a limit, the aggregation lists every such header. *)
Theorem ranked_headers_of_table (table : list (string * list Z))
        (col : string) (v : Z) :
  let self := analyzer_of_table table in
  let is_defect :=
    In col (map fst table)
    /\ ~ In col ["Date"; "Inspected Qty."; "Part Name"; "Total Rej Qty."]
    /\ String.prefix "Unnamed" col = false
    /\ blank col = false
    /\ column_total self col v /\ 0 < v in
  (forall count rows total,
      get_top_rejection_reasons self count = RankedReasons rows total ->
      In (col, v) rows -> is_defect)
  /\ (forall rows total,
         get_top_rejection_reasons self None = RankedReasons rows total ->
         is_defect -> In (col, v) rows).
Proof.
  cbv zeta. split.
  - intros count rows total Hget Hin.
    pose proof (ranking_rows_from_totals _ _ _ _ _ Hget Hin) as Htot.
    destruct (defect_totals_sound _ _ Htot) as (Hcol & Hpos & Hsum).
    cbn [fst snd defect_columns analyzer_of_table] in Hcol, Hpos, Hsum.
    apply identify_columns_In in Hcol. tauto.
  - intros rows total Hget (Hin & Hbasic & Hun & Hblank & Hsum & Hpos).
    destruct (ranking_inv _ _ _ _ Hget) as (_ & -> & _).
    rewrite slice_to_none.
    apply (Permutation_in _ (Permutation_sym (sorted_desc_perm _))).
    rewrite defect_totals_fold. apply totals_complete; try assumption.
    cbn [defect_columns analyzer_of_table].
    apply identify_columns_In. tauto.
Qed.

Lemma ranked_headers_of_table_witness :
  get_top_rejection_reasons (analyzer_of_table blank_headers) None
  = RankedReasons [("Burr", 2)] 2
  /\ blank no_break_space = true
  /\ In ("Burr", 2) [("Burr", 2)].
Proof.
  split; [reflexivity|]. split; [reflexivity|].
  apply (proj2 (ranked_headers_of_table blank_headers "Burr" 2)
               [("Burr", 2)] 2 eq_refl).
  split; [right; left; reflexivity|].
  split; [intros [H | [H | [H | [H | []]]]]; discriminate|].
  split; [reflexivity|]. split; [reflexivity|].
  split; [exists [2]; split; reflexivity | lia].
Defined.

(** *** The process insights *)

Lemma one_char_holds_no_word (w : string) (c : ascii) :
  (2 <= String.length w)%nat -> contains w (String c EmptyString) = false.
Proof.
  intros Hlen. destruct (contains w (String c EmptyString)) eqn:E;
    [|reflexivity].
  apply contains_length in E. cbn in E. lia.
Qed.

Lemma insight_category_empty (words : list string)
      (sorted_defects : list (string * Z)) :
  forallb (fun w => Nat.leb 2 (String.length w)) words = true ->
  (forall d v, In (d, v) sorted_defects -> d <> EmptyString) ->
  insight_category words sorted_defects = Some [].
Proof.
  intros Hwords. induction sorted_defects as [|[d v] rest IH]; intros Hnames;
    cbn [insight_category]; [reflexivity|].
  rewrite IH by (intros d' v' Hin; apply (Hnames d' v'); right; assumption).
  destruct d as [|a d']; [destruct (Hnames _ _ (or_introl eq_refl)); reflexivity|].
  cbn [first_char_lower].
  replace (any_in words (String (lower_ascii a) EmptyString)) with false;
    [reflexivity|].
  symmetry. unfold any_in.
  destruct (existsb _ words) eqn:E; [|reflexivity].
  apply existsb_exists in E as (w & Hw & Hc).
  rewrite forallb_forall in Hwords. specialize (Hwords w Hw).
  apply Nat.leb_le in Hwords.
  rewrite one_char_holds_no_word in Hc by assumption. discriminate.
Qed.

(** X10. For an analyzer built from a table, the four defect categories of
    the process insights (sizing, surface, machining, position) are empty
    for every ranking: each keyword is compared with the first character of
    the column name alone, which it cannot be part of. Taking that first
    character never fails, the discovered column names being non-blank. *)
Theorem process_insights_are_empty (table : list (string * list Z))
        (count : option Z) (rows : list (string * Z)) (total : Z) :
  get_top_rejection_reasons (analyzer_of_table table) count
  = RankedReasons rows total ->
  insight_category sizing_words rows = Some []
  /\ insight_category surface_words rows = Some []
  /\ insight_category machining_words rows = Some []
  /\ insight_category position_words rows = Some [].
Proof.
  intros Hget.
  assert (Hnames : forall d v, In (d, v) rows -> d <> EmptyString).
  { intros d v Hin.
    pose proof (ranking_rows_from_totals _ _ _ _ _ Hget Hin) as Htot.
    destruct (defect_totals_sound _ _ Htot) as (Hcol & _).
    cbn [fst defect_columns analyzer_of_table] in Hcol.
    rewrite identify_columns_filter in Hcol.
    apply filter_In in Hcol as [_ Hkeep].
    apply andb_true_iff in Hkeep as [_ Hstrip].
    intros ->. discriminate. }
  repeat split; apply insight_category_empty; try reflexivity; assumption.
Qed.

Lemma process_insights_are_empty_witness :
  get_top_rejection_reasons
    (analyzer_of_table [("Date", []); ("Oversize", [4]); ("Burr", [2])]) None
  = RankedReasons [("Oversize", 4); ("Burr", 2)] 6
  /\ insight_category sizing_words [("Oversize", 4); ("Burr", 2)] = Some [].
Proof.
  split; [reflexivity|].
  exact (proj1 (process_insights_are_empty
                  [("Date", []); ("Oversize", [4]); ("Burr", [2])] None
                  _ _ eq_refl)).
Defined.

End Columns.

(** ** The memory of the intelligent analyzer across turns *)

Section MemoryAcrossTurns.
Import PyStr Regex Intelligent.

Lemma contextual_memory (H : handlers) (m : conversation_memory) (q : string) :
  snd (handle_contextual_questions H m q)
  = match resolve_part m q with
    | Some p => remember_part p m
    | None => m
    end.
Proof.
  unfold handle_contextual_questions.
  destruct (resolve_part m q) as [p|]; [|reflexivity].
  repeat match goal with
         | |- context [if ?b then _ else _] => destruct b
         end; reflexivity.
Qed.

(** The keyword chain is the choice of a branch, the call of its handler
    and, on three of the branches, the assignment of [last_answer]. *)
Lemma route_by_branch (H : handlers) (m : conversation_memory) (q : string) :
  route H m q
  = (branch_handler H (route_branch q) q,
     if stores_answer (route_branch q)
     then set_last_answer (branch_handler H (route_branch q) q) m
     else m).
Proof.
  unfold route, route_branch.
  repeat match goal with
         | |- context [if ?b then _ else _] =>
             lazymatch b with
             | stores_answer _ => fail
             | _ => destruct b
             end
         end; reflexivity.
Qed.

Lemma turn_memory (H : handlers) (m : conversation_memory) (q : string) :
  let m1 := set_last_question q m in
  let m2 := snd (handle_contextual_questions H m1 q) in
  answer_question H m q
  = if answered_in_context H m q
    then
      match fst (handle_contextual_questions H m1 q) with
      | Some response => (response, set_last_answer response m2)
      | None => route H m2 q
      end
    else route H m2 q.
Proof.
  cbv zeta. unfold answer_question, answered_in_context.
  destruct (handle_contextual_questions H (set_last_question q m) q)
    as [[response|] m2]; cbn [fst snd]; [|reflexivity].
  destruct (truthy response); reflexivity.
Qed.

(** X11. Every turn records its question: after the turn [last_question]
    is the question just asked, whichever handler answered. The lists
    [mentioned_dates] and [mentioned_defects] are never written. *)
Theorem every_turn_records_the_question (H : handlers)
        (m : conversation_memory) (q : string) :
  last_question (snd (answer_question H m q)) = q
  /\ mentioned_dates (snd (answer_question H m q)) = mentioned_dates m
  /\ mentioned_defects (snd (answer_question H m q)) = mentioned_defects m.
Proof.
  rewrite (turn_memory H m q). cbv zeta.
  rewrite (contextual_memory H (set_last_question q m) q).
  set (m2 := match resolve_part (set_last_question q m) q with
             | Some p => remember_part p (set_last_question q m)
             | None => set_last_question q m
             end).
  assert (Hm2 : last_question m2 = q
                /\ mentioned_dates m2 = mentioned_dates m
                /\ mentioned_defects m2 = mentioned_defects m).
  { subst m2. destruct (resolve_part (set_last_question q m) q);
      repeat split. }
  assert (Hroute : last_question (snd (route H m2 q)) = q
                   /\ mentioned_dates (snd (route H m2 q)) = mentioned_dates m
                   /\ mentioned_defects (snd (route H m2 q))
                      = mentioned_defects m).
  { rewrite route_by_branch. cbn [snd].
    destruct (stores_answer (route_branch q)); exact Hm2. }
  destruct (answered_in_context H m q); [|exact Hroute].
  destruct (fst (handle_contextual_questions H (set_last_question q m) q));
    [exact Hm2 | exact Hroute].
Qed.

(** X12. Which turns record their answer: when the contextual handler
    answers, or the keyword chain ends on the machine, part or general
    branch, [last_answer] becomes the answer given; on every other branch
    (date, defect, quantity, ratio, analysis) it keeps the value it had. *)
Theorem answer_recorded_on_some_branches (H : handlers)
        (m : conversation_memory) (q : string) :
  let turn := answer_question H m q in
  ((answered_in_context H m q || stores_answer (route_branch q))%bool = true ->
   last_answer (snd turn) = fst turn)
  /\ ((answered_in_context H m q || stores_answer (route_branch q))%bool
      = false ->
      last_answer (snd turn) = last_answer m
      /\ fst turn = branch_handler H (route_branch q) q).
Proof.
  cbv zeta. rewrite (turn_memory H m q). cbv zeta.
  pose proof (contextual_memory H (set_last_question q m) q) as Hmem.
  set (m2 := snd (handle_contextual_questions H (set_last_question q m) q))
    in *.
  assert (Hlast : last_answer m2 = last_answer m).
  { rewrite Hmem. destruct (resolve_part (set_last_question q m) q);
      reflexivity. }
  unfold answered_in_context.
  destruct (fst (handle_contextual_questions H (set_last_question q m) q))
    as [response|] eqn:Econtext.
  - destruct (truthy response); cbn [orb].
    + split; [reflexivity | discriminate].
    + rewrite route_by_branch. cbn [fst snd].
      destruct (stores_answer (route_branch q)); split;
        try discriminate; try reflexivity.
      intros _. split; [exact Hlast | reflexivity].
  - cbn [orb]. rewrite route_by_branch. cbn [fst snd].
    destruct (stores_answer (route_branch q)); split;
      try discriminate; try reflexivity.
    intros _. split; [exact Hlast | reflexivity].
Qed.

Lemma answer_recorded_on_some_branches_witness :
  (answered_in_context sample_handlers fresh_memory "what is the trend"
   || stores_answer (route_branch "what is the trend"))%bool = false
  /\ route_branch "what is the trend" = AnalysisBranch
  /\ last_answer (snd (answer_question sample_handlers fresh_memory
                                       "what is the trend")) = EmptyString
  /\ (answered_in_context sample_handlers fresh_memory "machine 7"
      || stores_answer (route_branch "machine 7"))%bool = true
  /\ last_answer (snd (answer_question sample_handlers fresh_memory
                                       "machine 7"))
     = fst (answer_question sample_handlers fresh_memory "machine 7").
Proof.
  split; [reflexivity|]. split; [reflexivity|]. split.
  - exact (proj1 (proj2 (answer_recorded_on_some_branches sample_handlers
                           fresh_memory "what is the trend") eq_refl)).
  - split; [reflexivity|].
    exact (proj1 (answer_recorded_on_some_branches sample_handlers
                    fresh_memory "machine 7") eq_refl).
Defined.

(** *** The current part *)

Lemma turn_parts (H : handlers) (m : conversation_memory) (q : string) :
  (current_part (snd (answer_question H m q)),
   mentioned_parts (snd (answer_question H m q)))
  = match resolve_part (set_last_question q m) q with
    | Some p => (Some p, append_once p (mentioned_parts m))
    | None => (current_part m, mentioned_parts m)
    end.
Proof.
  rewrite (turn_memory H m q). cbv zeta.
  rewrite (contextual_memory H (set_last_question q m) q).
  set (m2 := match resolve_part (set_last_question q m) q with
             | Some p => remember_part p (set_last_question q m)
             | None => set_last_question q m
             end).
  assert (Hm2 : (current_part m2, mentioned_parts m2)
                = match resolve_part (set_last_question q m) q with
                  | Some p => (Some p, append_once p (mentioned_parts m))
                  | None => (current_part m, mentioned_parts m)
                  end).
  { subst m2. destruct (resolve_part (set_last_question q m) q);
      reflexivity. }
  assert (Hroute : (current_part (snd (route H m2 q)),
                    mentioned_parts (snd (route H m2 q)))
                   = (current_part m2, mentioned_parts m2)).
  { rewrite route_by_branch. cbn [snd].
    destruct (stores_answer (route_branch q)); reflexivity. }
  destruct (answered_in_context H m q); [|rewrite Hroute; exact Hm2].
  destruct (fst (handle_contextual_questions H (set_last_question q m) q));
    [exact Hm2 | rewrite Hroute; exact Hm2].
Qed.

Lemma turn_keeps_current_part_mentioned (H : handlers)
      (m : conversation_memory) (q : string) :
  current_part_mentioned m ->
  current_part_mentioned (snd (answer_question H m q)).
Proof.
  unfold current_part_mentioned. intros Hok.
  pose proof (turn_parts H m q) as Hparts.
  destruct (resolve_part (set_last_question q m) q) as [p|];
    injection Hparts as -> ->; [apply append_once_In | exact Hok].
Qed.

(** X13. In every session the current part is one of the mentioned parts,
    and once a part is current some part stays current: a turn either
    resolves a new part, which becomes current and is mentioned, or leaves
    both as they were. *)
Theorem current_part_is_mentioned (H : handlers) (qs : list string) :
  current_part_mentioned (snd (converse H fresh_memory qs))
  /\ forall m q,
       (current_part m <> None ->
        current_part (snd (answer_question H m q)) <> None)
       /\ (current_part (snd (answer_question H m q)) = current_part m
           \/ exists p,
                resolve_part (set_last_question q m) q = Some p
                /\ current_part (snd (answer_question H m q)) = Some p
                /\ In p (mentioned_parts (snd (answer_question H m q)))).
Proof.
  split.
  - assert (Hall : forall m, current_part_mentioned m ->
                             current_part_mentioned (snd (converse H m qs))).
    { induction qs as [|q qs IH]; intros m Hok; cbn [converse];
        [assumption|].
      pose proof (turn_keeps_current_part_mentioned H m q Hok) as Hstep.
      destruct (answer_question H m q) as [a m'].
      specialize (IH m' Hstep).
      destruct (converse H m' qs) as [answers m'']. exact IH. }
    apply Hall. exact I.
  - intros m q. pose proof (turn_parts H m q) as Hparts.
    destruct (resolve_part (set_last_question q m) q) as [p|];
      injection Hparts as Hc Hm.
    + split; [rewrite Hc; discriminate|]. right. exists p.
      rewrite Hc, Hm. repeat split. apply append_once_In.
    + split; [rewrite Hc; auto | left; assumption].
Qed.

End MemoryAcrossTurns.

(** ** The keyword chain *)

Section KeywordChain.
Import PyStr Regex Intelligent.

Local Ltac split_atoms s :=
  repeat (match goal with
          | |- context [contains ?w s] => destruct (contains w s)
          | |- context [any_in ?ws s] => destruct (any_in ws s)
          end; cbn [andb orb negb]).

(** X14. The second date test of the keyword chain (a date word together
    with "highest" or "lowest") is never the one that answers: such a
    question is taken by the first date test when it has no "part" in it
    and by the part test when it has. The date, defect and quantity
    handlers reached by the first tests never get a question with "part"
    in it. *)
Theorem date_superlative_branch_is_dead (H : handlers)
        (m : conversation_memory) (q : string) :
  fst (route H m q) = branch_handler H (route_branch q) q
  /\ route_branch q <> DateSuperlativeBranch
  /\ (route_branch q = DateBranch \/ route_branch q = DefectBranch
      \/ route_branch q = QuantityBranch ->
      contains "part" (lower q) = false).
Proof.
  split; [rewrite route_by_branch; reflexivity|].
  unfold route_branch. set (s := lower q).
  pose proof (any_in_incl ["date"; "day"]
                ["date"; "day"; "month"; "year"; "when"] s
                (incl_check ["date"; "day"]
                            ["date"; "day"; "month"; "year"; "when"]
                            eq_refl)) as Hdate.
  assert (Hsup : any_in ["highest"; "lowest"] s
                 = (contains "highest" s || contains "lowest" s)%bool)
    by (unfold any_in; cbn [existsb]; rewrite orb_false_r; reflexivity).
  rewrite Hsup. clear Hsup.
  destruct (any_in ["date"; "day"] s);
    [rewrite (Hdate eq_refl)|]; clear Hdate; cbn [andb orb negb];
    destruct (contains "machine" s); cbn [andb orb negb];
    destruct (contains "part" s); cbn [andb orb negb];
    destruct (contains "highest" s); cbn [andb orb negb];
    destruct (contains "lowest" s); cbn [andb orb negb];
    split_atoms s;
    (split; [discriminate | intros [Hb | [Hb | Hb]]; congruence]).
Qed.

End KeywordChain.

(** ** Chart requests of the intelligent analyzer *)

Section ChartRequests.
Import PyStr Regex Intelligent.

Lemma search_fails_lower (r : regex) (s : string) :
  fails_lower r -> search r (lower s) = None.
Proof.
  intros Hr.
  assert (Hsearch : forall t, no_upper t = true -> search r t = None).
  { induction t as [|a t IH]; intros Ht; cbn [search]; unfold match_here;
      rewrite (Hr _ [] Ht); [reflexivity|].
    apply IH. apply (no_upper_tail a). assumption. }
  apply Hsearch. apply lower_no_upper.
Qed.

Lemma part_after_word_fails_lower : fails_lower part_after_word.
Proof.
  unfold part_after_word. cbn [seqs].
  repeat apply fails_lower_seq_r. apply fails_lower_group.
  apply fails_lower_seq_l. apply fails_lower_upper.
Qed.

(** A match of [top\s*(\d+)] has its group. *)
Lemma search_top_number (s : string) (mo : match_obj) :
  search top_number s = Some mo ->
  exists digits,
    group 1 mo = Some digits
    /\ (String.length digits <= String.length s)%nat.
Proof.
  intros Hs. pose proof (search_length _ _ _ Hs 1%nat) as Hlen.
  destruct (search_run _ _ _ Hs) as (pre & t & rest & _ & Hin).
  unfold top_number in Hin. cbn [seqs] in Hin.
  apply run_seq_In in Hin as (s1 & c1 & H1 & Hin).
  destruct (run_keeps _ _ _ _ _ H1 eq_refl) as (-> & _).
  apply run_seq_In in Hin as (s2 & c2 & H2 & Hin).
  destruct (run_keeps _ _ _ _ _ H2 eq_refl) as (-> & _).
  apply run_group_In in Hin as (c3 & _ & Hc).
  unfold group in *. rewrite Hc in *. cbn [lookup_group Nat.eqb] in *.
  eexists. split; [reflexivity|]. apply Hlen. reflexivity.
Qed.

(** The count read after "top": it is not negative, and reading it fails
    only with the [ValueError] of [int], on more than 4300 digits. *)
Lemma number_or_top (ql : string) (default : Z) :
  match number_or (search top_number ql) default with
  | Returns n => 0 <= default -> 0 <= n
  | Raises e => e = ValueError
                /\ max_str_digits < Z.of_nat (String.length ql)
  end.
Proof.
  unfold number_or.
  destruct (search top_number ql) as [mo|] eqn:Es; [|auto].
  destruct (search_top_number _ _ Es) as (digits & -> & Hlen).
  destruct (int digits) as [n|] eqn:En.
  - intros _. apply (int_nonneg digits). assumption.
  - split; [reflexivity|]. apply int_refuses in En. lia.
Qed.

(** X15. A chart request that is analysed is always classified as one of
    three kinds of data, parts, trends or rejections, in that order of
    precedence, so [generate_intelligent_chart] then calls the parts, trend
    or rejection-reason chart routine: the "monthly" kind is shadowed by
    the trends test, nothing assigns "defects", and the fallback chart is
    never reached. No specific part is ever extracted, the pattern for it
    asking for a capital letter in the lower-cased question, and the count
    is never negative. The analysis fails only with the [ValueError] of
    [int] on a count of more than 4300 digits; the [except] clause then
    answers with the basic chart. *)
Theorem chart_request_kinds (q : string) :
  match analyze_chart_request q with
  | Returns a =>
      ((any_in ["part"; "component"] (lower q) = true
        /\ data_type a = "parts"
        /\ generate_intelligent_chart q = PartsAnalysisChart a)
       \/ (any_in ["part"; "component"] (lower q) = false
           /\ any_in ["trend"; "time"; "monthly"; "daily"; "over time"]
                     (lower q) = true
           /\ data_type a = "trends"
           /\ generate_intelligent_chart q = TrendChart a)
       \/ (any_in ["part"; "component"] (lower q) = false
           /\ any_in ["trend"; "time"; "monthly"; "daily"; "over time"]
                     (lower q) = false
           /\ data_type a = "rejections"
           /\ generate_intelligent_chart q = RejectionReasonsChart a))
      /\ specific_part a = None
      /\ 0 <= count a
  | Raises e =>
      e = ValueError
      /\ generate_intelligent_chart q = BasicChart ValueError
      /\ max_str_digits < Z.of_nat (String.length q)
  end.
Proof.
  unfold generate_intelligent_chart, analyze_chart_request.
  pose proof (number_or_top (lower q) 15) as Hcount.
  destruct (number_or (search top_number (lower q)) 15) as [n|e].
  - cbn [data_type specific_part count]. split; [|split].
    + destruct (any_in ["part"; "component"] (lower q));
        [left; repeat split|].
      destruct (any_in ["trend"; "time"; "monthly"; "daily"; "over time"]
                       (lower q)) eqn:Etrend;
        [right; left; repeat split|].
      right; right.
      destruct (any_in ["defect"; "rejection"; "reason"; "cause"] (lower q));
        [repeat split|].
      rewrite (any_in_false _ _ "monthly" Etrend) by (simpl; auto).
      repeat split.
    + rewrite (search_fails_lower part_after_word q
                 part_after_word_fails_lower).
      reflexivity.
    + apply Hcount. lia.
  - destruct Hcount as [-> Hlen]. rewrite lower_length in Hlen.
    repeat split. assumption.
Qed.

Example chart_request_examples :
  exists a b c d,
    analyze_chart_request "monthly chart" = Returns a
    /\ data_type a = "trends"
    /\ analyze_chart_request "chart of part PART-1001" = Returns b
    /\ data_type b = "parts" /\ specific_part b = None
    /\ analyze_chart_request "pie chart of top 47 defects" = Returns c
    /\ count c = 47
    /\ analyze_chart_request "pie or line" = Returns d
    /\ chart_type d = "pie".
Proof. do 4 eexists. repeat split; reflexivity. Qed.

Example chart_count_of_4301_digits :
  generate_intelligent_chart ("chart of the top " ++ nines 4301)
  = BasicChart ValueError.
Proof. vm_compute. reflexivity. Qed.

End ChartRequests.

(** ** Defect questions of the intelligent analyzer *)

Section DefectQuestions.
Import PyStr Regex Intelligent.

Lemma fallback_question_answer (self : Enhanced.analyzer)
      (again : option defect_answer) :
  defect_branches self "top 5 rejection reasons" again
  = Some (top_reasons self 5).
Proof. reflexivity. Qed.

Lemma find_defect_sound (cols keywords : list string) (ql found : string) :
  find_defect cols keywords ql = Some found ->
  exists keyword before after,
    In keyword keywords
    /\ contains keyword ql = true
    /\ cols = (before ++ found :: after)%list
    /\ contains (lower keyword) (lower found) = true
    /\ forall col, In col before ->
                   contains (lower keyword) (lower col) = false.
Proof.
  induction keywords as [|keyword rest IH]; cbn [find_defect];
    [discriminate|].
  assert (Hrest : find_defect cols rest ql = Some found ->
                  exists keyword0 before after,
                    In keyword0 (keyword :: rest)
                    /\ contains keyword0 ql = true
                    /\ cols = (before ++ found :: after)%list
                    /\ contains (lower keyword0) (lower found) = true
                    /\ forall col, In col before ->
                         contains (lower keyword0) (lower col) = false).
  { intros Hf. destruct (IH Hf) as (k & b & a & Hk & Hrest').
    exists k, b, a. split; [right; assumption | assumption]. }
  destruct (contains keyword ql) eqn:Eq; [|exact Hrest].
  destruct (filter _ cols) as [|first others] eqn:Ef; [exact Hrest|].
  intros [= ->]. exists keyword.
  assert (Hsplit : forall (f : string -> bool) l x xs,
             filter f l = x :: xs ->
             exists before after,
               l = (before ++ x :: after)%list /\ f x = true
               /\ forall y, In y before -> f y = false).
  { intros f l. induction l as [|y l IHl]; intros x xs; cbn [filter];
      [discriminate|].
    destruct (f y) eqn:Ey.
    - intros [= -> <-]. exists [], l. repeat split; [assumption|].
      intros z [].
    - intros Hfl. destruct (IHl _ _ Hfl) as (b & a & -> & Hx & Hb).
      exists (y :: b), a. repeat split; [assumption|].
      intros z [<- | Hz]; [assumption | apply Hb; assumption]. }
  destruct (Hsplit _ _ _ _ Ef) as (before & after & Hcols & Hfound & Hbefore).
  exists before, after. repeat split; try assumption. left. reflexivity.
Qed.

Lemma column_of_table (table : list (string * list Z)) (col : string) :
  In col (map fst table) -> Enhanced.column table col <> None.
Proof.
  induction table as [|[name values] table IH]; cbn [map fst Enhanced.column];
    [intros []|].
  destruct (String.eqb name col) eqn:E; [discriminate|].
  intros [-> | Hin]; [rewrite String.eqb_refl in E; discriminate|].
  apply IH. assumption.
Qed.

Lemma identified_in_table (table : list (string * list Z)) (col : string) :
  In col (Enhanced.identify_columns (map fst table)) ->
  Enhanced.column table col <> None.
Proof.
  intros Hin. apply column_of_table.
  rewrite identify_columns_filter in Hin. apply filter_In in Hin. tauto.
Qed.

Lemma active_columns_of_table (table : list (string * list Z))
      (cols : list string) :
  (forall col, In col cols -> Enhanced.column table col <> None) ->
  exists active, active_columns table cols = inr active.
Proof.
  induction cols as [|col cols IH]; intros Hcols; cbn [active_columns];
    [eauto|].
  destruct (Enhanced.column table col) eqn:Ecol;
    [|destruct (Hcols col (or_introl eq_refl) Ecol)].
  destruct IH as (active & ->); [intros c Hc; apply Hcols; right; assumption|].
  eauto.
Qed.

Lemma top_reasons_shape (self : Enhanced.analyzer) (n : Z) :
  (forall col, top_reasons self n <> KeyErrorRaised col)
  /\ (forall e, top_reasons self n <> CountRaised e)
  /\ (forall found total, top_reasons self n <> DefectTotal found total).
Proof.
  unfold top_reasons. destruct (Enhanced.defect_totals self);
    [repeat split; discriminate|].
  destruct (slice_to _ _); repeat split; discriminate.
Qed.

(** X16. For an analyzer built from a table, [handle_defect_questions]
    returns an answer or ends in the [ValueError] of [int], which takes a
    count of more than 4300 digits after "top"; it never fails on a column
    lookup. Its call to itself goes one level deep at most: the question it
    hands itself, "top 5 rejection reasons", is answered by the ranking
    branch, so a question that matches none of its tests gets the top five
    reasons. *)
Theorem defect_question_outcome (table : list (string * list Z))
        (q : string) :
  let self := Enhanced.analyzer_of_table table in
  exists a,
    (forall fuel, (2 <= fuel)%nat ->
                  handle_defect_questions_on fuel self q = Some a)
    /\ (forall col, a <> KeyErrorRaised col)
    /\ (forall e, a = CountRaised e ->
                  e = ValueError
                  /\ max_str_digits < Z.of_nat (String.length q))
    /\ (handle_defect_questions_on 1 self q = None ->
        a = top_reasons self 5).
Proof.
  cbv zeta. set (self := Enhanced.analyzer_of_table table).
  assert (Hdeep : forall fuel, (2 <= fuel)%nat ->
             handle_defect_questions_on fuel self q
             = defect_branches self q (Some (top_reasons self 5))).
  { intros [|[|fuel]] Hfuel; try lia.
    cbn [handle_defect_questions_on].
    rewrite fallback_question_answer. reflexivity. }
  assert (Hshallow : handle_defect_questions_on 1 self q
                     = defect_branches self q None) by reflexivity.
  destruct (top_reasons_shape self 5) as (Hkey5 & Hcount5 & _).
  cut (exists a,
          defect_branches self q (Some (top_reasons self 5)) = Some a
          /\ (forall col, a <> KeyErrorRaised col)
          /\ (forall e, a = CountRaised e ->
                        e = ValueError
                        /\ max_str_digits < Z.of_nat (String.length q))
          /\ (defect_branches self q None = None ->
              a = top_reasons self 5)).
  { intros (a & Ha & Hkey & Hcount & Hnone). exists a.
    split; [intros fuel Hfuel; rewrite Hdeep by assumption; exact Ha|].
    rewrite Hshallow. auto. }
  unfold defect_branches.
  destruct (any_in _ (lower q));
    [eexists; split; [reflexivity|]; repeat split; try discriminate|].
  destruct (any_in _ (lower q)).
  { pose proof (number_or_top (lower q) 5) as Htop.
    destruct (number_or (search top_number (lower q)) 5) as [n|e].
    - destruct (top_reasons_shape self n) as (Hkey & Hcount & _).
      eexists; split; [reflexivity|].
      split; [exact Hkey|]. split; [|discriminate].
      intros e He. destruct (Hcount e He).
    - destruct Htop as [-> Hlen]. rewrite lower_length in Hlen.
      eexists; split; [reflexivity|].
      split; [discriminate|]. split; [|discriminate].
      intros e [= <-]. auto. }
  cbv zeta.
  assert (Hlist : exists active,
             active_columns (Enhanced.df self) (Enhanced.defect_columns self)
             = inr active).
  { apply active_columns_of_table. apply identified_in_table. }
  destruct Hlist as (active & Hactive).
  assert (Htail : exists a,
             (if (contains "list" (lower q) || contains "all" (lower q))%bool
              then Some match active_columns (Enhanced.df self)
                                 (Enhanced.defect_columns self) with
                        | inl missing => KeyErrorRaised missing
                        | inr active => ActiveDefects active
                        end
              else Some (top_reasons self 5)) = Some a
             /\ (forall col, a <> KeyErrorRaised col)
             /\ (forall e, a = CountRaised e ->
                           e = ValueError
                           /\ max_str_digits < Z.of_nat (String.length q))
             /\ ((if (contains "list" (lower q)
                      || contains "all" (lower q))%bool
                  then Some match active_columns (Enhanced.df self)
                                     (Enhanced.defect_columns self) with
                            | inl missing => KeyErrorRaised missing
                            | inr active => ActiveDefects active
                            end
                  else None) = None -> a = top_reasons self 5)).
  { rewrite Hactive.
    destruct (contains "list" (lower q) || contains "all" (lower q))%bool;
      eexists; (split; [reflexivity|]).
    - repeat split; discriminate.
    - split; [exact Hkey5|]. split; [|reflexivity].
      intros e He. destruct (Hcount5 e He). }
  destruct (find_defect _ defect_keywords (lower q)) as [found|] eqn:Efind;
    [|exact Htail].
  destruct (truthy found); [|exact Htail].
  destruct (find_defect_sound _ _ _ _ Efind)
    as (keyword & before & after & _ & _ & Hcols & _).
  assert (Hin : In found (Enhanced.identify_columns (map fst table))).
  { change (Enhanced.identify_columns (map fst table))
      with (Enhanced.defect_columns self).
    rewrite Hcols. apply in_or_app. right. left. reflexivity. }
  pose proof (identified_in_table table found Hin) as Hcol.
  change (Enhanced.df self) with table.
  destruct (Enhanced.column table found) as [values|]; [|congruence].
  eexists; split; [reflexivity|]. repeat split; discriminate.
Qed.

(** X17. For a "top N" question without a chart word the intelligent
    analyzer gives what the enhanced analyzer's aggregation gives for the
    count written after "top", or for 5; the count is not clamped, so the
    answer is "No rejection data available" exactly when there is defect
    data and the count written is 0. A count of more than 4300 digits
    makes [int] raise its [ValueError], which leaves the handler. *)
Theorem top_count_is_not_clamped (self : Enhanced.analyzer)
        (q : string) (again : option defect_answer) :
  any_in ["chart"; "graph"; "plot"; "draw"; "create"; "show"; "visualize"]
         (lower q) = false ->
  any_in ["top"; "highest"; "most"; "frequent"] (lower q) = true ->
  match number_or (search top_number (lower q)) 5 with
  | Returns count =>
      defect_branches self q again
      = Some (of_enhanced
                (Enhanced.get_top_rejection_reasons self (Some count)))
      /\ (defect_branches self q again = Some NoRejectionDataAvailable
          <-> Enhanced.defect_totals self <> [] /\ count = 0)
  | Raises e =>
      e = ValueError
      /\ defect_branches self q again = Some (CountRaised ValueError)
      /\ max_str_digits < Z.of_nat (String.length q)
  end.
Proof.
  intros Hchart Htop.
  pose proof (number_or_top (lower q) 5) as Hcount.
  unfold defect_branches. rewrite Hchart, Htop.
  destruct (number_or (search top_number (lower q)) 5) as [count|e].
  - assert (Hnn : 0 <= count) by (apply Hcount; lia).
    unfold top_reasons, Enhanced.get_top_rejection_reasons.
    pose proof (sorted_desc_length (Enhanced.defect_totals self)) as Hlen.
    destruct (Enhanced.defect_totals self) as [|e totals].
    + split; [reflexivity|].
      split; [discriminate | intros [[] _]; reflexivity].
    + destruct (Enhanced.sorted_desc (e :: totals)) as [|e' sorted];
        [discriminate|].
      cbn [slice_to].
      destruct (count <? 0) eqn:E; [apply Z.ltb_lt in E; lia|].
      destruct (Z.to_nat count) as [|k] eqn:Ek; cbn [firstn].
      * split; [reflexivity|]. split; [|reflexivity].
        intros _. split; [discriminate | lia].
      * split; [reflexivity|].
        split; [discriminate | intros [_ H0]; lia].
  - destruct Hcount as [-> Hlen]. rewrite lower_length in Hlen.
    repeat split. assumption.
Qed.

Lemma top_count_is_not_clamped_witness :
  handle_defect_questions_on 2 six_defects "top 0 defects"
  = Some NoRejectionDataAvailable
  /\ handle_defect_questions_on 2 six_defects "top 47 defects"
     = Some (of_enhanced
               (Enhanced.get_top_rejection_reasons six_defects (Some 47))).
Proof.
  split.
  - apply (proj2 (top_count_is_not_clamped six_defects "top 0 defects"
                    (handle_defect_questions_on 1 six_defects
                       "top 5 rejection reasons")
                    eq_refl eq_refl)).
    split; [discriminate | reflexivity].
  - exact (proj1 (top_count_is_not_clamped six_defects "top 47 defects"
                    (handle_defect_questions_on 1 six_defects
                       "top 5 rejection reasons")
                    eq_refl eq_refl)).
Defined.

(** *** The defect a question names *)



Example defect_count_of_4301_digits :
  handle_defect_questions_on 2 six_defects ("top " ++ nines 4301 ++ " defects")
  = Some (CountRaised ValueError).
Proof. vm_compute. reflexivity. Qed.

End DefectQuestions.

(** ** Where a resolved part comes from *)

Section ResolvedPart.
Import PyStr Regex Intelligent.

(** A match of a grouped pattern that begins with a capital letter: the
    group is the whole match, which begins with a capital letter and lies
    in the text searched. *)
Lemma entity_match (r2 : regex) (s : string) (mo : match_obj) :
  no_group r2 = true ->
  search (RGroup 1 (RSeq (RSet upper) r2)) s = Some mo ->
  exists a w,
    group 1 mo = Some (String a w)
    /\ is_upper a = true
    /\ exists pre rest, s = pre ++ String a w ++ rest.
Proof.
  intros Hng Hsearch.
  destruct (search_inside _ _ _ Hsearch) as (pre & t & -> & Hhere).
  unfold match_here in Hhere. cbn [run] in Hhere.
  destruct (flat_map _ _) as [|[rest c] others] eqn:Eflat;
    [discriminate|].
  cbn [map fst snd] in Hhere. injection Hhere as <-.
  pose proof (in_eq (rest, c) others) as Hin. rewrite <- Eflat in Hin.
  apply in_flat_map in Hin as ([t0 c0] & Hfirst & Hrest).
  cbn [run] in Hfirst.
  destruct t as [|a t']; [destruct Hfirst|].
  destruct (upper a) eqn:Ea; [|destruct Hfirst].
  destruct Hfirst as [[= <- <-] | []]. cbn [fst snd] in Hrest.
  destruct (run_suffix _ _ _ _ _ Hrest) as (w & ->).
  rewrite (run_no_group r2 Hng _ _ _ _ Hrest).
  exists a, w. unfold group. cbn [groups lookup_group Nat.eqb].
  change (String a (w ++ rest)) with (String a w ++ rest).
  rewrite consumed_app. repeat split; [exact Ea|].
  exists pre, rest. reflexivity.
Qed.

Lemma upper_is_not_space (a : ascii) : is_upper a = true -> is_space a = false.
Proof.
  destruct a as [[] [] [] [] [] [] [] []]; intros Hu;
    try reflexivity; discriminate.
Qed.

Lemma strip_capitalized (a : ascii) (w : string) :
  is_upper a = true ->
  exists w' b, strip (String a w) = String a w' /\ w = w' ++ b.
Proof.
  intros Hu. pose proof (upper_is_not_space a Hu) as Hs.
  unfold strip. cbn [lstrip]. rewrite Hs.
  destruct (rstrip_cons a w) as [-> | (_ & Hsp & _)]; [|congruence].
  destruct (rstrip_prefix w) as (b & Hb). exists (rstrip w), b. auto.
Qed.

(** X19. A part a follow-up question is resolved to is never made up: the
    question has a context word, the previous answer is not empty, and the
    part is a piece of the text of the previous answer that begins with a
    capital letter. *)
Theorem resolved_part_comes_from_answer (m : conversation_memory)
        (q p : string) :
  resolve_part m q = Some p ->
  any_in context_words (lower q) = true
  /\ last_answer m <> EmptyString
  /\ contains p (last_answer m) = true
  /\ exists a t, p = String a t /\ is_upper a = true.
Proof.
  unfold resolve_part. destruct (triggered _ _) eqn:Etrig; [|discriminate].
  unfold triggered in Etrig. apply andb_true_iff in Etrig as [Hcue Hans].
  rewrite part_match_from_answer.
  intros Hres.
  assert (Hmatch : exists r2 mo,
             no_group r2 = true
             /\ search (RGroup 1 (RSeq (RSet upper) r2)) (last_answer m)
                = Some mo
             /\ part_name_of mo = Some p).
  { unfold or_else in Hres.
    destruct (search part_in_answer (last_answer m)) as [mo|] eqn:E1.
    - eexists _, mo. split; [|split; [exact E1 | exact Hres]]. reflexivity.
    - destruct (search long_part_in_answer (last_answer m)) as [mo|] eqn:E2;
        [|discriminate].
      eexists _, mo. split; [|split; [exact E2 | exact Hres]]. reflexivity. }
  destruct Hmatch as (r2 & mo & Hng & Hsearch & Hname).
  destruct (entity_match r2 _ mo Hng Hsearch)
    as (a & w & Hgroup & Hu & pre & rest & Hla).
  unfold part_name_of in Hname. rewrite Hgroup in Hname.
  cbn [truthy] in Hname. injection Hname as <-.
  destruct (strip_capitalized a w Hu) as (w' & b & -> & ->).
  split; [assumption|]. split; [apply truthy_not_empty; assumption|].
  split; [|eauto].
  apply contains_iff. exists pre, (b ++ rest).
  rewrite Hla. f_equal. cbn. rewrite append_assoc. reflexivity.
Qed.

Lemma resolved_part_comes_from_answer_witness :
  resolve_part (set_last_answer part_answer
                  (set_last_question turn2 fresh_memory)) turn2
  = Some "PART-1001"
  /\ contains "PART-1001" part_answer = true.
Proof.
  split; [reflexivity|].
  exact (proj1 (proj2 (proj2
           (resolved_part_comes_from_answer
              (set_last_answer part_answer
                 (set_last_question turn2 fresh_memory))
              turn2 "PART-1001" eq_refl)))).
Defined.

End ResolvedPart.

(** ** Date questions *)

Section DateQuestions.
Import PyStr Regex Intelligent.

(** *** What the two patterns capture *)

Lemma date_pattern_match (s rest : string) (c : captures) :
  In (rest, c) (run date_pattern s []) ->
  exists day_text name year_text pre post,
    c = [(3%nat, year_text); (2%nat, name); (1%nat, day_text)]
    /\ In name month_names
    /\ s = pre ++ name ++ post
    /\ (String.length day_text <= 2)%nat
    /\ (String.length year_text <= 4)%nat.
Proof.
  unfold date_pattern. cbn [seqs]. intros H.
  apply run_seq_In in H as (s1 & c1 & H1 & H).
  apply run_group_In in H1 as (c0 & H1 & ->).
  pose proof (run_takes_at_most _ _ _ _ _ _ H1 eq_refl) as Hday.
  destruct (run_keeps _ _ _ _ _ H1 eq_refl) as (-> & p1 & ->).
  rewrite consumed_app in H. rewrite length_append in Hday.
  apply run_seq_In in H as (s2 & c2 & H2 & H).
  destruct (run_keeps _ _ _ _ _ H2 eq_refl) as (-> & p2 & ->).
  apply run_seq_In in H as (s3 & c3 & H3 & H).
  destruct (run_keeps _ _ _ _ _ H3 eq_refl) as (-> & p3 & ->).
  apply run_seq_In in H as (s4 & c4 & H4 & H).
  apply run_group_In in H4 as (c3 & H4 & ->).
  apply run_lits_In in H4 as (-> & name & Hname & ->).
  rewrite consumed_app in H.
  apply run_seq_In in H as (s5 & c5 & H5 & H).
  destruct (run_keeps _ _ _ _ _ H5 eq_refl) as (-> & p5 & ->).
  apply run_group_In in H as (c6 & H6 & ->).
  pose proof (run_takes_at_most _ _ _ _ _ _ H6 eq_refl) as Hyear.
  destruct (run_keeps _ _ _ _ _ H6 eq_refl) as (-> & p6 & ->).
  rewrite consumed_app. rewrite length_append in Hyear.
  exists p1, name, p6, (p1 ++ p2 ++ p3), (p5 ++ p6 ++ rest).
  split; [reflexivity|]. split; [assumption|].
  split; [rewrite !append_assoc; reflexivity|].
  cbn in Hday, Hyear. lia.
Qed.

Lemma month_pattern_match (s rest : string) (c : captures) :
  In (rest, c) (run month_pattern s []) ->
  exists name year_text post,
    c = [(2%nat, year_text); (1%nat, name)]
    /\ In name month_names
    /\ s = name ++ post
    /\ (String.length year_text <= 4)%nat.
Proof.
  unfold month_pattern. cbn [seqs]. intros H.
  apply run_seq_In in H as (s1 & c1 & H1 & H).
  apply run_group_In in H1 as (c0 & H1 & ->).
  apply run_lits_In in H1 as (-> & name & Hname & ->).
  rewrite consumed_app in H.
  apply run_seq_In in H as (s2 & c2 & H2 & H).
  destruct (run_keeps _ _ _ _ _ H2 eq_refl) as (-> & p2 & ->).
  apply run_group_In in H as (c3 & H3 & ->).
  pose proof (run_takes_at_most _ _ _ _ _ _ H3 eq_refl) as Hyear.
  destruct (run_keeps _ _ _ _ _ H3 eq_refl) as (-> & p3 & ->).
  rewrite consumed_app. rewrite length_append in Hyear.
  exists name, p3, (p2 ++ p3 ++ rest).
  split; [reflexivity|]. split; [assumption|].
  split; [reflexivity|]. cbn in Hyear. lia.
Qed.

Lemma month_number_total (name : string) :
  In name month_names ->
  exists month, month_number name = Some month /\ 1 <= month <= 12.
Proof.
  unfold month_names. intros Hin.
  repeat (destruct Hin as [<- | Hin];
          [eexists; split; [reflexivity | cbn; lia]|]).
  destruct Hin.
Qed.

Lemma int_of_short_text (text : string) :
  (String.length text <= 4)%nat -> int text = Some (int_of_digits text).
Proof. intros Hlen. apply int_accepts. unfold max_str_digits. lia. Qed.

(** A match of the first pattern has its three groups, texts [int]
    accepts in the first and the third and a month of the map in the
    second. *)
Lemma search_date_groups (ql : string) (m : match_obj) :
  search date_pattern ql = Some m ->
  exists day_text name year_text month,
    int_group 1 m = Returns (int_of_digits day_text)
    /\ group 1 m = Some day_text
    /\ group 2 m = Some name
    /\ int_group 3 m = Returns (int_of_digits year_text)
    /\ group 3 m = Some year_text
    /\ month_number name = Some month /\ 1 <= month <= 12
    /\ contains name ql = true.
Proof.
  intros Hs. destruct (search_run _ _ _ Hs) as (pre0 & t & rest & -> & Hin).
  destruct (date_pattern_match _ _ _ Hin)
    as (day_text & name & year_text & pre & post & Hc & Hname & -> & Hday
        & Hyear).
  destruct (month_number_total name Hname) as (month & Hmonth & Hrange).
  exists day_text, name, year_text, month. unfold int_group, group.
  rewrite Hc. cbn [lookup_group Nat.eqb].
  rewrite !int_of_short_text by lia.
  repeat split; try assumption; try lia.
  apply contains_iff. exists (pre0 ++ pre), post.
  rewrite !append_assoc. reflexivity.
Qed.

Lemma search_month_groups (ql : string) (m : match_obj) :
  search month_pattern ql = Some m ->
  exists name year_text month,
    group 1 m = Some name
    /\ int_group 2 m = Returns (int_of_digits year_text)
    /\ month_number name = Some month /\ 1 <= month <= 12
    /\ contains name ql = true.
Proof.
  intros Hs. destruct (search_run _ _ _ Hs) as (pre0 & t & rest & -> & Hin).
  destruct (month_pattern_match _ _ _ Hin)
    as (name & year_text & post & Hc & Hname & -> & Hyear).
  destruct (month_number_total name Hname) as (month & Hmonth & Hrange).
  exists name, year_text, month. unfold int_group, group. rewrite Hc.
  cbn [lookup_group Nat.eqb]. rewrite int_of_short_text by lia.
  repeat split; try assumption; try lia.
  apply contains_iff. exists pre0, post. reflexivity.
Qed.

(** The answer to a question that names a day, and what is left for the
    other questions. *)
Lemma handle_named_date (df : list record) (q : string) :
  match named_date q with
  | Some (year, month, day) =>
      exists name,
        month_number name = Some month
        /\ contains name (lower q) = true
        /\ handle_date_questions_on df q
           = Returns (day_answer df year (Some name) day)
  | None => search date_pattern (lower q) = None
  end.
Proof.
  unfold named_date, handle_date_questions_on.
  destruct (search date_pattern (lower q)) as [m|] eqn:Es; [|reflexivity].
  destruct (search_date_groups _ _ Es)
    as (day_text & name & year_text & month & -> & -> & -> & -> & ->
        & Hm & _ & Hc).
  rewrite Hm. exists name. auto.
Qed.

Lemma month_answer_returns (df : list record) (name : string) (year : Z)
      (month : Z) :
  month_number name = Some month ->
  month_answer df name year
  = Returns (if Nat.ltb 0 (List.length (filter (in_month month year) df))
             then MonthTotal
                    (Enhanced.sum
                       (map Total_Rej_Qty
                            (filter (in_month month year) df)))
                    name year
             else NoDataForMonth name year).
Proof.
  intros Hm. unfold month_answer. rewrite Hm.
  destruct (Nat.ltb 0 _); reflexivity.
Qed.

(** Without a named day the answer is one of the month, the "highest"
    answer or the request to specify. *)
Lemma handle_without_date (df : list record) (q : string) :
  search date_pattern (lower q) = None ->
  (exists name year month,
      contains name (lower q) = true
      /\ month_number name = Some month
      /\ 1 <= month <= 12
      /\ search month_pattern (lower q) <> None
      /\ handle_date_questions_on df q = month_answer df name year)
  \/ search month_pattern (lower q) = None
     /\ handle_date_questions_on df q
        = if contains "highest" (lower q) then highest_date df
          else Returns SpecifyDate.
Proof.
  intros Hd. unfold handle_date_questions_on. rewrite Hd.
  destruct (search month_pattern (lower q)) as [m|] eqn:Es.
  - left. destruct (search_month_groups _ _ Es)
      as (name & year_text & month & -> & -> & Hm & Hrange & Hc).
    exists name, (int_of_digits year_text), month.
    repeat split; try assumption; try lia. discriminate.
  - right. split; reflexivity.
Qed.

(** *** Cells and days *)

Lemma cell_eqb_eq (x y : option string) : cell_eqb x y = true <-> x = y.
Proof.
  destruct x as [a|], y as [b|]; cbn [cell_eqb];
    try (split; [discriminate | intros [=]]); try tauto.
  rewrite String.eqb_eq. split; [intros ->; reflexivity | intros [= ->]].
  reflexivity.
Qed.

Lemma unique_In (cells : list (option string)) (x : option string) :
  In x (unique cells) <-> In x cells.
Proof.
  induction cells as [|y rest IH]; cbn [unique]; [tauto|].
  cbn [In]. rewrite filter_In, IH. split.
  - intros [H | [H _]]; auto.
  - intros [H | H]; [left; assumption|].
    destruct (cell_eqb y x) eqn:E.
    + left. apply cell_eqb_eq. assumption.
    + right. split; [assumption | reflexivity].
Qed.

Lemma unique_NoDup (cells : list (option string)) : NoDup (unique cells).
Proof.
  induction cells as [|y rest IH]; cbn [unique]; constructor.
  - intros Hin. apply filter_In in Hin as [_ Hneq].
    rewrite (proj2 (cell_eqb_eq y y) eq_refl) in Hneq. discriminate.
  - apply NoDup_filter. assumption.
Qed.

Lemma join_names_Some (parts : list (option string)) :
  forall names, join_names parts = Some names -> parts = map Some names.
Proof.
  induction parts as [|[name|] rest IH]; intros names; cbn [join_names].
  - intros [= <-]. reflexivity.
  - destruct (join_names rest) as [names'|]; [|discriminate].
    intros [= <-]. cbn [map]. rewrite (IH names' eq_refl). reflexivity.
  - discriminate.
Qed.

Lemma join_names_None (parts : list (option string)) :
  join_names parts = None <-> In None parts.
Proof.
  induction parts as [|[name|] rest IH]; cbn [join_names In].
  - split; [discriminate | intros []].
  - destruct (join_names rest) as [names'|]; cbn [option_map].
    + split; [discriminate|]. intros [H | H]; [discriminate|].
      apply IH in H. discriminate.
    + split; [|reflexivity]. intros _. right. apply IH. reflexivity.
  - split; [auto | reflexivity].
Qed.

Lemma date_eqb_eq (a b : Z * Z * Z) : date_eqb a b = true <-> a = b.
Proof.
  destruct a as [[y1 m1] d1], b as [[y2 m2] d2]. unfold date_eqb.
  rewrite !andb_true_iff, !Z.eqb_eq. split.
  - intros [[-> ->] ->]. reflexivity.
  - intros [= -> -> ->]. auto.
Qed.

Lemma on_day_iff (day : Z * Z * Z) (r : record) :
  on_day day r = true <-> Date r = Some day.
Proof.
  unfold on_day. destruct (Date r) as [day'|].
  - rewrite date_eqb_eq. split; [intros ->; reflexivity | intros [= ->]].
    reflexivity.
  - split; discriminate.
Qed.

Lemma datetime_calendar (year month day : Z) :
  (calendar_day (year, month, day)
   /\ datetime year month day = Some (year, month, day))
  \/ (~ calendar_day (year, month, day)
      /\ datetime year month day = None).
Proof.
  unfold datetime, calendar_day.
  destruct (1 <=? year) eqn:E1; cbn [andb];
    [apply Z.leb_le in E1 | apply Z.leb_gt in E1; right; split; [lia|auto]].
  destruct (year <=? 9999) eqn:E2; cbn [andb];
    [apply Z.leb_le in E2 | apply Z.leb_gt in E2; right; split; [lia|auto]].
  destruct (1 <=? month) eqn:E3; cbn [andb];
    [apply Z.leb_le in E3 | apply Z.leb_gt in E3; right; split; [lia|auto]].
  destruct (month <=? 12) eqn:E4; cbn [andb];
    [apply Z.leb_le in E4 | apply Z.leb_gt in E4; right; split; [lia|auto]].
  destruct (1 <=? day) eqn:E5; cbn [andb];
    [apply Z.leb_le in E5 | apply Z.leb_gt in E5; right; split; [lia|auto]].
  destruct (day <=? days_in_month year month) eqn:E6;
    [apply Z.leb_le in E6; left; split; [lia|auto]
    | apply Z.leb_gt in E6; right; split; [lia|auto]].
Qed.

Lemma month_number_In (name : string) (month : Z) :
  month_number name = Some month -> In name month_names.
Proof.
  unfold month_number.
  destruct (find _ month_map) as [e|] eqn:E; [|discriminate].
  intros _. apply find_some in E as [Hin Heq].
  apply String.eqb_eq in Heq. subst name.
  change month_names with (map fst month_map). apply in_map. assumption.
Qed.

(** The rows of a day and the parts listed for it. *)
Lemma day_rows (df : list record) (day : Z * Z * Z) :
  Nat.ltb 0 (List.length (filter (on_day day) df)) = true
  <-> exists r, In r df /\ Date r = Some day.
Proof.
  split.
  - destruct (filter (on_day day) df) as [|r rows] eqn:E; [discriminate|].
    intros _. exists r.
    assert (Hin : In r (filter (on_day day) df))
      by (rewrite E; apply in_eq).
    apply filter_In in Hin as [Hin Hday].
    split; [assumption | apply on_day_iff; assumption].
  - intros (r & Hin & Hday).
    assert (Hf : In r (filter (on_day day) df))
      by (apply filter_In; split; [assumption | apply on_day_iff; assumption]).
    destruct (filter (on_day day) df); [destruct Hf | reflexivity].
Qed.

Lemma parts_on_In (df : list record) (day : Z * Z * Z)
      (cell : option string) :
  In cell (parts_on df day)
  <-> exists r, In r df /\ Date r = Some day /\ Part_Name r = cell.
Proof.
  unfold parts_on. rewrite unique_In, in_map_iff. split.
  - intros (r & Hcell & Hin). apply filter_In in Hin as [Hin Hday].
    exists r. rewrite <- on_day_iff. auto.
  - intros (r & Hin & Hday & Hcell). exists r. split; [assumption|].
    apply filter_In. rewrite on_day_iff. auto.
Qed.

(** The answer for a day that is named with a month of the map. *)
Lemma day_answer_cases (df : list record) (year month day : Z)
      (name : string) :
  month_number name = Some month ->
  (~ calendar_day (year, month, day)
   /\ day_answer df year (Some name) day = InvalidDateFormat)
  \/ (calendar_day (year, month, day)
      /\ day_answer df year (Some name) day
         = if Nat.ltb 0 (List.length
                           (filter (on_day (year, month, day)) df))
           then match join_names
                        (firstn 3 (parts_on df (year, month, day))) with
                | Some names =>
                    DayTotal
                      (Enhanced.sum
                         (map Total_Rej_Qty
                              (filter (on_day (year, month, day)) df)))
                      (year, month, day) names
                      (Nat.ltb 3 (List.length
                                    (parts_on df (year, month, day))))
                | None => InvalidDateFormat
                end
           else NoDataForDay (year, month, day)).
Proof.
  intros Hm. unfold day_answer. rewrite Hm.
  destruct (datetime_calendar year month day) as [[Hcal ->] | [Hcal ->]].
  - right. split; [assumption | reflexivity].
  - left. split; [assumption | reflexivity].
Qed.

(** *** The answers *)

Lemma day_rows_dated (df : list record) :
  existsb dated df = false <-> forall r, In r df -> Date r = None.
Proof.
  split.
  - intros Hnone r Hin. destruct (Date r) as [day|] eqn:E; [|reflexivity].
    assert (existsb dated df = true); [|congruence].
    apply existsb_exists. exists r. unfold dated. rewrite E. auto.
  - intros Hall. destruct (existsb dated df) eqn:E; [|reflexivity].
    apply existsb_exists in E as (r & Hin & Hd). unfold dated in Hd.
    rewrite (Hall r Hin) in Hd. discriminate.
Qed.

(** X20. The only exception that leaves the date handler is the
    [IndexError] of its "highest" branch, raised exactly when neither
    pattern matches, the question contains "highest" and no row of the
    frame has a date. No lookup of a group or of the month map fails and
    [int] accepts every group it is given: with a dated row in the frame
    every question gets an answer. *)
Theorem date_question_raises_only_index_error (df : list record)
        (q : string) :
  (forall e,
      handle_date_questions_on df q = Raises e
      <-> e = IndexError
          /\ search date_pattern (lower q) = None
          /\ search month_pattern (lower q) = None
          /\ contains "highest" (lower q) = true
          /\ forall r, In r df -> Date r = None)
  /\ ((exists r, In r df /\ Date r <> None) ->
      exists answer, handle_date_questions_on df q = Returns answer).
Proof.
  assert (Hiff : forall e,
             handle_date_questions_on df q = Raises e
             <-> e = IndexError
                 /\ search date_pattern (lower q) = None
                 /\ search month_pattern (lower q) = None
                 /\ contains "highest" (lower q) = true
                 /\ forall r, In r df -> Date r = None).
  { intros e. pose proof (handle_named_date df q) as Hn.
    destruct (named_date q) as [[[year month] day]|] eqn:En.
    - destruct Hn as (name & _ & Hc & ->).
      split; [discriminate|]. intros (_ & Hd & _).
      unfold named_date in En. rewrite Hd in En. discriminate.
    - destruct (handle_without_date df q Hn)
        as [(name & year & month & _ & Hm & _ & Hsome & ->) | (Hnone & ->)].
      + rewrite (month_answer_returns df name year month Hm).
        split; [discriminate|]. intros (_ & _ & Hno & _). contradiction.
      + unfold highest_date. rewrite <- day_rows_dated.
        destruct (contains "highest" (lower q));
          [destruct (existsb dated df)|].
        * split; [discriminate|].
          intros (_ & _ & _ & _ & H). discriminate.
        * split; [intros [= <-]; repeat split; assumption|].
          intros (-> & _). reflexivity.
        * split; [discriminate|].
          intros (_ & _ & _ & H & _). discriminate. }
  split; [exact Hiff|].
  intros (r & Hin & Hdate).
  destruct (handle_date_questions_on df q) as [answer|e] eqn:E; [eauto|].
  destruct (proj1 (Hiff e) eq_refl) as (_ & _ & _ & _ & Hall).
  destruct (Hdate (Hall r Hin)).
Qed.

Lemma date_question_raises_only_index_error_witness :
  handle_date_questions_on [] "which day was the highest?"
  = Raises IndexError
  /\ exists answer,
       handle_date_questions_on april_rows "which day was the highest?"
       = Returns answer.
Proof.
  split.
  - apply (proj1 (date_question_raises_only_index_error
                    [] "which day was the highest?")).
    repeat split; try reflexivity. intros r [].
  - apply (proj2 (date_question_raises_only_index_error
                    april_rows "which day was the highest?")).
    eexists. split; [left; reflexivity | discriminate].
Defined.

(** X21. A reported total of a day is sound: the day is the one the
    question names and a day of the calendar, some row has that date, the
    total is the sum of the rejected quantities of the rows of that date,
    and the parts listed are at most three distinct part names of such
    rows; without the mark for more parts every row of the day has one of
    the listed names, with it some row of the day has none of them. *)
Theorem day_total_is_sound (df : list record) (q : string) (total : Z)
        (day : Z * Z * Z) (parts : list string) (more : bool) :
  handle_date_questions_on df q = Returns (DayTotal total day parts more) ->
  named_date q = Some day
  /\ calendar_day day
  /\ (exists r, In r df /\ Date r = Some day)
  /\ total = Enhanced.sum (map Total_Rej_Qty (filter (on_day day) df))
  /\ NoDup parts
  /\ (List.length parts <= 3)%nat
  /\ (forall p, In p parts ->
                exists r, In r df /\ Date r = Some day
                          /\ Part_Name r = Some p)
  /\ (more = false ->
      forall r, In r df -> Date r = Some day ->
                exists p, Part_Name r = Some p /\ In p parts)
  /\ (more = true ->
      exists r, In r df /\ Date r = Some day
                /\ forall p, In p parts -> Part_Name r <> Some p).
Proof.
  intros H. pose proof (handle_named_date df q) as Hn.
  destruct (named_date q) as [[[year month] d]|].
  2:{ destruct (handle_without_date df q Hn)
        as [(name & year & month & _ & Hm & _ & _ & Hq) | (_ & Hq)];
        rewrite Hq in H.
      - rewrite (month_answer_returns df name year month Hm) in H.
        destruct (Nat.ltb 0 _); discriminate.
      - unfold highest_date in H.
        destruct (contains "highest" (lower q));
          [destruct (existsb dated df)|]; discriminate. }
  destruct Hn as (name & Hm & _ & Hq). rewrite Hq in H.
  injection H as H.
  destruct (day_answer_cases df year month d name Hm)
    as [[_ Ha] | [Hcal Ha]]; rewrite Ha in H; [discriminate|].
  destruct (Nat.ltb 0 _) eqn:Erows; [|discriminate].
  destruct (join_names _) as [names|] eqn:Ej; [|discriminate].
  injection H as <- <- <- <-.
  apply join_names_Some in Ej.
  set (day := (year, month, d)) in *.
  pose proof (unique_NoDup (map Part_Name (filter (on_day day) df)))
    as Hnd. fold (parts_on df day) in Hnd.
  split; [reflexivity|]. split; [assumption|].
  split; [apply day_rows; assumption|]. split; [reflexivity|].
  split; [|split; [|split; [|split]]].
  - apply (NoDup_map_inv Some). rewrite <- Ej.
    apply firstn_NoDup. assumption.
  - rewrite <- (length_map Some), <- Ej, length_firstn. lia.
  - intros p Hp. apply (parts_on_In df day (Some p)).
    apply (firstn_In 3). rewrite Ej. apply in_map. assumption.
  - intros Hmore r Hin Hday.
    apply Nat.ltb_ge in Hmore.
    rewrite (firstn_all2 _ Hmore) in Ej.
    assert (Hcell : In (Part_Name r) (parts_on df day))
      by (apply parts_on_In; exists r; auto).
    rewrite Ej in Hcell. apply in_map_iff in Hcell as (p & Hp & Hpin).
    exists p. auto.
  - intros Hmore. apply Nat.ltb_lt in Hmore.
    pose proof (firstn_skipn 3 (parts_on df day)) as Hsplit.
    destruct (skipn 3 (parts_on df day)) as [|cell others] eqn:Eskip.
    { pose proof (length_skipn 3 (parts_on df day)) as Hlen.
      rewrite Eskip in Hlen. cbn [List.length] in Hlen. lia. }
    rewrite <- Hsplit in Hnd. apply NoDup_remove_2 in Hnd.
    assert (Hcell : In cell (parts_on df day))
      by (rewrite <- Hsplit; apply in_or_app; right; apply in_eq).
    apply parts_on_In in Hcell as (r & Hin & Hday & Hr).
    exists r. split; [assumption|]. split; [assumption|].
    intros p Hp Heq. apply Hnd. apply in_or_app. left.
    rewrite Ej, <- Hr, Heq. apply in_map. assumption.
Qed.

Lemma day_total_is_sound_witness :
  handle_date_questions_on april_rows "Rejections on 30th April 2024?"
  = Returns (DayTotal 13 (2024, 4, 30) ["HOUSING"; "COVER"] false)
  /\ named_date "Rejections on 30th April 2024?" = Some (2024, 4, 30).
Proof.
  split; [reflexivity|].
  exact (proj1 (day_total_is_sound april_rows
                  "Rejections on 30th April 2024?" 13 (2024, 4, 30)
                  ["HOUSING"; "COVER"] false eq_refl)).
Defined.

(** X22. The answer is "Invalid date format" exactly when the question
    names a day and either that day is not in the calendar (day 0, 31
    April, 29 February of a common year, year 0000) or one of the first
    three distinct part cells of the rows of that day holds no text; the
    month named with it is not looked up in the data. *)
Theorem invalid_date_iff (df : list record) (q : string) :
  handle_date_questions_on df q = Returns InvalidDateFormat
  <-> exists day,
        named_date q = Some day
        /\ (~ calendar_day day \/ In None (firstn 3 (parts_on df day))).
Proof.
  pose proof (handle_named_date df q) as Hn.
  destruct (named_date q) as [[[year month] d]|].
  2:{ split; [|intros (day & [=] & _)].
      destruct (handle_without_date df q Hn)
        as [(name & year & month & _ & Hm & _ & _ & Hq) | (_ & Hq)];
        rewrite Hq.
      - rewrite (month_answer_returns df name year month Hm).
        destruct (Nat.ltb 0 _); discriminate.
      - unfold highest_date.
        destruct (contains "highest" (lower q));
          [destruct (existsb dated df)|]; discriminate. }
  destruct Hn as (name & Hm & _ & ->).
  destruct (day_answer_cases df year month d name Hm)
    as [[Hcal ->] | [Hcal ->]].
  - split; [|reflexivity]. intros _. exists (year, month, d). auto.
  - set (day := (year, month, d)) in *. split.
    + intros H. exists day. split; [reflexivity|]. right.
      destruct (Nat.ltb 0 _); [|discriminate].
      destruct (join_names _) eqn:Ej; [discriminate|].
      apply join_names_None. assumption.
    + intros (day' & [= <-] & [Hno | Hin]); [contradiction|].
      assert (Hrows : Nat.ltb 0 (List.length (filter (on_day day) df))
                      = true).
      { apply day_rows. apply firstn_In in Hin.
        apply parts_on_In in Hin as (r & Hr & Hday & _). eauto. }
      rewrite Hrows. apply join_names_None in Hin. rewrite Hin.
      reflexivity.
Qed.

Lemma invalid_date_iff_witness :
  handle_date_questions_on april_rows "31 April 2024"
  = Returns InvalidDateFormat
  /\ handle_date_questions_on april_rows "29 february 2024"
     = Returns InvalidDateFormat
  /\ handle_date_questions_on april_rows "april 2024"
     = Returns (MonthTotal 13 "april" 2024).
Proof.
  split; [|split; [|reflexivity]].
  - apply (proj2 (invalid_date_iff april_rows "31 April 2024")).
    exists (2024, 4, 31). split; [reflexivity|]. left.
    cbv. intros (_ & _ & _ & H). apply H. reflexivity.
  - apply (proj2 (invalid_date_iff april_rows "29 february 2024")).
    exists (2024, 2, 29). split; [reflexivity|]. right.
    left. reflexivity.
Defined.

(** X23. A question in which no month is written out in full gets no
    figure from the data: when it contains "highest" the handler looks for
    the date of the highest rejections, which it finds when a row of the
    frame has a date and which ends in an [IndexError] otherwise; it asks
    to specify the date in every other case. *)
Theorem no_month_name_no_figure (df : list record) (q : string) :
  any_in month_names (lower q) = false ->
  handle_date_questions_on df q
  = if contains "highest" (lower q)
    then (if existsb dated df then Returns HighestDate
          else Raises IndexError)
    else Returns SpecifyDate.
Proof.
  intros Hnone.
  assert (Hno : forall name month,
             month_number name = Some month ->
             contains name (lower q) = true -> False).
  { intros name month Hm Hc.
    rewrite (any_in_member name month_names (lower q)) in Hnone;
      [discriminate | | assumption].
    apply (month_number_In name month). assumption. }
  pose proof (handle_named_date df q) as Hn.
  destruct (named_date q) as [[[year month] d]|].
  - destruct Hn as (name & Hm & Hc & _). destruct (Hno name month Hm Hc).
  - destruct (handle_without_date df q Hn)
      as [(name & year & month & Hc & Hm & _) | (_ & Hq)].
    + destruct (Hno name month Hm Hc).
    + exact Hq.
Qed.

Lemma no_month_name_no_figure_witness :
  any_in month_names (lower "Rejections on 30/04/2024, the highest?") = false
  /\ handle_date_questions_on april_rows
       "Rejections on 30/04/2024, the highest?"
     = Returns HighestDate
  /\ handle_date_questions_on [] "Rejections on 30/04/2024, the highest?"
     = Raises IndexError.
Proof.
  split; [reflexivity|]. split.
  - exact (no_month_name_no_figure april_rows
             "Rejections on 30/04/2024, the highest?" eq_refl).
  - exact (no_month_name_no_figure []
             "Rejections on 30/04/2024, the highest?" eq_refl).
Defined.

End DateQuestions.
